(** * BioCalc: life-cycle carbon intensity of solid biofuels

    A shallow embedding of the calculation engine of the repository
    ([src/core/fase_*.py], [src/core/calculo.py]) and of its input validator
    ([src/utils/validacao.py]), with the properties of the specification
    stated and proved over it.

    Conventions of the embedding.
    - Python numbers (int and float) are exact rationals [Q]; Python's [==]
      on numbers is [Qeq] (notation [==]), and [<], [<=], [>] are the orders
      of [Q].  Rounding, overflow and NaN of binary64 are outside the model.
    - A Python [dict] with string keys is a [gmap string _]; [d.get(k, v)] is
      a lookup with a default.
    - A value stored in an input dict is a number or a non-number ([VStr]);
      arithmetic or an ordering test on a non-number raises [TypeError].
    - The per-phase input dicts are Python objects shared with the caller:
      they live in a store indexed by locations, and the aggregator writes
      into them. *)

From Stdlib Require Import QArith Lqa.
From stdpp Require Import base option list gmap strings.

Local Open Scope Q_scope.
Local Open Scope string_scope.

(** ** Values, exceptions and dictionaries *)

Inductive valor : Type :=
  | VNum (q : Q)
  | VStr (s : string).

Inductive excecao : Type :=
  | BiomassaNaoFornecida
      (* ValueError("Nome da biomassa não fornecido") *)
  | BiomassaNaoEncontrada (nome : string) (opcoes : list string)
      (* ValueError(f"Biomassa '{nome}' não encontrada. Opções disponíveis: {opcoes}") *)
  | TypeError.

Inductive res (A : Type) : Type :=
  | Ok (a : A)
  | Raise (e : excecao).
Arguments Ok {A} a.
Arguments Raise {A} e.

#[global] Instance res_bind : MBind res := fun A B k m =>
  match m with
  | Ok a => k a
  | Raise e => Raise e
  end.

(** Python's [<] and [<=] on numbers. *)
#[global] Instance Qlt_dec (x y : Q) : Decision (x < y) :=
  decide (Qnum x * QDen y < Qnum y * QDen x)%Z.
#[global] Instance Qle_dec (x y : Q) : Decision (x <= y) :=
  decide (Qnum x * QDen y <= Qnum y * QDen x)%Z.

Arguments Qlt_dec : simpl never.
Arguments Qle_dec : simpl never.

Definition sucesso {A : Type} (m : res A) : Prop :=
  match m with Ok _ => True | Raise _ => False end.

Abbreviation dict := (gmap string valor).

(** The numeric reading of a stored value: what the arithmetic of the
    calculators and the comparisons of the validator require of it. *)
Definition num (v : valor) : res Q :=
  match v with
  | VNum q => Ok q
  | VStr _ => Raise TypeError
  end.

(** [dados.get(k, padrao)] followed by a numeric use of the result. *)
Definition get_num (dados : dict) (k : string) (padrao : Q) : res Q :=
  match dados !! k with
  | Some v => num v
  | None => Ok padrao
  end.

(** The same lookup when the field is known to hold a number. *)
Definition campo (dados : dict) (k : string) (padrao : Q) : Q :=
  match dados !! k with
  | Some (VNum q) => q
  | _ => padrao
  end.

(** A field is numeric when it is absent or holds a number. *)
Definition numerico (dados : dict) (k : string) : Prop :=
  match dados !! k with
  | Some (VStr _) => False
  | _ => True
  end.

(** ** Emission factors *)

(** One row of the factor table: [{'valor': .., 'unidade': .., 'fonte': ..}].
    [valor] is optional because every reader goes through
    [.get('valor', padrao)]. *)
Record fator : Type := {
  valor_de : option Q;
  unidade : string;
  fonte : string
}.

Abbreviation tabela := (gmap string fator).

(** [fatores.get(nome, {}).get('valor', padrao)] *)
Definition fator_valor (fatores : tabela) (nome : string) (padrao : Q) : Q :=
  match fatores !! nome with
  | Some f => default padrao (valor_de f)
  | None => padrao
  end.

(** ** Agricultural phase ([FaseAgricola.calcular_emissoes]) *)

Module FaseAgricola.

Record detalhamento : Type := {
  biomassa : Q;
  fertilizantes : Q;
  pesticidas : Q;
  transporte : Q;
  luc_dluc : Q
}.

Record resultado : Type := {
  emissoes_kg_co2 : Q;
  detalhe : detalhamento
}.

Definition calcular_emissoes (fatores : tabela) (dados : dict) : res resultado :=
  biomassa_kg ← get_num dados "quantidade_biomassa_kg" 0;
  distancia_km ← get_num dados "distancia_transporte_km" 0;
  fertilizantes_kg ← get_num dados "uso_fertilizantes_kg" 0;
  pesticidas_kg ← get_num dados "uso_pesticidas_kg" 0;
  luc_dluc_kg_co2 ← get_num dados "luc_dluc_opcional_kg_co2" 0;
  fator_biomassa ← get_num dados "fator_biomassa_agricola" 100;
  let fator_fertilizante := fator_valor fatores "fator_fertilizante_n" 6540 in
  let fator_pesticida := fator_valor fatores "fator_pesticida" 10000 in
  let fator_transporte := fator_valor fatores "fator_transporte_rodoviario" 62 in
  let emissoes_biomassa := (biomassa_kg * fator_biomassa) / 1000 in
  let emissoes_fertilizantes := (fertilizantes_kg * fator_fertilizante) / 1000 in
  let emissoes_pesticidas := (pesticidas_kg * fator_pesticida) / 1000 in
  let emissoes_transporte :=
    (fator_transporte * distancia_km * biomassa_kg / 1000) / 1000 in
  let emissoes_luc := luc_dluc_kg_co2 in
  let emissoes_totais :=
    emissoes_biomassa + emissoes_fertilizantes + emissoes_pesticidas
    + emissoes_transporte + emissoes_luc in
  Ok {| emissoes_kg_co2 := emissoes_totais;
        detalhe := {| biomassa := emissoes_biomassa;
                      fertilizantes := emissoes_fertilizantes;
                      pesticidas := emissoes_pesticidas;
                      transporte := emissoes_transporte;
                      luc_dluc := emissoes_luc |} |}.

(** The fields the calculator uses as numbers. *)
Definition campos : list string :=
  [ "quantidade_biomassa_kg"; "distancia_transporte_km"; "uso_fertilizantes_kg";
    "uso_pesticidas_kg"; "luc_dluc_opcional_kg_co2"; "fator_biomassa_agricola" ].

End FaseAgricola.

(** ** Industrial phase ([FaseIndustrial.calcular_emissoes]) *)

Module FaseIndustrial.

Record detalhamento : Type := {
  energia_eletrica : Q;
  energia_termica : Q;
  agua : Q
}.

Record resultado : Type := {
  emissoes_kg_co2 : Q;
  detalhe : detalhamento
}.

Definition calcular_emissoes (fatores : tabela) (dados : dict) : res resultado :=
  energia_eletrica_v ← get_num dados "energia_eletrica_kwh" 0;
  energia_termica_v ← get_num dados "energia_termica_mj" 0;
  agua_v ← get_num dados "agua_m3" 0;
  let fator_eletricidade := fator_valor fatores "fator_eletricidade_br" 95 in
  let fator_energia_termica := fator_valor fatores "fator_diesel" 2680 / 38 in
  let fator_agua := fator_valor fatores "fator_agua" 0.36 in
  let emissoes_eletricidade := (energia_eletrica_v * fator_eletricidade) / 1000 in
  let emissoes_termica := (energia_termica_v * fator_energia_termica) / 1000 in
  let emissoes_agua := (agua_v * fator_agua) / 1000 in
  let emissoes_totais := emissoes_eletricidade + emissoes_termica + emissoes_agua in
  Ok {| emissoes_kg_co2 := emissoes_totais;
        detalhe := {| energia_eletrica := emissoes_eletricidade;
                      energia_termica := emissoes_termica;
                      agua := emissoes_agua |} |}.

Definition campos : list string :=
  [ "energia_eletrica_kwh"; "energia_termica_mj"; "agua_m3" ].

End FaseIndustrial.

(** ** Distribution phase ([FaseDistribuicao.calcular_emissoes]) *)

Module FaseDistribuicao.

Record detalhamento : Type := {
  transporte : Q;
  modal : valor;
  distancia_km : Q
}.

Record resultado : Type := {
  emissoes_kg_co2 : Q;
  detalhe : detalhamento
}.

(** [fatores_modal], the dict built at each call, and its
    [.get(modal, 62.0)]: a key that is not one of the three strings (a
    number included) takes the default. *)
Definition fatores_modal (fatores : tabela) : gmap string Q :=
  <["rodoviario" := fator_valor fatores "fator_transporte_rodoviario" 62]>
  (<["maritimo" := fator_valor fatores "fator_transporte_maritimo" 8.5]>
  (<["ferroviario" := fator_valor fatores "fator_transporte_ferroviario" 22]> ∅)).

Definition fator_do_modal (fatores : tabela) (modal : valor) : Q :=
  match modal with
  | VStr m => default 62 (fatores_modal fatores !! m)
  | VNum _ => 62
  end.

Definition calcular_emissoes (fatores : tabela) (dados : dict) : res resultado :=
  let modal := default (VStr "rodoviario") (dados !! "modal_transporte") in
  distancia ← get_num dados "distancia_km" 0;
  biomassa_kg ← get_num dados "quantidade_biomassa_kg" 0;
  let fator_transporte := fator_do_modal fatores modal in
  let emissoes_transporte :=
    (fator_transporte * distancia * biomassa_kg / 1000) / 1000 in
  Ok {| emissoes_kg_co2 := emissoes_transporte;
        detalhe := {| transporte := emissoes_transporte;
                      modal := modal;
                      distancia_km := distancia |} |}.

Definition campos : list string := [ "distancia_km"; "quantidade_biomassa_kg" ].

End FaseDistribuicao.

(** ** Use phase ([FaseUso.calcular_emissoes]) *)

Module FaseUso.

Record detalhamento : Type := {
  combustao : Q;
  tipo_combustao : valor;
  energia_gerada_mj : Q
}.

Record resultado : Type := {
  emissoes_kg_co2 : Q;
  detalhe : detalhamento;
  emissoes_biogenicas_kg_co2 : Q
}.

Definition calcular_emissoes (fatores : tabela) (dados : dict) : res resultado :=
  biomassa_kg ← get_num dados "quantidade_biomassa_kg" 0;
  pci ← get_num dados "pci" 18;
  let tipo := default (VStr "caldeira") (dados !! "tipo_combustao") in
  let fator_combustao := fator_valor fatores "fator_combustao" 0 in
  let emissoes_combustao := (biomassa_kg * pci * fator_combustao) / 1000 in
  let emissoes_biogenicas := biomassa_kg * 1.84 in
  Ok {| emissoes_kg_co2 := emissoes_combustao;
        detalhe := {| combustao := emissoes_combustao;
                      tipo_combustao := tipo;
                      energia_gerada_mj := biomassa_kg * pci |};
        emissoes_biogenicas_kg_co2 := emissoes_biogenicas |}.

Definition campos : list string := [ "quantidade_biomassa_kg"; "pci" ].

End FaseUso.

(** ** The object store

    The request handed to the validator and to the aggregator is a dict
    whose four phase entries are themselves dict objects.  The aggregator
    assigns into them, so they are kept in a store and the request holds
    their locations; two phase entries may name the same object. *)

Definition loc := positive.

Abbreviation heap := (gmap loc dict).

(** The dict at a location (the empty dict for a location never allocated,
    which no well-formed request names). *)
Definition ler (h : heap) (l : loc) : dict := default ∅ (h !! l).

(** [obj[k] = v] on the object at [l]. *)
Definition escrever (h : heap) (l : loc) (k : string) (v : valor) : heap :=
  <[l := <[k := v]> (ler h l)]> h.

(** [dados_entrada]: the top-level request.  It is only read. *)
Record entrada : Type := {
  biomassa : option string;
  fase_agricola : option loc;
  fase_industrial : option loc;
  fase_distribuicao : option loc;
  fase_uso : option loc
}.

(** [dados_entrada.get(fase, {})] where the result is mutated afterwards: an
    absent entry yields a new empty dict object. *)
Definition get_fase (h : heap) (r : option loc) : heap * loc :=
  match r with
  | Some l => (h, l)
  | None => let l := fresh (dom h) in (<[l := ∅]> h, l)
  end.

(** [dados_entrada.get(fase, {})] where the result is only read. *)
Definition ler_fase (h : heap) (r : option loc) : dict :=
  match r with
  | Some l => ler h l
  | None => ∅
  end.

(** ** Input validation ([Validador]) *)

Module Validador.

(** An error message: literal text with the formatted numbers of an
    f-string kept as numbers. *)
Inductive fragmento : Type :=
  | Txt (s : string)
  | Num (q : Q).

Definition mensagem := list fragmento.

Definition texto (s : string) : mensagem := [Txt s].

(** [erros.append(m)] *)
Definition anexar (erros : list mensagem) (m : mensagem) : list mensagem :=
  app erros [m].

(** The literal messages of the validator. *)
Definition msg_biomassa_zero : string :=
  "Quantidade de biomassa deve ser maior que zero".
Definition msg_biomassa_alta : string :=
  "Quantidade de biomassa muito alta (máximo: 1.000.000 kg)".
Definition msg_distancia_agricola_alta : string :=
  "AVISO: Distância de transporte muito alta para fase agrícola (>1000 km)".
Definition msg_fertilizantes_alto : string :=
  "Uso de fertilizantes muito alto (máximo razoável: 100.000 kg)".
Definition msg_pesticidas_alto : string :=
  "Uso de pesticidas muito alto (máximo razoável: 10.000 kg)".
Definition msg_eletrica_alta : string :=
  "Consumo de energia elétrica muito alto (máximo razoável: 1.000.000 kWh)".
Definition msg_termica_alta : string :=
  "Consumo de energia térmica muito alto (máximo razoável: 10.000.000 MJ)".
Definition msg_agua_alta : string :=
  "Consumo de água muito alto (máximo razoável: 100.000 m³)".
Definition msg_modal_invalido : string :=
  "Modal de transporte inválido. Opções: rodoviario, maritimo, ferroviario".
Definition msg_distancia_alta : string :=
  "Distância de distribuição muito alta (máximo razoável: 50.000 km)".
Definition msg_tipo_invalido : string :=
  "Tipo de combustão inválido. Opções: caldeira, fornalha, outro".
Definition msg_biomassa_invalida : string :=
  "Biomassa inválida. Opções: amendoim, pinus, eucalipto".

Definition validar_positivo (valor : Q) (nome_campo : string) : bool * mensagem :=
  if decide (valor < 0)
  then (false, [Txt nome_campo; Txt " deve ser um valor positivo (valor: ";
                Num valor; Txt ")"])
  else (true, []).

Definition validar_range (valor : Q) (nome_campo : string) (min_val max_val : Q)
  : bool * mensagem :=
  if decide (valor < min_val \/ max_val < valor)
  then (false, [Txt nome_campo; Txt " deve estar entre "; Num min_val; Txt " e ";
                Num max_val; Txt " (valor: "; Num valor; Txt ")"])
  else (true, []).

Definition validar_fase_agricola (dados : dict) : res (bool * list mensagem) :=
  let erros : list mensagem := [] in
  biomassa ← get_num dados "quantidade_biomassa_kg" 0;
  let erros :=
    if decide (biomassa <= 0)
    then anexar erros (texto msg_biomassa_zero)
    else if decide (1000000 < biomassa)
    then anexar erros (texto msg_biomassa_alta)
    else erros in
  distancia ← get_num dados "distancia_transporte_km" 0;
  let valido_msg := validar_positivo distancia "Distância de transporte" in
  let valido := valido_msg.1 in
  let msg := valido_msg.2 in
  let erros :=
    if negb valido then anexar erros msg
    else if decide (1000 < distancia)
    then anexar erros (texto msg_distancia_agricola_alta)
    else erros in
  fertilizantes ← get_num dados "uso_fertilizantes_kg" 0;
  let valido_msg := validar_positivo fertilizantes "Uso de fertilizantes" in
  let valido := valido_msg.1 in
  let msg := valido_msg.2 in
  let erros :=
    if negb valido then anexar erros msg
    else if decide (100000 < fertilizantes)
    then anexar erros (texto msg_fertilizantes_alto)
    else erros in
  pesticidas ← get_num dados "uso_pesticidas_kg" 0;
  let valido_msg := validar_positivo pesticidas "Uso de pesticidas" in
  let valido := valido_msg.1 in
  let msg := valido_msg.2 in
  let erros :=
    if negb valido then anexar erros msg
    else if decide (10000 < pesticidas)
    then anexar erros (texto msg_pesticidas_alto)
    else erros in
  luc ← get_num dados "luc_dluc_opcional_kg_co2" 0;
  let valido_msg := validar_positivo luc "LUC/dLUC" in
  let valido := valido_msg.1 in
  let msg := valido_msg.2 in
  let erros := if negb valido then anexar erros msg else erros in
  Ok (bool_decide (length erros = 0%nat), erros).

Definition validar_fase_industrial (dados : dict) : res (bool * list mensagem) :=
  let erros : list mensagem := [] in
  energia_eletrica ← get_num dados "energia_eletrica_kwh" 0;
  let valido_msg := validar_positivo energia_eletrica "Energia elétrica" in
  let valido := valido_msg.1 in
  let msg := valido_msg.2 in
  let erros :=
    if negb valido then anexar erros msg
    else if decide (1000000 < energia_eletrica)
    then anexar erros (texto msg_eletrica_alta)
    else erros in
  energia_termica ← get_num dados "energia_termica_mj" 0;
  let valido_msg := validar_positivo energia_termica "Energia térmica" in
  let valido := valido_msg.1 in
  let msg := valido_msg.2 in
  let erros :=
    if negb valido then anexar erros msg
    else if decide (10000000 < energia_termica)
    then anexar erros (texto msg_termica_alta)
    else erros in
  agua ← get_num dados "agua_m3" 0;
  let valido_msg := validar_positivo agua "Consumo de água" in
  let valido := valido_msg.1 in
  let msg := valido_msg.2 in
  let erros :=
    if negb valido then anexar erros msg
    else if decide (100000 < agua)
    then anexar erros (texto msg_agua_alta)
    else erros in
  Ok (bool_decide (length erros = 0%nat), erros).

Definition modais_validos : list string := ["rodoviario"; "maritimo"; "ferroviario"].

(** [modal not in modais_validos]: a non-string is never in the list. *)
Definition em_lista (v : valor) (l : list string) : bool :=
  match v with
  | VStr s => bool_decide (s ∈ l)
  | VNum _ => false
  end.

Definition validar_fase_distribuicao (dados : dict) : res (bool * list mensagem) :=
  let erros : list mensagem := [] in
  let modal := default (VStr "") (dados !! "modal_transporte") in
  let erros :=
    if negb (em_lista modal modais_validos)
    then anexar erros (texto msg_modal_invalido)
    else erros in
  distancia ← get_num dados "distancia_km" 0;
  let valido_msg := validar_positivo distancia "Distância de distribuição" in
  let valido := valido_msg.1 in
  let msg := valido_msg.2 in
  let erros :=
    if negb valido then anexar erros msg
    else if decide (50000 < distancia)
    then anexar erros (texto msg_distancia_alta)
    else erros in
  Ok (bool_decide (length erros = 0%nat), erros).

Definition tipos_validos : list string := ["caldeira"; "fornalha"; "outro"].

Definition validar_fase_uso (dados : dict) : res (bool * list mensagem) :=
  let erros : list mensagem := [] in
  let tipo := default (VStr "caldeira") (dados !! "tipo_combustao") in
  let erros :=
    if negb (em_lista tipo tipos_validos)
    then anexar erros (texto msg_tipo_invalido)
    else erros in
  Ok (bool_decide (length erros = 0%nat), erros).

Definition biomassas_validas : list string := ["amendoim"; "pinus"; "eucalipto"].

Definition validar_completo (h : heap) (dados_entrada : entrada)
  : res (bool * gmap string (list mensagem)) :=
  let erros_por_fase : gmap string (list mensagem) := ∅ in
  let biomassa_v := default "" (biomassa dados_entrada) in
  let erros_por_fase :=
    if negb (bool_decide (biomassa_v ∈ biomassas_validas))
    then <["biomassa" := [texto msg_biomassa_invalida]]>
           erros_por_fase
    else erros_por_fase in
  let dados_agricola := ler_fase h (fase_agricola dados_entrada) in
  valido_erros ← validar_fase_agricola dados_agricola;
  let valido := valido_erros.1 in
  let erros := valido_erros.2 in
  let erros_por_fase :=
    if negb valido then <["fase_agricola" := erros]> erros_por_fase else erros_por_fase in
  let dados_industrial := ler_fase h (fase_industrial dados_entrada) in
  valido_erros ← validar_fase_industrial dados_industrial;
  let valido := valido_erros.1 in
  let erros := valido_erros.2 in
  let erros_por_fase :=
    if negb valido then <["fase_industrial" := erros]> erros_por_fase else erros_por_fase in
  let dados_distribuicao := ler_fase h (fase_distribuicao dados_entrada) in
  valido_erros ← validar_fase_distribuicao dados_distribuicao;
  let valido := valido_erros.1 in
  let erros := valido_erros.2 in
  let erros_por_fase :=
    if negb valido then <["fase_distribuicao" := erros]> erros_por_fase else erros_por_fase in
  let dados_uso := ler_fase h (fase_uso dados_entrada) in
  valido_erros ← validar_fase_uso dados_uso;
  let valido := valido_erros.1 in
  let erros := valido_erros.2 in
  let erros_por_fase :=
    if negb valido then <["fase_uso" := erros]> erros_por_fase else erros_por_fase in
  Ok (bool_decide (size erros_por_fase = 0%nat), erros_por_fase).

(** Whether a message contains a given text in one of its literal parts. *)
Fixpoint contem (agulha palheiro : string) : bool :=
  String.prefix agulha palheiro
  || match palheiro with
     | EmptyString => false
     | String _ resto => contem agulha resto
     end.

Definition menciona (agulha : string) (m : mensagem) : bool :=
  existsb (fun f => match f with Txt s => contem agulha s | Num _ => false end) m.

End Validador.

(** ** The rules of §4.1, one list of errors per rule

    Each rule contributes its error when it is violated and nothing
    otherwise; a phase reports the errors of all its rules, in order. *)

Module Regras.
Import Validador.

(** A quantity that must not be negative. *)
Definition erros_positivo (x : Q) (nome_campo : string) : list mensagem :=
  if decide (x < 0) then [(validar_positivo x nome_campo).2] else [].

(** A quantity that must not be negative and has an upper sanity bound. *)
Definition erros_limite (x : Q) (nome_campo : string) (maximo : Q) (alto : string)
  : list mensagem :=
  if decide (x < 0) then [(validar_positivo x nome_campo).2]
  else if decide (maximo < x) then [texto alto] else [].

(** The biomass quantity: greater than 0 and at most 1,000,000 kg. *)
Definition erros_biomassa (x : Q) : list mensagem :=
  if decide (x <= 0) then [texto msg_biomassa_zero]
  else if decide (1000000 < x) then [texto msg_biomassa_alta]
  else [].

(** A choice among the supported values. *)
Definition erros_opcao (v : valor) (validos : list string) (msg : string)
  : list mensagem :=
  if em_lista v validos then [] else [texto msg].

Definition campos_agricola : list string :=
  [ "quantidade_biomassa_kg"; "distancia_transporte_km"; "uso_fertilizantes_kg";
    "uso_pesticidas_kg"; "luc_dluc_opcional_kg_co2" ].

Definition campos_industrial : list string :=
  [ "energia_eletrica_kwh"; "energia_termica_mj"; "agua_m3" ].

Definition campos_distribuicao : list string := [ "distancia_km" ].

Definition erros_agricola (d : dict) : list mensagem :=
  (erros_biomassa (campo d "quantidade_biomassa_kg" 0)
   ++ erros_limite (campo d "distancia_transporte_km" 0) "Distância de transporte" 1000
        msg_distancia_agricola_alta
   ++ erros_limite (campo d "uso_fertilizantes_kg" 0) "Uso de fertilizantes" 100000
        msg_fertilizantes_alto
   ++ erros_limite (campo d "uso_pesticidas_kg" 0) "Uso de pesticidas" 10000
        msg_pesticidas_alto
   ++ erros_positivo (campo d "luc_dluc_opcional_kg_co2" 0) "LUC/dLUC")%list.

Definition erros_industrial (d : dict) : list mensagem :=
  (erros_limite (campo d "energia_eletrica_kwh" 0) "Energia elétrica" 1000000
     msg_eletrica_alta
   ++ erros_limite (campo d "energia_termica_mj" 0) "Energia térmica" 10000000
        msg_termica_alta
   ++ erros_limite (campo d "agua_m3" 0) "Consumo de água" 100000 msg_agua_alta)%list.

Definition erros_distribuicao (d : dict) : list mensagem :=
  (erros_opcao (default (VStr "") (d !! "modal_transporte")) modais_validos
     msg_modal_invalido
   ++ erros_limite (campo d "distancia_km" 0) "Distância de distribuição" 50000
        msg_distancia_alta)%list.

Definition erros_uso (d : dict) : list mensagem :=
  erros_opcao (default (VStr "caldeira") (d !! "tipo_combustao")) tipos_validos
    msg_tipo_invalido.

(** The report of [validar_completo]: an entry for the biomass id and for
    each phase, present when that entry has errors. *)
Definition entrada_relatorio (chave : string) (erros : list mensagem)
    (m : gmap string (list mensagem)) : gmap string (list mensagem) :=
  match erros with
  | [] => m
  | _ => <[chave := erros]> m
  end.

Definition sem_erros (erros : list mensagem) : bool :=
  match erros with [] => true | _ => false end.

Definition erros_id_biomassa (e : entrada) : list mensagem :=
  if bool_decide (default "" (biomassa e) ∈ biomassas_validas) then []
  else [texto msg_biomassa_invalida].

Definition relatorio (h : heap) (e : entrada) : gmap string (list mensagem) :=
  entrada_relatorio "fase_uso" (erros_uso (ler_fase h (fase_uso e)))
    (entrada_relatorio "fase_distribuicao"
       (erros_distribuicao (ler_fase h (fase_distribuicao e)))
       (entrada_relatorio "fase_industrial"
          (erros_industrial (ler_fase h (fase_industrial e)))
          (entrada_relatorio "fase_agricola"
             (erros_agricola (ler_fase h (fase_agricola e)))
             (entrada_relatorio "biomassa" (erros_id_biomassa e) ∅)))).

End Regras.

(** The numeric fields of a request hold numbers (or are absent). *)
Definition entrada_numerica (h : heap) (e : entrada) : Prop :=
  Forall (numerico (ler_fase h (fase_agricola e))) Regras.campos_agricola
  /\ Forall (numerico (ler_fase h (fase_industrial e))) Regras.campos_industrial
  /\ Forall (numerico (ler_fase h (fase_distribuicao e))) Regras.campos_distribuicao.

(** ** The aggregator ([CalculadoraBioCalc]) *)

Module Calculo.

(** One preset of [biomasses_preset.json]. *)
Record perfil : Type := {
  nome : string;
  descricao : string;
  pci : Q;
  densidade : Q;
  fator_biomassa_agricola : Q;
  tipo : string
}.

(** The engine instance together with the objects of its caller:
    [self.fatores] (shared by the four phase calculators),
    [self.biomassas], and the store of input dicts. *)
Record estado : Type := {
  fatores : tabela;
  biomassas : gmap string perfil;
  objetos : heap
}.

Definition com_objetos (st : estado) (h : heap) : estado :=
  {| fatores := fatores st; biomassas := biomassas st; objetos := h |}.

(** The same engine and objects with another factor table. *)
Definition com_fatores (st : estado) (fs : tabela) : estado :=
  {| fatores := fs; biomassas := biomassas st; objetos := objetos st |}.

Record por_fase (D : Type) : Type := {
  emissoes_kg_co2 : Q;
  percentual : Q;
  detalhamento : D
}.
Arguments emissoes_kg_co2 {D} _.
Arguments percentual {D} _.
Arguments detalhamento {D} _.

Record por_fase_uso : Type := {
  uso_emissoes_kg_co2 : Q;
  uso_percentual : Q;
  uso_detalhamento : FaseUso.detalhamento;
  emissoes_biogenicas_kg_co2 : Q
}.

Record resultados_fases : Type := {
  agricola : por_fase FaseAgricola.detalhamento;
  industrial : por_fase FaseIndustrial.detalhamento;
  distribuicao : por_fase FaseDistribuicao.detalhamento;
  uso : por_fase_uso
}.

Record comparacao : Type := {
  ci_fossil_referencia_g_co2_mj : Q;
  ci_biocombustivel_g_co2_mj : Q;
  reducao_g_co2_mj : Q;
  reducao_percentual : Q
}.

Record resultado : Type := {
  res_biomassa : string;
  biomassa_info : perfil;
  resultados_por_fase : resultados_fases;
  emissoes_totais_kg_co2 : Q;
  energia_total_mj : Q;
  intensidade_carbono_g_co2_mj : Q;
  neea : Q;
  comparacao_fossil : comparacao
}.

(** The local variables [dados_agricola], ..., [dados_uso]: the phase
    dicts, as locations of the store. *)
Record locais : Type := {
  dados_agricola : loc;
  dados_industrial : loc;
  dados_distribuicao : loc;
  dados_uso : loc
}.

(** The dict [percentuais] of [calcular_intensidade_carbono]. *)
Record percentuais_fases : Type := {
  p_agricola : Q;
  p_industrial : Q;
  p_distribuicao : Q;
  p_uso : Q
}.

Definition get_biomassa_info (bs : gmap string perfil) (nome_biomassa : string)
  : res perfil :=
  match bs !! nome_biomassa with
  | None => Raise (BiomassaNaoEncontrada nome_biomassa (elements (dom bs)))
  | Some info => Ok info
  end.

(** The part of [calcular_intensidade_carbono] after the phase inputs are
    prepared: it only reads the store. *)
Definition calcular_fases (fs : tabela) (h : heap) (nome_biomassa : string)
    (info : perfil) (ls : locais) : res resultado :=
  resultado_agricola ← FaseAgricola.calcular_emissoes fs (ler h (dados_agricola ls));
  resultado_industrial ← FaseIndustrial.calcular_emissoes fs (ler h (dados_industrial ls));
  resultado_distribuicao ←
    FaseDistribuicao.calcular_emissoes fs (ler h (dados_distribuicao ls));
  resultado_uso ← FaseUso.calcular_emissoes fs (ler h (dados_uso ls));
  let emissoes_totais :=
    FaseAgricola.emissoes_kg_co2 resultado_agricola
    + FaseIndustrial.emissoes_kg_co2 resultado_industrial
    + FaseDistribuicao.emissoes_kg_co2 resultado_distribuicao
    + FaseUso.emissoes_kg_co2 resultado_uso in
  quantidade ← get_num (ler h (dados_uso ls)) "quantidade_biomassa_kg" 0;
  let energia_total := quantidade * pci info in
  let intensidade_carbono :=
    if decide (0 < energia_total) then (emissoes_totais * 1000) / energia_total else 0 in
  let ci_fossil := fator_valor fs "ci_fossil_referencia" 85 in
  let neea_v := ci_fossil - intensidade_carbono in
  let percentuais :=
    if decide (0 < emissoes_totais)
    then {| p_agricola :=
              (FaseAgricola.emissoes_kg_co2 resultado_agricola / emissoes_totais) * 100;
            p_industrial :=
              (FaseIndustrial.emissoes_kg_co2 resultado_industrial / emissoes_totais) * 100;
            p_distribuicao :=
              (FaseDistribuicao.emissoes_kg_co2 resultado_distribuicao / emissoes_totais) * 100;
            p_uso := (FaseUso.emissoes_kg_co2 resultado_uso / emissoes_totais) * 100 |}
    else {| p_agricola := 0; p_industrial := 0; p_distribuicao := 0; p_uso := 0 |} in
  let reducao :=
    if decide (0 < ci_fossil) then (neea_v / ci_fossil) * 100 else 0 in
  Ok {| res_biomassa := nome_biomassa;
        biomassa_info := info;
        resultados_por_fase :=
          {| agricola :=
               {| emissoes_kg_co2 := FaseAgricola.emissoes_kg_co2 resultado_agricola;
                  percentual := p_agricola percentuais;
                  detalhamento := FaseAgricola.detalhe resultado_agricola |};
             industrial :=
               {| emissoes_kg_co2 := FaseIndustrial.emissoes_kg_co2 resultado_industrial;
                  percentual := p_industrial percentuais;
                  detalhamento := FaseIndustrial.detalhe resultado_industrial |};
             distribuicao :=
               {| emissoes_kg_co2 := FaseDistribuicao.emissoes_kg_co2 resultado_distribuicao;
                  percentual := p_distribuicao percentuais;
                  detalhamento := FaseDistribuicao.detalhe resultado_distribuicao |};
             uso :=
               {| uso_emissoes_kg_co2 := FaseUso.emissoes_kg_co2 resultado_uso;
                  uso_percentual := p_uso percentuais;
                  uso_detalhamento := FaseUso.detalhe resultado_uso;
                  emissoes_biogenicas_kg_co2 :=
                    FaseUso.emissoes_biogenicas_kg_co2 resultado_uso |} |};
        emissoes_totais_kg_co2 := emissoes_totais;
        energia_total_mj := energia_total;
        intensidade_carbono_g_co2_mj := intensidade_carbono;
        neea := neea_v;
        comparacao_fossil :=
          {| ci_fossil_referencia_g_co2_mj := ci_fossil;
             ci_biocombustivel_g_co2_mj := intensidade_carbono;
             reducao_g_co2_mj := neea_v;
             reducao_percentual := reducao |} |}.

(** The value of [dados_agricola.get('quantidade_biomassa_kg', 0)], copied
    as it is (a non-number included) into the other phase dicts. *)
Definition quantidade_de (d : dict) : valor :=
  default (VNum 0) (d !! "quantidade_biomassa_kg").

(** The preparation of the phase inputs: the assignments into the dicts of
    the request, in the order of the source. *)
Definition preparar (h : heap) (dados_entrada : entrada) (info : perfil)
  : heap * locais :=
  let ha := get_fase h (fase_agricola dados_entrada) in
  let l_agricola := ha.2 in
  let h1 := escrever ha.1 l_agricola "fator_biomassa_agricola"
              (VNum (fator_biomassa_agricola info)) in
  let hi := get_fase h1 (fase_industrial dados_entrada) in
  let l_industrial := hi.2 in
  let hd := get_fase hi.1 (fase_distribuicao dados_entrada) in
  let l_distribuicao := hd.2 in
  let h2 := escrever hd.1 l_distribuicao "quantidade_biomassa_kg"
              (quantidade_de (ler hd.1 l_agricola)) in
  let hu := get_fase h2 (fase_uso dados_entrada) in
  let l_uso := hu.2 in
  let h3 := escrever hu.1 l_uso "quantidade_biomassa_kg"
              (quantidade_de (ler hu.1 l_agricola)) in
  let h4 := escrever h3 l_uso "pci" (VNum (pci info)) in
  (h4, {| dados_agricola := l_agricola; dados_industrial := l_industrial;
          dados_distribuicao := l_distribuicao; dados_uso := l_uso |}).

Definition calcular_intensidade_carbono (st : estado) (dados_entrada : entrada)
  : estado * res resultado :=
  match biomassa dados_entrada with
  | None | Some "" => (st, Raise BiomassaNaoFornecida)
  | Some nome_biomassa =>
      match get_biomassa_info (biomassas st) nome_biomassa with
      | Raise e => (st, Raise e)
      | Ok info =>
          let hl := preparar (objetos st) dados_entrada info in
          (com_objetos st hl.1,
           calcular_fases (fatores st) hl.1 nome_biomassa info hl.2)
      end
  end.

End Calculo.

(** ** The formulas of the specification, in its own words *)

Module Spec.

(** §4.2: agricultural emissions. *)
Definition agricultural_emissions
    (biomassKg agriculturalFactor fertilizerKg fertFactor pesticideKg pestFactor
     roadFactor distanceKm lucKgCO2 : Q) : Q :=
  biomassKg * agriculturalFactor / 1000 + fertilizerKg * fertFactor / 1000
  + pesticideKg * pestFactor / 1000
  + (roadFactor * distanceKm * biomassKg / 1000) / 1000 + lucKgCO2.

(** §4.4: distribution emissions for a mode factor. *)
Definition distribution_emissions (modeFactor distanceKm biomassKg : Q) : Q :=
  (modeFactor * distanceKm * biomassKg / 1000) / 1000.

(** §4.5: reported biogenic emissions. *)
Definition biogenic (biomassKg : Q) : Q := biomassKg * 1.84.

End Spec.

(** ** Example data: the inputs of the repository's tests *)

Module Exemplos.

Definition n (z : Z) : valor := VNum (inject_Z z).

(** [test_sem_insumos] *)
Definition agricola_sem_insumos : dict :=
  <["quantidade_biomassa_kg" := n 1000]>
  (<["distancia_transporte_km" := n 0]>
  (<["uso_fertilizantes_kg" := n 0]>
  (<["uso_pesticidas_kg" := n 0]>
  (<["luc_dluc_opcional_kg_co2" := n 0]>
  (<["fator_biomassa_agricola" := n 50]> ∅))))).

(** [test_com_luc_dluc] *)
Definition agricola_com_luc : dict :=
  <["luc_dluc_opcional_kg_co2" := n 500]> agricola_sem_insumos.

(** [test_combustao_biomassa] *)
Definition uso_caldeira : dict :=
  <["tipo_combustao" := VStr "caldeira"]>
  (<["quantidade_biomassa_kg" := n 1000]>
  (<["pci" := VNum 18.5]> ∅)).

(** [test_transporte_maritimo], without the mode *)
Definition distribuicao_1000 : dict :=
  <["distancia_km" := n 1000]> (<["quantidade_biomassa_kg" := n 1000]> ∅).

(** [test_distancia_zero], without the mode *)
Definition distribuicao_zero : dict :=
  <["distancia_km" := n 0]> (<["quantidade_biomassa_kg" := n 1000]> ∅).

(** A factor table whose road factor is not the literature value. *)
Definition fatores_rodoviario_100 : tabela :=
  {[ "fator_transporte_rodoviario" :=
       {| valor_de := Some 100; unidade := "gCO2/tkm"; fonte := "exemplo" |} ]}.

(** [test_validar_completo_multiplos_erros] *)
Definition objetos_multiplos_erros : heap :=
  <[1%positive :=
      <["quantidade_biomassa_kg" := n 0]>
      (<["distancia_transporte_km" := n (-10)]>
      (<["uso_fertilizantes_kg" := n 100]>
      (<["uso_pesticidas_kg" := n 10]>
      (<["luc_dluc_opcional_kg_co2" := n 0]> ∅))))]>
  (<[2%positive :=
      <["energia_eletrica_kwh" := n 500]>
      (<["energia_termica_mj" := n 2000]>
      (<["agua_m3" := n 5]> ∅))]>
  (<[3%positive :=
      <["modal_transporte" := VStr "aereo"]> (<["distancia_km" := n 200]> ∅)]>
  (<[4%positive := <["tipo_combustao" := VStr "caldeira"]> ∅]> ∅))).

Definition pedido_pinus : entrada :=
  {| biomassa := Some "pinus";
     fase_agricola := Some 1%positive;
     fase_industrial := Some 2%positive;
     fase_distribuicao := Some 3%positive;
     fase_uso := Some 4%positive |}.

(** A catalog with the preset "pinus".  The preset file is not among the
    sources: the PCI is the one the tests name (18.5 MJ/kg), the other
    values are illustrative. *)
Definition pinus : Calculo.perfil :=
  {| Calculo.nome := "Pinus";
     Calculo.descricao := "Residuos de pinus";
     Calculo.pci := 18.5;
     Calculo.densidade := 650;
     Calculo.fator_biomassa_agricola := 45;
     Calculo.tipo := "residuo_florestal" |}.

(** [test_energia_total_correta] *)
Definition objetos_energia : heap :=
  <[1%positive :=
      <["quantidade_biomassa_kg" := n 1000]>
      (<["distancia_transporte_km" := n 0]>
      (<["uso_fertilizantes_kg" := n 0]>
      (<["uso_pesticidas_kg" := n 0]>
      (<["luc_dluc_opcional_kg_co2" := n 0]> ∅))))]>
  (<[2%positive :=
      <["energia_eletrica_kwh" := n 0]>
      (<["energia_termica_mj" := n 0]>
      (<["agua_m3" := n 0]> ∅))]>
  (<[3%positive :=
      <["modal_transporte" := VStr "rodoviario"]> (<["distancia_km" := n 0]> ∅)]>
  (<[4%positive := <["tipo_combustao" := VStr "caldeira"]> ∅]> ∅))).

(** An engine with an empty factor table: every factor is missing. *)
Definition estado_energia : Calculo.estado :=
  {| Calculo.fatores := ∅;
     Calculo.biomassas := {[ "pinus" := pinus ]};
     Calculo.objetos := objetos_energia |}.

Definition pedido_sem_biomassa : entrada :=
  {| biomassa := None;
     fase_agricola := Some 1%positive;
     fase_industrial := Some 2%positive;
     fase_distribuicao := Some 3%positive;
     fase_uso := Some 4%positive |}.

Definition pedido_biomassa_vazia : entrada :=
  {| biomassa := Some "";
     fase_agricola := Some 1%positive;
     fase_industrial := Some 2%positive;
     fase_distribuicao := Some 3%positive;
     fase_uso := Some 4%positive |}.

Definition pedido_carvao : entrada :=
  {| biomassa := Some "carvao";
     fase_agricola := Some 1%positive;
     fase_industrial := Some 2%positive;
     fase_distribuicao := Some 3%positive;
     fase_uso := Some 4%positive |}.

End Exemplos.

(** ** Loading and saving the factor table

    The CSV file itself is read and written by pandas; what the repository's
    code does is build the table from the rows that [df.iterrows()] yields
    ([CalculadoraBioCalc._carregar_fatores]) and build the rows that are
    handed to [pd.DataFrame] ([ExcelReader.salvar_fatores_csv]). *)

Module Carga.

(** One row of [fatores.csv]: the columns parametro, valor, unidade, fonte. *)
Record linha : Type := {
  parametro : string;
  valor : Q;
  l_unidade : string;
  l_fonte : string
}.

(** The entry [{'valor': .., 'unidade': .., 'fonte': ..}] made of a row. *)
Definition fator_da_linha (row : linha) : fator :=
  {| valor_de := Some (valor row); unidade := l_unidade row; fonte := l_fonte row |}.

(** The key and the entry of a row. *)
Definition par_da_linha (row : linha) : string * fator :=
  (parametro row, fator_da_linha row).

(** [fatores[row['parametro']] = {...}] for each row, in order. *)
Definition _carregar_fatores (linhas : list linha) : tabela :=
  foldl (fun fatores row => <[parametro row := fator_da_linha row]> fatores) ∅ linhas.

(** The list [rows] of [salvar_fatores_csv]: one row per item of the table.
    [value["valor"]] raises [KeyError] on an entry without a value: the
    result is then [None].  The rows come in the order of [map_to_list], not
    in the insertion order of the Python dict. *)
Definition salvar_fatores_csv (fatores : tabela) : option (list linha) :=
  mapM (fun kv : string * fator =>
          v ← valor_de kv.2;
          Some {| parametro := kv.1; valor := v;
                  l_unidade := unidade kv.2; l_fonte := fonte kv.2 |})
       (map_to_list fatores).

End Carga.

(** ** The extracted reference data ([ExcelReader]) *)

Module ExcelReader.

Definition f (v : Q) (u s : string) : fator :=
  {| valor_de := Some v; unidade := u; fonte := s |}.

(** The dict literal of [extrair_fatores_emissao]. *)
Definition fatores_literatura : tabela :=
  list_to_map
    [ ("fator_eletricidade_br", f 95 "gCO2/kWh" "Grid BR médio");
      ("fator_diesel", f 2680 "gCO2/L" "IPCC");
      ("fator_gasolina", f 2300 "gCO2/L" "IPCC");
      ("fator_gas_natural", f 2020 "gCO2/m3" "IPCC");
      ("fator_transporte_rodoviario", f 62 "gCO2/tkm" "Ecoinvent");
      ("fator_transporte_maritimo", f 8.5 "gCO2/tkm" "Ecoinvent");
      ("fator_transporte_ferroviario", f 22 "gCO2/tkm" "Ecoinvent");
      ("fator_fertilizante_n", f 6540 "gCO2/kg" "IPCC");
      ("fator_fertilizante_p", f 1200 "gCO2/kg" "IPCC");
      ("fator_fertilizante_k", f 630 "gCO2/kg" "IPCC");
      ("fator_pesticida", f 10000 "gCO2/kg" "Ecoinvent médio");
      ("fator_agua", f 0.36 "gCO2/m3" "Ecoinvent BR");
      ("fator_combustao", f 0 "gCO2/MJ" "Biogênico (CF=0)");
      ("pci_pinus", f 18.5 "MJ/kg" "Literatura");
      ("pci_eucalipto", f 18.2 "MJ/kg" "Literatura");
      ("pci_amendoim", f 17.8 "MJ/kg" "Literatura");
      ("ci_fossil_referencia", f 85 "gCO2/MJ" "RenovaCalc média ponderada") ].

(** [extrair_fatores_emissao]: the sheets of the workbook are read first,
    inside a [try]; when a read raises, the [except] branch leaves
    [fatores] as the empty dict it was initialised to. *)
Definition extrair_fatores_emissao (abas_lidas : bool) : tabela :=
  if abas_lidas then fatores_literatura else ∅.


End ExcelReader.

(** ** Ranges and sign conditions used in the statements below *)

Module Faixas.

(** The factors that the engine looks up, with the default of each lookup. *)
Definition fatores_lidos : list (string * Q) :=
  [ ("fator_fertilizante_n", 6540); ("fator_pesticida", 10000);
    ("fator_transporte_rodoviario", 62); ("fator_transporte_maritimo", 8.5);
    ("fator_transporte_ferroviario", 22); ("fator_eletricidade_br", 95);
    ("fator_diesel", 2680); ("fator_agua", 0.36); ("fator_combustao", 0);
    ("ci_fossil_referencia", 85) ].

(** Two tables that give the same value to every factor the engine reads. *)
Definition mesmos_fatores (fs1 fs2 : tabela) : Prop :=
  Forall (fun nd : string * Q => fator_valor fs1 nd.1 nd.2 = fator_valor fs2 nd.1 nd.2)
         fatores_lidos.

(** No factor that the engine reads is negative. *)
Definition fatores_nao_negativos (fs : tabela) : Prop :=
  Forall (fun nd : string * Q => 0 <= fator_valor fs nd.1 nd.2) fatores_lidos.

(** The domain ranges of the agricultural inputs. *)
Definition agricola_na_faixa (d : dict) : Prop :=
  (0 < campo d "quantidade_biomassa_kg" 0
   /\ campo d "quantidade_biomassa_kg" 0 <= 1000000)
  /\ (0 <= campo d "distancia_transporte_km" 0
      /\ campo d "distancia_transporte_km" 0 <= 1000)
  /\ (0 <= campo d "uso_fertilizantes_kg" 0
      /\ campo d "uso_fertilizantes_kg" 0 <= 100000)
  /\ (0 <= campo d "uso_pesticidas_kg" 0 /\ campo d "uso_pesticidas_kg" 0 <= 10000)
  /\ 0 <= campo d "luc_dluc_opcional_kg_co2" 0.

Definition industrial_na_faixa (d : dict) : Prop :=
  (0 <= campo d "energia_eletrica_kwh" 0 /\ campo d "energia_eletrica_kwh" 0 <= 1000000)
  /\ (0 <= campo d "energia_termica_mj" 0 /\ campo d "energia_termica_mj" 0 <= 10000000)
  /\ (0 <= campo d "agua_m3" 0 /\ campo d "agua_m3" 0 <= 100000).

Definition distribuicao_na_faixa (d : dict) : Prop :=
  (exists s, d !! "modal_transporte" = Some (VStr s) /\ s ∈ Validador.modais_validos)
  /\ 0 <= campo d "distancia_km" 0 /\ campo d "distancia_km" 0 <= 50000.

Definition uso_na_faixa (d : dict) : Prop :=
  d !! "tipo_combustao" = None
  \/ exists s, d !! "tipo_combustao" = Some (VStr s) /\ s ∈ Validador.tipos_validos.

End Faixas.

(** ** Basic facts on lookups *)

Lemma get_num_campo (d : dict) (k : string) (p : Q) :
  numerico d k -> get_num d k p = Ok (campo d k p).
Proof.
  unfold numerico, get_num, campo.
  destruct (d !! k) as [[q|s]|]; simpl; intros H; try reflexivity; contradiction.
Qed.

Lemma get_num_sucesso (d : dict) (k : string) (p : Q) :
  sucesso (get_num d k p) <-> numerico d k.
Proof.
  unfold numerico, get_num.
  destruct (d !! k) as [[q|s]|]; simpl; tauto.
Qed.

Lemma campo_insert_ne (d : dict) (k k' : string) (v : valor) (p : Q) :
  k <> k' -> campo (<[k := v]> d) k' p = campo d k' p.
Proof. intros H. unfold campo. rewrite lookup_insert_ne by assumption. reflexivity. Qed.

(** Rewrites the numeric reads of a calculator to their values, given that
    the fields it reads are numeric. *)
Ltac ler_campos H :=
  repeat match goal with
  | |- context [get_num ?d ?k ?p] =>
      rewrite (get_num_campo d k p)
        by (apply (proj1 (Forall_forall _ _) H); repeat constructor)
  end; simpl.

(** ** Phase calculators *)

Section Fases.

Variable fs : tabela.

Lemma agricola_ok (d : dict) :
  Forall (numerico d) FaseAgricola.campos ->
  exists r, FaseAgricola.calcular_emissoes fs d = Ok r
    /\ FaseAgricola.emissoes_kg_co2 r
       = Spec.agricultural_emissions
           (campo d "quantidade_biomassa_kg" 0) (campo d "fator_biomassa_agricola" 100)
           (campo d "uso_fertilizantes_kg" 0) (fator_valor fs "fator_fertilizante_n" 6540)
           (campo d "uso_pesticidas_kg" 0) (fator_valor fs "fator_pesticida" 10000)
           (fator_valor fs "fator_transporte_rodoviario" 62)
           (campo d "distancia_transporte_km" 0) (campo d "luc_dluc_opcional_kg_co2" 0).
Proof.
  intros H. unfold FaseAgricola.calcular_emissoes.
  ler_campos H. eexists. split; reflexivity.
Qed.

Lemma industrial_ok (d : dict) :
  Forall (numerico d) FaseIndustrial.campos ->
  exists r, FaseIndustrial.calcular_emissoes fs d = Ok r
    /\ FaseIndustrial.emissoes_kg_co2 r
       = campo d "energia_eletrica_kwh" 0 * fator_valor fs "fator_eletricidade_br" 95 / 1000
         + campo d "energia_termica_mj" 0 * (fator_valor fs "fator_diesel" 2680 / 38) / 1000
         + campo d "agua_m3" 0 * fator_valor fs "fator_agua" 0.36 / 1000.
Proof.
  intros H. unfold FaseIndustrial.calcular_emissoes.
  ler_campos H. eexists. split; reflexivity.
Qed.

Lemma distribuicao_ok (d : dict) :
  Forall (numerico d) FaseDistribuicao.campos ->
  exists r, FaseDistribuicao.calcular_emissoes fs d = Ok r
    /\ FaseDistribuicao.emissoes_kg_co2 r
       = Spec.distribution_emissions
           (FaseDistribuicao.fator_do_modal fs
              (default (VStr "rodoviario") (d !! "modal_transporte")))
           (campo d "distancia_km" 0) (campo d "quantidade_biomassa_kg" 0)
    /\ FaseDistribuicao.modal (FaseDistribuicao.detalhe r)
       = default (VStr "rodoviario") (d !! "modal_transporte").
Proof.
  intros H. unfold FaseDistribuicao.calcular_emissoes.
  ler_campos H. eexists. repeat split; reflexivity.
Qed.

Lemma uso_ok (d : dict) :
  Forall (numerico d) FaseUso.campos ->
  exists r, FaseUso.calcular_emissoes fs d = Ok r
    /\ FaseUso.emissoes_kg_co2 r
       = campo d "quantidade_biomassa_kg" 0 * campo d "pci" 18
         * fator_valor fs "fator_combustao" 0 / 1000
    /\ FaseUso.emissoes_biogenicas_kg_co2 r
       = Spec.biogenic (campo d "quantidade_biomassa_kg" 0).
Proof.
  intros H. unfold FaseUso.calcular_emissoes.
  ler_campos H. eexists. repeat split; reflexivity.
Qed.

Lemma fator_do_modal_rodoviario :
  FaseDistribuicao.fator_do_modal fs (VStr "rodoviario")
  = fator_valor fs "fator_transporte_rodoviario" 62.
Proof. reflexivity. Qed.

Lemma fator_do_modal_maritimo :
  FaseDistribuicao.fator_do_modal fs (VStr "maritimo")
  = fator_valor fs "fator_transporte_maritimo" 8.5.
Proof. reflexivity. Qed.

Lemma fator_do_modal_ferroviario :
  FaseDistribuicao.fator_do_modal fs (VStr "ferroviario")
  = fator_valor fs "fator_transporte_ferroviario" 22.
Proof. reflexivity. Qed.

Lemma fator_do_modal_outro (m : valor) :
  m <> VStr "rodoviario" -> m <> VStr "maritimo" -> m <> VStr "ferroviario" ->
  FaseDistribuicao.fator_do_modal fs m = 62.
Proof.
  intros H1 H2 H3. destruct m as [q|s]; [reflexivity|].
  unfold FaseDistribuicao.fator_do_modal, FaseDistribuicao.fatores_modal.
  rewrite !lookup_insert_ne by congruence.
  rewrite lookup_empty. reflexivity.
Qed.

End Fases.

Lemma distribuicao_campos_insert_modal (d : dict) (m : valor) :
  Forall (numerico d) FaseDistribuicao.campos ->
  Forall (numerico (<["modal_transporte" := m]> d)) FaseDistribuicao.campos.
Proof.
  intros H. apply Forall_forall. intros k Hk.
  pose proof (proj1 (Forall_forall _ _) H k Hk) as Hn.
  unfold numerico in *. rewrite lookup_insert_ne; [assumption|].
  intros <-. unfold FaseDistribuicao.campos in Hk.
  repeat (apply elem_of_cons in Hk as [Hk|Hk]; [discriminate|]).
  inversion Hk.
Qed.

Lemma escala_transporte (fm fr d b : Q) :
  fm < fr -> 0 < d -> 0 < b ->
  Spec.distribution_emissions fm d b < Spec.distribution_emissions fr d b.
Proof.
  intros Hf Hd Hb. unfold Spec.distribution_emissions, Qdiv.
  assert (0 < d * b) as Hdb by (apply Qmult_lt_0_compat; assumption).
  do 2 (apply Qmult_lt_compat_r; [reflexivity|]).
  rewrite <- !Qmult_assoc. apply Qmult_lt_compat_r; assumption.
Qed.

(** ** Claims on the phase calculators *)

(** C3. For every agricultural-phase input with numeric fields the
    calculator returns the emissions of the formula of §4.2; with
    agricultural factor 50, 1000 kg of biomass and every other input zero
    they equal 50 kg CO2, and with a LUC/dLUC term of 500 they equal 550. *)
Theorem C3_agricola_formula (fs : tabela) (d : dict) :
  Forall (numerico d) FaseAgricola.campos ->
  exists r,
    FaseAgricola.calcular_emissoes fs d = Ok r
    /\ FaseAgricola.emissoes_kg_co2 r
       = Spec.agricultural_emissions
           (campo d "quantidade_biomassa_kg" 0) (campo d "fator_biomassa_agricola" 100)
           (campo d "uso_fertilizantes_kg" 0) (fator_valor fs "fator_fertilizante_n" 6540)
           (campo d "uso_pesticidas_kg" 0) (fator_valor fs "fator_pesticida" 10000)
           (fator_valor fs "fator_transporte_rodoviario" 62)
           (campo d "distancia_transporte_km" 0) (campo d "luc_dluc_opcional_kg_co2" 0)
    /\ (campo d "fator_biomassa_agricola" 100 == 50 ->
        campo d "quantidade_biomassa_kg" 0 == 1000 ->
        campo d "distancia_transporte_km" 0 == 0 ->
        campo d "uso_fertilizantes_kg" 0 == 0 ->
        campo d "uso_pesticidas_kg" 0 == 0 ->
        (campo d "luc_dluc_opcional_kg_co2" 0 == 0 ->
         FaseAgricola.emissoes_kg_co2 r == 50)
        /\ (campo d "luc_dluc_opcional_kg_co2" 0 == 500 ->
            FaseAgricola.emissoes_kg_co2 r == 550)).
Proof.
  intros H. destruct (agricola_ok fs d H) as (r & Hr & He).
  exists r. split; [assumption|]. split; [assumption|].
  intros Hf Hb Hd Hfe Hp. rewrite He. unfold Spec.agricultural_emissions.
  split; intros Hl; rewrite Hf, Hb, Hd, Hfe, Hp, Hl; field.
Qed.

Lemma C3_agricola_formula_witness :
  (exists r, FaseAgricola.calcular_emissoes ∅ Exemplos.agricola_sem_insumos = Ok r
             /\ FaseAgricola.emissoes_kg_co2 r == 50)
  /\ (exists r, FaseAgricola.calcular_emissoes Exemplos.fatores_rodoviario_100
                  Exemplos.agricola_com_luc = Ok r
                /\ FaseAgricola.emissoes_kg_co2 r == 550).
Proof.
  split.
  - destruct (C3_agricola_formula ∅ Exemplos.agricola_sem_insumos)
      as (r & Hr & _ & Hex).
    + repeat constructor.
    + exists r. split; [exact Hr|]. apply Hex; reflexivity.
  - destruct (C3_agricola_formula Exemplos.fatores_rodoviario_100 Exemplos.agricola_com_luc)
      as (r & Hr & _ & Hex).
    + repeat constructor.
    + exists r. split; [exact Hr|]. apply Hex; reflexivity.
Defined.

(** C4. For every use-phase input with numeric fields, when the combustion
    factor has its default value 0 the net emissions are 0 whatever the
    biomass quantity and the PCI, and the biogenic emissions reported are
    the biomass quantity times 1.84. *)
Theorem C4_uso_neutro (fs : tabela) (d : dict) :
  Forall (numerico d) FaseUso.campos ->
  fator_valor fs "fator_combustao" 0 == 0 ->
  exists r,
    FaseUso.calcular_emissoes fs d = Ok r
    /\ FaseUso.emissoes_kg_co2 r == 0
    /\ FaseUso.emissoes_biogenicas_kg_co2 r = campo d "quantidade_biomassa_kg" 0 * 1.84.
Proof.
  intros H Hf. destruct (uso_ok fs d H) as (r & Hr & He & Hb).
  exists r. split; [assumption|]. split; [|assumption].
  rewrite He, Hf. field.
Qed.

Lemma C4_uso_neutro_witness :
  exists r,
    FaseUso.calcular_emissoes ∅ Exemplos.uso_caldeira = Ok r
    /\ FaseUso.emissoes_kg_co2 r == 0
    /\ FaseUso.emissoes_biogenicas_kg_co2 r == 1840.
Proof.
  destruct (C4_uso_neutro ∅ Exemplos.uso_caldeira) as (r & Hr & He & Hb).
  - repeat constructor.
  - reflexivity.
  - exists r. split; [exact Hr|]. split; [exact He|]. rewrite Hb. reflexivity.
Defined.

(** C6, as stated, fails: at distance 0 (the input of [test_distancia_zero])
    the maritime and the road emissions are both 0, so the maritime ones are
    not strictly smaller. *)
Lemma C6_distancia_zero_counterexample :
  exists r_mar r_rod,
    FaseDistribuicao.calcular_emissoes ∅
      (<["modal_transporte" := VStr "maritimo"]> Exemplos.distribuicao_zero) = Ok r_mar
    /\ FaseDistribuicao.calcular_emissoes ∅
         (<["modal_transporte" := VStr "rodoviario"]> Exemplos.distribuicao_zero) = Ok r_rod
    /\ ~ FaseDistribuicao.emissoes_kg_co2 r_mar < FaseDistribuicao.emissoes_kg_co2 r_rod.
Proof.
  eexists. eexists. split; [reflexivity|]. split; [reflexivity|].
  vm_compute. intros H. discriminate H.
Qed.

(** C6, amended. For two distribution inputs that differ only in the
    transport mode, with numeric fields, a distance greater than 0 and a
    biomass mass greater than 0, and a factor table whose maritime factor is
    below its road factor (as the reference values 8.5 and 62.0 are), the
    maritime emissions are strictly below the road emissions. *)
Theorem C6_maritimo_menor_que_rodoviario (fs : tabela) (d : dict) :
  Forall (numerico d) FaseDistribuicao.campos ->
  fator_valor fs "fator_transporte_maritimo" 8.5
    < fator_valor fs "fator_transporte_rodoviario" 62 ->
  0 < campo d "distancia_km" 0 ->
  0 < campo d "quantidade_biomassa_kg" 0 ->
  exists r_mar r_rod,
    FaseDistribuicao.calcular_emissoes fs (<["modal_transporte" := VStr "maritimo"]> d)
      = Ok r_mar
    /\ FaseDistribuicao.calcular_emissoes fs (<["modal_transporte" := VStr "rodoviario"]> d)
       = Ok r_rod
    /\ FaseDistribuicao.emissoes_kg_co2 r_mar < FaseDistribuicao.emissoes_kg_co2 r_rod.
Proof.
  intros H Hf Hd Hb.
  destruct (distribuicao_ok fs _ (distribuicao_campos_insert_modal d (VStr "maritimo") H))
    as (r_mar & Hmar & Hem & _).
  destruct (distribuicao_ok fs _ (distribuicao_campos_insert_modal d (VStr "rodoviario") H))
    as (r_rod & Hrod & Her & _).
  exists r_mar, r_rod. split; [assumption|]. split; [assumption|].
  rewrite Hem, Her. rewrite !lookup_insert_eq. simpl default.
  rewrite fator_do_modal_maritimo, fator_do_modal_rodoviario.
  rewrite !campo_insert_ne by discriminate.
  apply escala_transporte; assumption.
Qed.

Lemma C6_maritimo_menor_que_rodoviario_witness :
  exists r_mar r_rod,
    FaseDistribuicao.calcular_emissoes ∅
      (<["modal_transporte" := VStr "maritimo"]> Exemplos.distribuicao_1000) = Ok r_mar
    /\ FaseDistribuicao.calcular_emissoes ∅
         (<["modal_transporte" := VStr "rodoviario"]> Exemplos.distribuicao_1000) = Ok r_rod
    /\ FaseDistribuicao.emissoes_kg_co2 r_mar < FaseDistribuicao.emissoes_kg_co2 r_rod.
Proof.
  apply (C6_maritimo_menor_que_rodoviario ∅ Exemplos.distribuicao_1000).
  - repeat constructor.
  - reflexivity.
  - reflexivity.
  - reflexivity.
Defined.

(** C10. The distribution calculator never fails because of the transport
    mode.  With numeric distance and mass: a mode that is present and is
    none of rodoviario, maritimo, ferroviario is computed with the constant
    factor 62, whatever road factor the table holds; an absent mode is
    taken as rodoviario and computed with the road factor of the table. *)
Theorem C10_modal_nao_reconhecido (fs : tabela) (d : dict) :
  Forall (numerico d) FaseDistribuicao.campos ->
  exists r,
    FaseDistribuicao.calcular_emissoes fs d = Ok r
    /\ (forall m, d !! "modal_transporte" = Some m ->
          m <> VStr "rodoviario" -> m <> VStr "maritimo" -> m <> VStr "ferroviario" ->
          FaseDistribuicao.emissoes_kg_co2 r
          = Spec.distribution_emissions 62
              (campo d "distancia_km" 0) (campo d "quantidade_biomassa_kg" 0))
    /\ (d !! "modal_transporte" = None ->
          FaseDistribuicao.modal (FaseDistribuicao.detalhe r) = VStr "rodoviario"
          /\ FaseDistribuicao.emissoes_kg_co2 r
             = Spec.distribution_emissions
                 (fator_valor fs "fator_transporte_rodoviario" 62)
                 (campo d "distancia_km" 0) (campo d "quantidade_biomassa_kg" 0)).
Proof.
  intros H. destruct (distribuicao_ok fs d H) as (r & Hr & He & Hm).
  exists r. split; [assumption|]. split.
  - intros m Hd H1 H2 H3. rewrite He, Hd. simpl default.
    rewrite fator_do_modal_outro by assumption. reflexivity.
  - intros Hd. rewrite Hm, He, Hd. simpl default.
    rewrite fator_do_modal_rodoviario. split; reflexivity.
Qed.

Lemma C10_modal_nao_reconhecido_witness :
  exists r,
    FaseDistribuicao.calcular_emissoes Exemplos.fatores_rodoviario_100
      (<["modal_transporte" := VStr "aereo"]> Exemplos.distribuicao_1000) = Ok r
    /\ FaseDistribuicao.emissoes_kg_co2 r == 62.
Proof.
  destruct (C10_modal_nao_reconhecido Exemplos.fatores_rodoviario_100
              (<["modal_transporte" := VStr "aereo"]> Exemplos.distribuicao_1000))
    as (r & Hr & Hout & _).
  - repeat constructor.
  - exists r. split; [exact Hr|].
    rewrite (Hout (VStr "aereo")); [reflexivity|reflexivity|discriminate..].
Defined.

(** The mode plays no part in whether the distribution calculator fails. *)
Lemma distribuicao_sucesso_sem_modal (fs : tabela) (d : dict) :
  sucesso (FaseDistribuicao.calcular_emissoes fs d)
  <-> numerico d "distancia_km" /\ numerico d "quantidade_biomassa_kg".
Proof.
  unfold FaseDistribuicao.calcular_emissoes, numerico, get_num.
  destruct (d !! "distancia_km") as [[q|s]|];
    destruct (d !! "quantidade_biomassa_kg") as [[q'|s']|]; simpl; tauto.
Qed.

(** ** Facts on the validator *)

Section ValidadorFatos.
Import Validador Regras.

Lemma get_num_insert_ausente (d : dict) (k k' : string) :
  d !! k = None -> get_num (<[k := VNum 0]> d) k' 0 = get_num d k' 0.
Proof.
  intros Hk. unfold get_num. destruct (decide (k = k')) as [<-|Hne].
  - rewrite lookup_insert_eq, Hk. reflexivity.
  - rewrite lookup_insert_ne by assumption. reflexivity.
Qed.

(** Reads the numeric fields and keeps the local definitions folded. *)
Ltac ler_campos_val H :=
  repeat match goal with
  | |- context [get_num ?d ?k ?p] =>
      rewrite (get_num_campo d k p)
        by (apply (proj1 (Forall_forall _ _) H); repeat constructor)
  end; cbv beta iota delta [mbind res_bind].

Lemma validar_fase_agricola_forma (d : dict) :
  Forall (numerico d) campos_agricola ->
  validar_fase_agricola d
  = Ok (bool_decide (length (erros_agricola d) = 0%nat), erros_agricola d).
Proof.
  intros H. unfold validar_fase_agricola, erros_agricola. ler_campos_val H.
  unfold erros_biomassa, erros_limite, erros_positivo, validar_positivo.
  generalize (campo d "quantidade_biomassa_kg" 0) (campo d "distancia_transporte_km" 0)
    (campo d "uso_fertilizantes_kg" 0) (campo d "uso_pesticidas_kg" 0)
    (campo d "luc_dluc_opcional_kg_co2" 0).
  intros q1 q2 q3 q4 q5.
  generalize "Distância de transporte" "Uso de fertilizantes" "Uso de pesticidas" "LUC/dLUC".
  intros n2 n3 n4 n5.
  generalize (decide (q1 <= 0)) (decide (1000000 < q1)) (decide (q2 < 0))
    (decide (1000 < q2)) (decide (q3 < 0)) (decide (100000 < q3)) (decide (q4 < 0))
    (decide (10000 < q4)) (decide (q5 < 0)).
  intros [?|?] [?|?] [?|?] [?|?] [?|?] [?|?] [?|?] [?|?] [?|?]; reflexivity.
Qed.

Lemma validar_fase_industrial_forma (d : dict) :
  Forall (numerico d) campos_industrial ->
  validar_fase_industrial d
  = Ok (bool_decide (length (erros_industrial d) = 0%nat), erros_industrial d).
Proof.
  intros H. unfold validar_fase_industrial, erros_industrial. ler_campos_val H.
  unfold erros_limite, validar_positivo.
  generalize (campo d "energia_eletrica_kwh" 0) (campo d "energia_termica_mj" 0)
    (campo d "agua_m3" 0).
  intros q1 q2 q3.
  generalize "Energia elétrica" "Energia térmica" "Consumo de água".
  intros n1 n2 n3.
  generalize (decide (q1 < 0)) (decide (1000000 < q1)) (decide (q2 < 0))
    (decide (10000000 < q2)) (decide (q3 < 0)) (decide (100000 < q3)).
  intros [?|?] [?|?] [?|?] [?|?] [?|?] [?|?]; reflexivity.
Qed.

Lemma validar_fase_distribuicao_forma (d : dict) :
  Forall (numerico d) campos_distribuicao ->
  validar_fase_distribuicao d
  = Ok (bool_decide (length (erros_distribuicao d) = 0%nat), erros_distribuicao d).
Proof.
  intros H. unfold validar_fase_distribuicao, erros_distribuicao. ler_campos_val H.
  unfold erros_limite, erros_opcao, validar_positivo.
  generalize (campo d "distancia_km" 0) (default (VStr "") (d !! "modal_transporte")).
  intros q1 m.
  generalize "Distância de distribuição". intros n1.
  generalize (decide (q1 < 0)) (decide (50000 < q1)) (em_lista m modais_validos).
  intros [?|?] [?|?] [|]; reflexivity.
Qed.

Lemma validar_fase_uso_forma (d : dict) :
  validar_fase_uso d = Ok (bool_decide (length (erros_uso d) = 0%nat), erros_uso d).
Proof.
  unfold validar_fase_uso, erros_uso, erros_opcao.
  destruct (em_lista _ tipos_validos); reflexivity.
Qed.

End ValidadorFatos.

Section ValidadorCompleto.
Import Validador Regras.

Variables (h : heap) (e : entrada).

Let da := ler_fase h (fase_agricola e).
Let di := ler_fase h (fase_industrial e).
Let dd := ler_fase h (fase_distribuicao e).
Let du := ler_fase h (fase_uso e).

Lemma passo_relatorio (k : string) (erros : list mensagem)
    (m : gmap string (list mensagem)) :
  (if negb (bool_decide (length erros = 0%nat)) then <[k := erros]> m else m)
  = entrada_relatorio k erros m.
Proof. destruct erros; reflexivity. Qed.

Lemma relatorio_vazio (k : string) (erros : list mensagem)
    (m : gmap string (list mensagem)) :
  bool_decide (size (entrada_relatorio k erros m) = 0%nat)
  = sem_erros erros && bool_decide (size m = 0%nat).
Proof.
  destruct erros as [|x l]; [reflexivity|]. simpl.
  apply bool_decide_eq_false. intros Hs.
  apply map_size_empty_iff in Hs. exact (insert_non_empty _ _ _ Hs).
Qed.

Lemma relatorio_lookup_eq (k : string) (erros : list mensagem)
    (m : gmap string (list mensagem)) :
  m !! k = None ->
  entrada_relatorio k erros m !! k = if sem_erros erros then None else Some erros.
Proof.
  intros Hm. destruct erros as [|x l]; simpl; [assumption|apply lookup_insert_eq].
Qed.

Lemma relatorio_lookup_ne (k k' : string) (erros : list mensagem)
    (m : gmap string (list mensagem)) :
  k <> k' -> entrada_relatorio k erros m !! k' = m !! k'.
Proof.
  intros Hne. destruct erros as [|x l]; simpl; [reflexivity|].
  apply lookup_insert_ne; assumption.
Qed.

Lemma validar_completo_forma :
  Forall (numerico da) campos_agricola ->
  Forall (numerico di) campos_industrial ->
  Forall (numerico dd) campos_distribuicao ->
  validar_completo h e
  = Ok (sem_erros (erros_id_biomassa e) && sem_erros (erros_agricola da)
        && sem_erros (erros_industrial di) && sem_erros (erros_distribuicao dd)
        && sem_erros (erros_uso du),
        relatorio h e).
Proof.
  intros Ha Hi Hd. unfold validar_completo, relatorio.
  fold da di dd du.
  rewrite (validar_fase_agricola_forma da Ha), (validar_fase_industrial_forma di Hi),
    (validar_fase_distribuicao_forma dd Hd), (validar_fase_uso_forma du).
  cbv beta iota zeta delta [mbind res_bind fst snd].
  replace (if negb (bool_decide (default "" (biomassa e) ∈ biomassas_validas))
           then <["biomassa" := [texto msg_biomassa_invalida]]> ∅ else ∅)
    with (entrada_relatorio "biomassa" (erros_id_biomassa e)
            (∅ : gmap string (list mensagem)))
    by (unfold erros_id_biomassa; destruct (bool_decide _); reflexivity).
  rewrite !passo_relatorio, !relatorio_vazio.
  f_equal. f_equal.
  generalize (sem_erros (erros_id_biomassa e)) (sem_erros (erros_agricola da))
    (sem_erros (erros_industrial di)) (sem_erros (erros_distribuicao dd))
    (sem_erros (erros_uso du)).
  intros [|] [|] [|] [|] [|]; reflexivity.
Qed.

Lemma relatorio_entradas :
  relatorio h e !! "biomassa"
    = (if sem_erros (erros_id_biomassa e) then None else Some (erros_id_biomassa e))
  /\ relatorio h e !! "fase_agricola"
     = (if sem_erros (erros_agricola da) then None else Some (erros_agricola da))
  /\ relatorio h e !! "fase_industrial"
     = (if sem_erros (erros_industrial di) then None else Some (erros_industrial di))
  /\ relatorio h e !! "fase_distribuicao"
     = (if sem_erros (erros_distribuicao dd) then None
        else Some (erros_distribuicao dd))
  /\ relatorio h e !! "fase_uso"
     = (if sem_erros (erros_uso du) then None else Some (erros_uso du)).
Proof.
  unfold relatorio. fold da di dd du. repeat split;
    repeat (rewrite relatorio_lookup_ne by discriminate);
    apply relatorio_lookup_eq;
    repeat (rewrite relatorio_lookup_ne by discriminate);
    apply lookup_empty.
Qed.

End ValidadorCompleto.

Section ValidadorExemplos.
Import Validador Regras.

Lemma validar_fase_agricola_ausente (d : dict) (k : string) :
  d !! k = None ->
  validar_fase_agricola (<[k := VNum 0]> d) = validar_fase_agricola d.
Proof.
  intros Hk. unfold validar_fase_agricola.
  rewrite !(get_num_insert_ausente d k) by assumption. reflexivity.
Qed.

Lemma validar_fase_industrial_ausente (d : dict) (k : string) :
  d !! k = None ->
  validar_fase_industrial (<[k := VNum 0]> d) = validar_fase_industrial d.
Proof.
  intros Hk. unfold validar_fase_industrial.
  rewrite !(get_num_insert_ausente d k) by assumption. reflexivity.
Qed.

Lemma validar_fase_distribuicao_ausente (d : dict) :
  d !! "distancia_km" = None ->
  validar_fase_distribuicao (<["distancia_km" := VNum 0]> d)
  = validar_fase_distribuicao d.
Proof.
  intros Hk. unfold validar_fase_distribuicao.
  rewrite !(get_num_insert_ausente d "distancia_km") by assumption.
  rewrite lookup_insert_ne by discriminate. reflexivity.
Qed.

Lemma erros_agricola_biomassa_zero (d : dict) :
  campo d "quantidade_biomassa_kg" 0 == 0 ->
  exists resto, erros_agricola d = texto msg_biomassa_zero :: resto.
Proof.
  intros Hq. unfold erros_agricola, erros_biomassa.
  destruct (decide (campo d "quantidade_biomassa_kg" 0 <= 0)) as [_|Hn].
  - eexists. reflexivity.
  - exfalso. apply Hn. rewrite Hq. apply Qle_refl.
Qed.

Lemma erros_distribuicao_modal (d : dict) (m : valor) :
  d !! "modal_transporte" = Some m -> em_lista m modais_validos = false ->
  exists resto, erros_distribuicao d = texto msg_modal_invalido :: resto.
Proof.
  intros Hm Hv. unfold erros_distribuicao, erros_opcao. rewrite Hm. simpl default.
  rewrite Hv. eexists. reflexivity.
Qed.

Lemma menciona_biomassa :
  menciona "Quantidade de biomassa" (texto msg_biomassa_zero) = true.
Proof. vm_compute. reflexivity. Qed.

Lemma menciona_modal :
  menciona "Modal de transporte" (texto msg_modal_invalido) = true.
Proof. vm_compute. reflexivity. Qed.

Lemma aereo_invalido : em_lista (VStr "aereo") modais_validos = false.
Proof. vm_compute. reflexivity. Qed.

End ValidadorExemplos.

(** C8. For every request whose numeric fields hold numbers the validator
    returns a report and raises nothing; an absent numeric field is
    validated as the value 0; the overall validity is the conjunction of
    the validities of the entries of the report (the biomass id and the four
    phases); each entry holds the errors of all the violated rules of its
    phase, not only the first.  A biomass quantity of 0 makes the request
    invalid with an error that mentions the biomass quantity, and the
    transport mode "aereo" makes it invalid with an error that mentions the
    mode. *)
Theorem C8_validador_completo (h : heap) (e : entrada) :
  let da := ler_fase h (fase_agricola e) in
  let di := ler_fase h (fase_industrial e) in
  let dd := ler_fase h (fase_distribuicao e) in
  let du := ler_fase h (fase_uso e) in
  Forall (numerico da) Regras.campos_agricola ->
  Forall (numerico di) Regras.campos_industrial ->
  Forall (numerico dd) Regras.campos_distribuicao ->
  exists valido erros va ea vi ei vd ed vu eu,
    Validador.validar_completo h e = Ok (valido, erros)
    /\ Validador.validar_fase_agricola da = Ok (va, ea)
    /\ Validador.validar_fase_industrial di = Ok (vi, ei)
    /\ Validador.validar_fase_distribuicao dd = Ok (vd, ed)
    /\ Validador.validar_fase_uso du = Ok (vu, eu)
    /\ (forall k, da !! k = None ->
          Validador.validar_fase_agricola (<[k := VNum 0]> da) = Ok (va, ea))
    /\ (forall k, di !! k = None ->
          Validador.validar_fase_industrial (<[k := VNum 0]> di) = Ok (vi, ei))
    /\ (dd !! "distancia_km" = None ->
          Validador.validar_fase_distribuicao (<["distancia_km" := VNum 0]> dd)
          = Ok (vd, ed))
    /\ valido = Regras.sem_erros (Regras.erros_id_biomassa e) && va && vi && vd && vu
    /\ ea = Regras.erros_agricola da /\ va = Regras.sem_erros ea
    /\ ei = Regras.erros_industrial di /\ vi = Regras.sem_erros ei
    /\ ed = Regras.erros_distribuicao dd /\ vd = Regras.sem_erros ed
    /\ eu = Regras.erros_uso du /\ vu = Regras.sem_erros eu
    /\ erros !! "biomassa"
       = (if Regras.sem_erros (Regras.erros_id_biomassa e) then None
          else Some (Regras.erros_id_biomassa e))
    /\ erros !! "fase_agricola" = (if va then None else Some ea)
    /\ erros !! "fase_industrial" = (if vi then None else Some ei)
    /\ erros !! "fase_distribuicao" = (if vd then None else Some ed)
    /\ erros !! "fase_uso" = (if vu then None else Some eu)
    /\ (campo da "quantidade_biomassa_kg" 0 == 0 ->
          valido = false
          /\ erros !! "fase_agricola" = Some ea
          /\ exists m, m ∈ ea /\ Validador.menciona "Quantidade de biomassa" m = true)
    /\ (dd !! "modal_transporte" = Some (VStr "aereo") ->
          valido = false
          /\ erros !! "fase_distribuicao" = Some ed
          /\ exists m, m ∈ ed /\ Validador.menciona "Modal de transporte" m = true).
Proof.
  intros da di dd du Ha Hi Hd.
  pose proof (validar_completo_forma h e Ha Hi Hd) as Hc.
  pose proof (relatorio_entradas h e) as (Hb & Hea & Hei & Hed & Heu).
  fold da di dd du in Hc, Hea, Hei, Hed, Heu.
  assert (forall l : list Validador.mensagem,
            bool_decide (length l = 0%nat) = Regras.sem_erros l) as Hsem
    by (intros [|? ?]; reflexivity).
  pose proof (validar_fase_agricola_forma da Ha) as Hfa.
  pose proof (validar_fase_industrial_forma di Hi) as Hfi.
  pose proof (validar_fase_distribuicao_forma dd Hd) as Hfd.
  pose proof (validar_fase_uso_forma du) as Hfu.
  rewrite Hsem in Hfa, Hfi, Hfd, Hfu.
  eexists _, _, _, _, _, _, _, _, _, _.
  split; [exact Hc|]. split; [exact Hfa|]. split; [exact Hfi|].
  split; [exact Hfd|]. split; [exact Hfu|].
  split; [intros k Hk; rewrite validar_fase_agricola_ausente by assumption; exact Hfa|].
  split; [intros k Hk; rewrite validar_fase_industrial_ausente by assumption; exact Hfi|].
  split; [intros Hk; rewrite validar_fase_distribuicao_ausente by assumption; exact Hfd|].
  do 9 (split; [reflexivity|]).
  split; [exact Hb|]. split; [exact Hea|]. split; [exact Hei|].
  split; [exact Hed|]. split; [exact Heu|].
  split.
  - intros Hq. destruct (erros_agricola_biomassa_zero da Hq) as [resto Hr].
    rewrite Hea. rewrite Hr. simpl. rewrite !andb_false_r. simpl.
    split; [reflexivity|]. split; [reflexivity|].
    exists (Validador.texto Validador.msg_biomassa_zero).
    split; [left|exact menciona_biomassa].
  - intros Hm. destruct (erros_distribuicao_modal dd _ Hm aereo_invalido) as [resto Hr].
    rewrite Hed. rewrite Hr. simpl. rewrite !andb_false_r. simpl.
    split; [reflexivity|]. split; [reflexivity|].
    exists (Validador.texto Validador.msg_modal_invalido).
    split; [left|exact menciona_modal].
Qed.

Lemma C8_validador_completo_witness :
  exists erros ea ed,
    Validador.validar_completo Exemplos.objetos_multiplos_erros Exemplos.pedido_pinus
    = Ok (false, erros)
    /\ erros !! "fase_agricola" = Some ea
    /\ erros !! "fase_distribuicao" = Some ed
    /\ (exists m, m ∈ ea /\ Validador.menciona "Quantidade de biomassa" m = true)
    /\ (exists m, m ∈ ed /\ Validador.menciona "Modal de transporte" m = true).
Proof.
  destruct (C8_validador_completo Exemplos.objetos_multiplos_erros Exemplos.pedido_pinus)
    as (valido & erros & va & ea & vi & ei & vd & ed & vu & eu & Hc & _ & _ & _ & _
        & _ & _ & _ & _ & _ & _ & _ & _ & _ & _ & _ & _ & _ & _ & _ & _ & _ & Hq & Hm).
  - repeat constructor.
  - repeat constructor.
  - repeat constructor.
  - destruct Hq as (Hv & Hea & Hma); [reflexivity|].
    destruct Hm as (_ & Hed & Hmd); [reflexivity|].
    exists erros, ea, ed. rewrite Hv in Hc. repeat split; assumption.
Defined.

(** ** Facts on the object store *)

Section Store.

Implicit Types (h : heap) (l : loc) (k : string) (v : valor) (r : option loc).

Lemma ler_ausente h l : h !! l = None -> ler h l = ∅.
Proof. intros H. unfold ler. rewrite H. reflexivity. Qed.

Lemma lookup_escrever h l l' k v :
  escrever h l k v !! l'
  = if decide (l = l') then Some (<[k := v]> (ler h l)) else h !! l'.
Proof.
  unfold escrever. destruct (decide (l = l')) as [<-|Hne].
  - apply lookup_insert_eq.
  - apply lookup_insert_ne. assumption.
Qed.

Lemma ler_escrever h l l' k k' v :
  ler (escrever h l k v) l' !! k'
  = if decide (l = l' /\ k = k') then Some v else ler h l' !! k'.
Proof.
  unfold ler at 1. rewrite lookup_escrever.
  destruct (decide (l = l')) as [<-|Hne]; simpl.
  - destruct (decide (k = k')) as [<-|Hk].
    + rewrite lookup_insert_eq. rewrite decide_True by tauto. reflexivity.
    + rewrite lookup_insert_ne by assumption. rewrite decide_False by tauto.
      reflexivity.
  - rewrite decide_False by tauto. reflexivity.
Qed.

Lemma dom_escrever h l k v : dom h ⊆ dom (escrever h l k v).
Proof. unfold escrever. rewrite dom_insert. set_solver. Qed.

Lemma dom_get_fase h r : dom h ⊆ dom (get_fase h r).1.
Proof. destruct r; simpl; [reflexivity|]. rewrite dom_insert. set_solver. Qed.

Lemma lookup_get_fase h r l :
  is_Some (h !! l) -> (get_fase h r).1 !! l = h !! l.
Proof.
  intros Hl. destruct r as [l0|]; simpl; [reflexivity|].
  apply lookup_insert_ne. intros <-.
  apply elem_of_dom in Hl. exact (is_fresh (dom h) Hl).
Qed.

Lemma ler_get_fase h r l : ler (get_fase h r).1 l = ler h l.
Proof.
  destruct r as [l0|]; simpl; [reflexivity|].
  unfold ler. destruct (decide (fresh (dom h) = l)) as [<-|Hne].
  - rewrite lookup_insert_eq.
    rewrite (proj1 (not_elem_of_dom h _) (is_fresh (dom h))). reflexivity.
  - rewrite lookup_insert_ne by assumption. reflexivity.
Qed.

(** The location of a phase entry holds, in any earlier store, the dict
    that the entry denotes. *)
Lemma ler_loc_get_fase h h' r :
  dom h ⊆ dom h' -> ler h (get_fase h' r).2 = ler_fase h r.
Proof.
  intros Hd. destruct r as [l0|]; simpl; [reflexivity|].
  apply ler_ausente. apply not_elem_of_dom.
  intros Hin. exact (is_fresh (dom h') (Hd _ Hin)).
Qed.

End Store.

(** ** The preparation of the phase inputs *)

Section Preparar.
Import Calculo.

Variables (h : heap) (e : entrada) (info : perfil).

Let h4 : heap := (preparar h e info).1.
Let ls : locais := (preparar h e info).2.

Lemma lookup_escrever_ne (h' : heap) (l l' : loc) (k : string) (v : valor) :
  l <> l' -> escrever h' l k v !! l' = h' !! l'.
Proof. intros Hne. rewrite lookup_escrever, decide_False by assumption. reflexivity. Qed.

Lemma is_Some_escrever (h' : heap) (l l' : loc) (k : string) (v : valor) :
  is_Some (h' !! l') -> is_Some (escrever h' l k v !! l').
Proof. rewrite <- !elem_of_dom. apply dom_escrever. Qed.

Lemma is_Some_get_fase (h' : heap) (r : option loc) (l : loc) :
  is_Some (h' !! l) -> is_Some ((get_fase h' r).1 !! l).
Proof. rewrite <- !elem_of_dom. apply dom_get_fase. Qed.

Lemma quantidade_de_ler (h' : heap) (l : loc) :
  quantidade_de (ler h' l) = default (VNum 0) (ler h' l !! "quantidade_biomassa_kg").
Proof. reflexivity. Qed.

Lemma preparar_dom : dom h ⊆ dom h4.
Proof.
  unfold h4, preparar. cbn [fst snd].
  repeat first [ etrans; [|apply dom_escrever] | etrans; [|apply dom_get_fase] ].
  reflexivity.
Qed.

Lemma preparar_agricola : ler h (dados_agricola ls) = ler_fase h (fase_agricola e).
Proof. unfold ls, preparar. cbn [fst snd dados_agricola]. apply ler_loc_get_fase. reflexivity. Qed.

Lemma preparar_industrial :
  ler h (dados_industrial ls) = ler_fase h (fase_industrial e).
Proof.
  unfold ls, preparar. cbn [fst snd dados_industrial]. apply ler_loc_get_fase.
  etrans; [|apply dom_escrever]. apply dom_get_fase.
Qed.

Lemma preparar_distribuicao :
  ler h (dados_distribuicao ls) = ler_fase h (fase_distribuicao e).
Proof.
  unfold ls, preparar. cbn [fst snd dados_distribuicao]. apply ler_loc_get_fase.
  etrans; [|apply dom_get_fase]. etrans; [|apply dom_escrever]. apply dom_get_fase.
Qed.

Lemma preparar_uso : ler h (dados_uso ls) = ler_fase h (fase_uso e).
Proof.
  unfold ls, preparar. cbn [fst snd dados_uso]. apply ler_loc_get_fase.
  etrans; [|apply dom_escrever]. etrans; [|apply dom_get_fase].
  etrans; [|apply dom_get_fase]. etrans; [|apply dom_escrever]. apply dom_get_fase.
Qed.

Lemma preparar_ler (l : loc) (k : string) :
  ler h4 l !! k
  = if decide (dados_uso ls = l /\ "pci" = k) then Some (VNum (pci info))
    else if decide (dados_uso ls = l /\ "quantidade_biomassa_kg" = k)
    then Some (quantidade_de (ler_fase h (fase_agricola e)))
    else if decide (dados_distribuicao ls = l /\ "quantidade_biomassa_kg" = k)
    then Some (quantidade_de (ler_fase h (fase_agricola e)))
    else if decide (dados_agricola ls = l /\ "fator_biomassa_agricola" = k)
    then Some (VNum (fator_biomassa_agricola info))
    else ler h l !! k.
Proof.
  rewrite <- preparar_agricola.
  unfold h4, ls, preparar. cbn [fst snd dados_agricola dados_distribuicao dados_uso].
  set (la := (get_fase h (fase_agricola e)).2).
  rewrite !ler_escrever, !ler_get_fase, !quantidade_de_ler.
  rewrite !ler_escrever, !ler_get_fase.
  rewrite !ler_escrever, !ler_get_fase.
  rewrite (decide_False (P := la = la /\ _)) by (intros [_ ?]; discriminate).
  match goal with
  | |- context [decide (?x = l /\ "pci" = k)] => generalize x; intros lu
  end.
  match goal with
  | |- context [decide (?x = la /\ _)] => generalize x; intros ld
  end.
  destruct (decide (ld = la /\ "quantidade_biomassa_kg" = "quantidade_biomassa_kg"));
    reflexivity.
Qed.

(** Objects that are not the agricultural, distribution or use dict of the
    request are left as they were. *)
Lemma preparar_lookup (l : loc) :
  is_Some (h !! l) ->
  dados_agricola ls <> l -> dados_distribuicao ls <> l -> dados_uso ls <> l ->
  h4 !! l = h !! l.
Proof.
  intros Hl. unfold h4, ls, preparar.
  cbn [fst snd dados_agricola dados_distribuicao dados_uso].
  intros Ha Hd Hu.
  repeat first
    [ rewrite lookup_escrever_ne by assumption
    | rewrite lookup_get_fase
        by repeat first [ assumption | apply is_Some_escrever | apply is_Some_get_fase ] ].
  reflexivity.
Qed.

Lemma preparar_some :
  (forall l, fase_agricola e = Some l -> dados_agricola ls = l)
  /\ (forall l, fase_industrial e = Some l -> dados_industrial ls = l)
  /\ (forall l, fase_distribuicao e = Some l -> dados_distribuicao ls = l)
  /\ (forall l, fase_uso e = Some l -> dados_uso ls = l).
Proof.
  unfold ls, preparar.
  cbn [fst snd dados_agricola dados_industrial dados_distribuicao dados_uso].
  repeat split; intros l ->; reflexivity.
Qed.

(** A phase entry that is absent is a new object, none of the caller's. *)
Lemma preparar_none (l : loc) :
  is_Some (h !! l) ->
  (fase_agricola e = None -> dados_agricola ls <> l)
  /\ (fase_distribuicao e = None -> dados_distribuicao ls <> l)
  /\ (fase_uso e = None -> dados_uso ls <> l).
Proof.
  intros Hl. apply elem_of_dom in Hl.
  unfold ls, preparar. cbn [fst snd dados_agricola dados_distribuicao dados_uso].
  repeat split; intros -> <-; cbn [get_fase snd] in Hl;
    match type of Hl with
    | fresh (dom ?x) ∈ _ => apply (is_fresh (dom x)); revert Hl
    end;
    match goal with |- _ ∈ ?a -> _ ∈ ?b => assert (a ⊆ b) as Hs; [|apply Hs] end;
    repeat first [ reflexivity | etrans; [|apply dom_escrever]
                 | etrans; [|apply dom_get_fase] ].
Qed.
Lemma preparar_ler_outro (l : loc) (k : string) :
  k <> "pci" -> k <> "quantidade_biomassa_kg" -> k <> "fator_biomassa_agricola" ->
  ler h4 l !! k = ler h l !! k.
Proof.
  intros H1 H2 H3. rewrite preparar_ler.
  rewrite !decide_False by (intros [_ ?]; congruence). reflexivity.
Qed.

Lemma preparar_quantidade (l : loc) :
  l = dados_agricola ls \/ l = dados_distribuicao ls \/ l = dados_uso ls ->
  quantidade_de (ler h4 l) = quantidade_de (ler_fase h (fase_agricola e)).
Proof.
  intros Hl. unfold quantidade_de at 1. rewrite preparar_ler.
  rewrite (decide_False (P := _ /\ "pci" = _)) by (intros [_ ?]; discriminate).
  rewrite (decide_False (P := _ /\ "fator_biomassa_agricola" = _))
    by (intros [_ ?]; discriminate).
  repeat case_decide; try reflexivity.
  destruct Hl as [ -> | [ -> | -> ] ].
  - rewrite preparar_agricola. reflexivity.
  - tauto.
  - tauto.
Qed.

Lemma preparar_fator :
  ler h4 (dados_agricola ls) !! "fator_biomassa_agricola"
  = Some (VNum (fator_biomassa_agricola info)).
Proof.
  rewrite preparar_ler.
  rewrite !(decide_False (P := _ /\ "pci" = _)) by (intros [_ ?]; discriminate).
  rewrite !(decide_False (P := _ /\ "quantidade_biomassa_kg" = _))
    by (intros [_ ?]; discriminate).
  rewrite decide_True by tauto. reflexivity.
Qed.

Lemma preparar_pci :
  ler h4 (dados_uso ls) !! "pci" = Some (VNum (pci info)).
Proof. rewrite preparar_ler. rewrite decide_True by tauto. reflexivity. Qed.

End Preparar.

(** ** Facts on the aggregator *)

Section Agregador.
Import Calculo.

(** What a successful run of the phases returns. *)
Lemma calcular_fases_ok (fs : tabela) (h : heap) (n : string) (info : perfil)
    (ls : locais) (r : resultado) :
  calcular_fases fs h n info ls = Ok r ->
  exists ra ri rd ru q,
    FaseAgricola.calcular_emissoes fs (ler h (dados_agricola ls)) = Ok ra
    /\ FaseIndustrial.calcular_emissoes fs (ler h (dados_industrial ls)) = Ok ri
    /\ FaseDistribuicao.calcular_emissoes fs (ler h (dados_distribuicao ls)) = Ok rd
    /\ FaseUso.calcular_emissoes fs (ler h (dados_uso ls)) = Ok ru
    /\ get_num (ler h (dados_uso ls)) "quantidade_biomassa_kg" 0 = Ok q
    /\ res_biomassa r = n /\ biomassa_info r = info
    /\ emissoes_kg_co2 (agricola (resultados_por_fase r))
       = FaseAgricola.emissoes_kg_co2 ra
    /\ emissoes_kg_co2 (industrial (resultados_por_fase r))
       = FaseIndustrial.emissoes_kg_co2 ri
    /\ emissoes_kg_co2 (distribuicao (resultados_por_fase r))
       = FaseDistribuicao.emissoes_kg_co2 rd
    /\ uso_emissoes_kg_co2 (uso (resultados_por_fase r)) = FaseUso.emissoes_kg_co2 ru
    /\ emissoes_biogenicas_kg_co2 (uso (resultados_por_fase r))
       = FaseUso.emissoes_biogenicas_kg_co2 ru
    /\ emissoes_totais_kg_co2 r
       = FaseAgricola.emissoes_kg_co2 ra + FaseIndustrial.emissoes_kg_co2 ri
         + FaseDistribuicao.emissoes_kg_co2 rd + FaseUso.emissoes_kg_co2 ru
    /\ energia_total_mj r = q * pci info
    /\ intensidade_carbono_g_co2_mj r
       = (if decide (0 < energia_total_mj r)
          then (emissoes_totais_kg_co2 r * 1000) / energia_total_mj r else 0)
    /\ neea r = fator_valor fs "ci_fossil_referencia" 85 - intensidade_carbono_g_co2_mj r
    /\ ci_fossil_referencia_g_co2_mj (comparacao_fossil r)
       = fator_valor fs "ci_fossil_referencia" 85
    /\ ci_biocombustivel_g_co2_mj (comparacao_fossil r)
       = intensidade_carbono_g_co2_mj r
    /\ reducao_g_co2_mj (comparacao_fossil r) = neea r
    /\ reducao_percentual (comparacao_fossil r)
       = (if decide (0 < fator_valor fs "ci_fossil_referencia" 85)
          then (neea r / fator_valor fs "ci_fossil_referencia" 85) * 100 else 0)
    /\ (0 < emissoes_totais_kg_co2 r ->
        percentual (agricola (resultados_por_fase r))
        = (FaseAgricola.emissoes_kg_co2 ra / emissoes_totais_kg_co2 r) * 100
        /\ percentual (industrial (resultados_por_fase r))
           = (FaseIndustrial.emissoes_kg_co2 ri / emissoes_totais_kg_co2 r) * 100
        /\ percentual (distribuicao (resultados_por_fase r))
           = (FaseDistribuicao.emissoes_kg_co2 rd / emissoes_totais_kg_co2 r) * 100
        /\ uso_percentual (uso (resultados_por_fase r))
           = (FaseUso.emissoes_kg_co2 ru / emissoes_totais_kg_co2 r) * 100)
    /\ (~ 0 < emissoes_totais_kg_co2 r ->
        percentual (agricola (resultados_por_fase r)) = 0
        /\ percentual (industrial (resultados_por_fase r)) = 0
        /\ percentual (distribuicao (resultados_por_fase r)) = 0
        /\ uso_percentual (uso (resultados_por_fase r)) = 0).
Proof.
  unfold calcular_fases.
  destruct (FaseAgricola.calcular_emissoes fs _) as [ra|]; [|discriminate].
  destruct (FaseIndustrial.calcular_emissoes fs _) as [ri|]; [|discriminate].
  destruct (FaseDistribuicao.calcular_emissoes fs _) as [rd|]; [|discriminate].
  destruct (FaseUso.calcular_emissoes fs _) as [ru|]; [|discriminate].
  cbv beta iota delta [mbind res_bind].
  destruct (get_num _ "quantidade_biomassa_kg" 0) as [q|]; [|discriminate].
  cbv beta iota zeta delta [mbind res_bind].
  intros [= <-]. exists ra, ri, rd, ru, q.
  cbn [res_biomassa biomassa_info resultados_por_fase emissoes_totais_kg_co2
       energia_total_mj intensidade_carbono_g_co2_mj neea comparacao_fossil
       agricola industrial distribuicao uso emissoes_kg_co2 percentual
       uso_emissoes_kg_co2 uso_percentual emissoes_biogenicas_kg_co2
       ci_fossil_referencia_g_co2_mj ci_biocombustivel_g_co2_mj reducao_g_co2_mj
       reducao_percentual].
  do 20 (split; [reflexivity|]).
  split; intros Ht.
  - rewrite decide_True by assumption. repeat split; reflexivity.
  - rewrite decide_False by assumption. repeat split; reflexivity.
Qed.
End Agregador.

Section FasesPreparadas.
Import Calculo.

Variables (fs : tabela) (h : heap) (e : entrada) (info : perfil).

Let h4 : heap := (preparar h e info).1.
Let ls : locais := (preparar h e info).2.
Let da : dict := ler_fase h (fase_agricola e).
Let di : dict := ler_fase h (fase_industrial e).
Let dd : dict := ler_fase h (fase_distribuicao e).

Hypothesis Hnum : entrada_numerica h e.

Lemma campo_outro (l : loc) (k : string) (p : Q) :
  k <> "pci" -> k <> "quantidade_biomassa_kg" -> k <> "fator_biomassa_agricola" ->
  campo (ler h4 l) k p = campo (ler h l) k p.
Proof.
  intros H1 H2 H3. unfold campo, h4. rewrite preparar_ler_outro by assumption.
  reflexivity.
Qed.

Lemma numerico_outro (l : loc) (k : string) :
  k <> "pci" -> k <> "quantidade_biomassa_kg" -> k <> "fator_biomassa_agricola" ->
  numerico (ler h l) k -> numerico (ler h4 l) k.
Proof.
  intros H1 H2 H3. unfold numerico, h4. rewrite preparar_ler_outro by assumption.
  trivial.
Qed.

Lemma campo_quantidade (d : dict) :
  campo d "quantidade_biomassa_kg" 0
  = match quantidade_de d with VNum q => q | VStr _ => 0 end.
Proof.
  unfold campo, quantidade_de.
  destruct (d !! "quantidade_biomassa_kg") as [[q|s]|]; reflexivity.
Qed.

Lemma numerico_quantidade (d : dict) :
  numerico d "quantidade_biomassa_kg"
  <-> match quantidade_de d with VNum _ => True | VStr _ => False end.
Proof.
  unfold numerico, quantidade_de.
  destruct (d !! "quantidade_biomassa_kg") as [[q|s]|]; simpl; tauto.
Qed.

Lemma quantidade_numerica : numerico da "quantidade_biomassa_kg".
Proof.
  destruct Hnum as (Ha & _ & _).
  apply (proj1 (Forall_forall _ _) Ha). repeat constructor.
Qed.

Lemma campo_quantidade_preparada (l : loc) :
  l = dados_agricola ls \/ l = dados_distribuicao ls \/ l = dados_uso ls ->
  campo (ler h4 l) "quantidade_biomassa_kg" 0 = campo da "quantidade_biomassa_kg" 0.
Proof.
  intros Hl. rewrite !campo_quantidade. unfold h4, da.
  rewrite (preparar_quantidade h e info l Hl). reflexivity.
Qed.

Lemma numerico_quantidade_preparada (l : loc) :
  l = dados_agricola ls \/ l = dados_distribuicao ls \/ l = dados_uso ls ->
  numerico (ler h4 l) "quantidade_biomassa_kg".
Proof.
  intros Hl. apply numerico_quantidade. unfold h4.
  rewrite (preparar_quantidade h e info l Hl).
  apply numerico_quantidade. exact quantidade_numerica.
Qed.

Lemma numerico_agricola_preparado :
  Forall (numerico (ler h4 (dados_agricola ls))) FaseAgricola.campos.
Proof.
  destruct Hnum as (Ha & _ & _).
  pose proof (proj1 (Forall_forall _ _) Ha) as Hk.
  unfold FaseAgricola.campos. repeat apply Forall_cons_2; [..|apply Forall_nil_2].
  - apply numerico_quantidade_preparada. tauto.
  - apply numerico_outro; [discriminate..|]. unfold ls. rewrite preparar_agricola.
    apply Hk. repeat constructor.
  - apply numerico_outro; [discriminate..|]. unfold ls. rewrite preparar_agricola.
    apply Hk. repeat constructor.
  - apply numerico_outro; [discriminate..|]. unfold ls. rewrite preparar_agricola.
    apply Hk. repeat constructor.
  - apply numerico_outro; [discriminate..|]. unfold ls. rewrite preparar_agricola.
    apply Hk. repeat constructor.
  - unfold numerico, h4, ls. rewrite preparar_fator. trivial.
Qed.

Lemma numerico_industrial_preparado :
  Forall (numerico (ler h4 (dados_industrial ls))) FaseIndustrial.campos.
Proof.
  destruct Hnum as (_ & Hi & _).
  pose proof (proj1 (Forall_forall _ _) Hi) as Hk.
  unfold FaseIndustrial.campos. repeat apply Forall_cons_2; [..|apply Forall_nil_2];
    (apply numerico_outro; [discriminate..|]; unfold ls; rewrite preparar_industrial;
     apply Hk; repeat constructor).
Qed.

Lemma numerico_distribuicao_preparado :
  Forall (numerico (ler h4 (dados_distribuicao ls))) FaseDistribuicao.campos.
Proof.
  destruct Hnum as (_ & _ & Hd).
  pose proof (proj1 (Forall_forall _ _) Hd) as Hk.
  unfold FaseDistribuicao.campos. repeat apply Forall_cons_2; [..|apply Forall_nil_2].
  - apply numerico_outro; [discriminate..|]. unfold ls. rewrite preparar_distribuicao.
    apply Hk. repeat constructor.
  - apply numerico_quantidade_preparada. tauto.
Qed.

Lemma numerico_uso_preparado :
  Forall (numerico (ler h4 (dados_uso ls))) FaseUso.campos.
Proof.
  unfold FaseUso.campos. repeat apply Forall_cons_2; [..|apply Forall_nil_2].
  - apply numerico_quantidade_preparada. tauto.
  - unfold numerico, h4, ls. rewrite preparar_pci. trivial.
Qed.

(** The four phase calculators succeed on the prepared inputs, and their
    emissions are those of the formulas on the caller's inputs and the
    profile of the biomass. *)
Lemma fases_preparadas :
  exists ra ri rd ru,
    FaseAgricola.calcular_emissoes fs (ler h4 (dados_agricola ls)) = Ok ra
    /\ FaseIndustrial.calcular_emissoes fs (ler h4 (dados_industrial ls)) = Ok ri
    /\ FaseDistribuicao.calcular_emissoes fs (ler h4 (dados_distribuicao ls)) = Ok rd
    /\ FaseUso.calcular_emissoes fs (ler h4 (dados_uso ls)) = Ok ru
    /\ get_num (ler h4 (dados_uso ls)) "quantidade_biomassa_kg" 0
       = Ok (campo da "quantidade_biomassa_kg" 0)
    /\ FaseAgricola.emissoes_kg_co2 ra
       = Spec.agricultural_emissions
           (campo da "quantidade_biomassa_kg" 0) (fator_biomassa_agricola info)
           (campo da "uso_fertilizantes_kg" 0) (fator_valor fs "fator_fertilizante_n" 6540)
           (campo da "uso_pesticidas_kg" 0) (fator_valor fs "fator_pesticida" 10000)
           (fator_valor fs "fator_transporte_rodoviario" 62)
           (campo da "distancia_transporte_km" 0) (campo da "luc_dluc_opcional_kg_co2" 0)
    /\ FaseIndustrial.emissoes_kg_co2 ri
       = campo di "energia_eletrica_kwh" 0 * fator_valor fs "fator_eletricidade_br" 95 / 1000
         + campo di "energia_termica_mj" 0 * (fator_valor fs "fator_diesel" 2680 / 38) / 1000
         + campo di "agua_m3" 0 * fator_valor fs "fator_agua" 0.36 / 1000
    /\ FaseDistribuicao.emissoes_kg_co2 rd
       = Spec.distribution_emissions
           (FaseDistribuicao.fator_do_modal fs
              (default (VStr "rodoviario") (dd !! "modal_transporte")))
           (campo dd "distancia_km" 0) (campo da "quantidade_biomassa_kg" 0)
    /\ FaseUso.emissoes_kg_co2 ru
       = campo da "quantidade_biomassa_kg" 0 * pci info
         * fator_valor fs "fator_combustao" 0 / 1000
    /\ FaseUso.emissoes_biogenicas_kg_co2 ru
       = Spec.biogenic (campo da "quantidade_biomassa_kg" 0).
Proof.
  destruct (agricola_ok fs _ numerico_agricola_preparado) as (ra & Hra & Hea).
  destruct (industrial_ok fs _ numerico_industrial_preparado) as (ri & Hri & Hei).
  destruct (distribuicao_ok fs _ numerico_distribuicao_preparado)
    as (rd & Hrd & Hed & _).
  destruct (uso_ok fs _ numerico_uso_preparado) as (ru & Hru & Heu & Hbu).
  exists ra, ri, rd, ru.
  split; [exact Hra|]. split; [exact Hri|]. split; [exact Hrd|]. split; [exact Hru|].
  assert (campo (ler h4 (dados_agricola ls)) "fator_biomassa_agricola" 100
          = fator_biomassa_agricola info) as Hf
    by (unfold campo, h4, ls; rewrite preparar_fator; reflexivity).
  assert (campo (ler h4 (dados_uso ls)) "pci" 18 = pci info) as Hp
    by (unfold campo, h4, ls; rewrite preparar_pci; reflexivity).
  assert (ler h4 (dados_distribuicao ls) !! "modal_transporte"
          = dd !! "modal_transporte") as Hm.
  { unfold h4. rewrite preparar_ler_outro by discriminate.
    unfold ls, dd. rewrite preparar_distribuicao. reflexivity. }
  split.
  { rewrite get_num_campo
      by (apply numerico_quantidade_preparada; tauto).
    rewrite campo_quantidade_preparada by tauto. reflexivity. }
  split.
  { rewrite Hea, Hf. rewrite campo_quantidade_preparada by tauto.
    rewrite !campo_outro by discriminate.
    unfold ls, da. rewrite preparar_agricola. reflexivity. }
  split.
  { rewrite Hei. rewrite !campo_outro by discriminate.
    unfold ls, di. rewrite preparar_industrial. reflexivity. }
  split.
  { rewrite Hed, Hm. rewrite campo_quantidade_preparada by tauto.
    rewrite !campo_outro by discriminate.
    unfold ls, dd. rewrite preparar_distribuicao. reflexivity. }
  split.
  { rewrite Heu, Hp. rewrite campo_quantidade_preparada by tauto. reflexivity. }
  rewrite Hbu. rewrite campo_quantidade_preparada by tauto. reflexivity.
Qed.

End FasesPreparadas.

Section Aceito.
Import Calculo.

Variables (st : estado) (e : entrada) (n : string) (info : perfil).

Hypothesis Hb : biomassa e = Some n.
Hypothesis Hn : n <> "".
Hypothesis Hi : biomassas st !! n = Some info.

Lemma calcular_aceito :
  calcular_intensidade_carbono st e
  = (com_objetos st (preparar (objetos st) e info).1,
     calcular_fases (fatores st) (preparar (objetos st) e info).1 n info
       (preparar (objetos st) e info).2).
Proof.
  unfold calcular_intensidade_carbono, get_biomassa_info. rewrite Hb.
  destruct n as [|a s]; [contradiction|]. rewrite Hi. reflexivity.
Qed.

Hypothesis Hnum : entrada_numerica (objetos st) e.

Let da : dict := ler_fase (objetos st) (fase_agricola e).
Let di : dict := ler_fase (objetos st) (fase_industrial e).
Let dd : dict := ler_fase (objetos st) (fase_distribuicao e).

(** An accepted request with numeric fields returns a result, whose
    per-phase emissions are those of the formulas of §4 on the inputs of
    the caller. *)
Lemma calcular_resultado :
  exists r ra ri rd ru,
    calcular_intensidade_carbono st e
    = (com_objetos st (preparar (objetos st) e info).1, Ok r)
    /\ calcular_fases (fatores st) (preparar (objetos st) e info).1 n info
         (preparar (objetos st) e info).2 = Ok r
    /\ emissoes_kg_co2 (agricola (resultados_por_fase r))
       = FaseAgricola.emissoes_kg_co2 ra
    /\ emissoes_kg_co2 (industrial (resultados_por_fase r))
       = FaseIndustrial.emissoes_kg_co2 ri
    /\ emissoes_kg_co2 (distribuicao (resultados_por_fase r))
       = FaseDistribuicao.emissoes_kg_co2 rd
    /\ uso_emissoes_kg_co2 (uso (resultados_por_fase r)) = FaseUso.emissoes_kg_co2 ru
    /\ emissoes_biogenicas_kg_co2 (uso (resultados_por_fase r))
       = FaseUso.emissoes_biogenicas_kg_co2 ru
    /\ energia_total_mj r = campo da "quantidade_biomassa_kg" 0 * pci info
    /\ FaseAgricola.emissoes_kg_co2 ra
       = Spec.agricultural_emissions
           (campo da "quantidade_biomassa_kg" 0) (fator_biomassa_agricola info)
           (campo da "uso_fertilizantes_kg" 0)
           (fator_valor (fatores st) "fator_fertilizante_n" 6540)
           (campo da "uso_pesticidas_kg" 0)
           (fator_valor (fatores st) "fator_pesticida" 10000)
           (fator_valor (fatores st) "fator_transporte_rodoviario" 62)
           (campo da "distancia_transporte_km" 0) (campo da "luc_dluc_opcional_kg_co2" 0)
    /\ FaseIndustrial.emissoes_kg_co2 ri
       = campo di "energia_eletrica_kwh" 0
           * fator_valor (fatores st) "fator_eletricidade_br" 95 / 1000
         + campo di "energia_termica_mj" 0
             * (fator_valor (fatores st) "fator_diesel" 2680 / 38) / 1000
         + campo di "agua_m3" 0 * fator_valor (fatores st) "fator_agua" 0.36 / 1000
    /\ FaseDistribuicao.emissoes_kg_co2 rd
       = Spec.distribution_emissions
           (FaseDistribuicao.fator_do_modal (fatores st)
              (default (VStr "rodoviario") (dd !! "modal_transporte")))
           (campo dd "distancia_km" 0) (campo da "quantidade_biomassa_kg" 0)
    /\ FaseUso.emissoes_kg_co2 ru
       = campo da "quantidade_biomassa_kg" 0 * pci info
         * fator_valor (fatores st) "fator_combustao" 0 / 1000
    /\ FaseUso.emissoes_biogenicas_kg_co2 ru
       = Spec.biogenic (campo da "quantidade_biomassa_kg" 0).
Proof.
  destruct (fases_preparadas (fatores st) (objetos st) e info Hnum)
    as (ra & ri & rd & ru & Hra & Hri & Hrd & Hru & Hq & Hea & Hei & Hed & Heu & Hbu).
  assert (exists r, calcular_fases (fatores st) (preparar (objetos st) e info).1 n info
                      (preparar (objetos st) e info).2 = Ok r) as [r Hr].
  { unfold calcular_fases. rewrite Hra, Hri, Hrd, Hru.
    cbv beta iota delta [mbind res_bind]. rewrite Hq. eexists. reflexivity. }
  exists r, ra, ri, rd, ru.
  split; [rewrite calcular_aceito, Hr; reflexivity|].
  split; [exact Hr|].
  destruct (calcular_fases_ok _ _ _ _ _ _ Hr)
    as (ra' & ri' & rd' & ru' & q' & Hra' & Hri' & Hrd' & Hru' & Hq' & _ & _
        & Ha & Hin & Hd & Hu & Hbio & _ & Hen & _).
  rewrite Hra in Hra'. rewrite Hri in Hri'. rewrite Hrd in Hrd'.
  rewrite Hru in Hru'. rewrite Hq in Hq'.
  injection Hra' as <-. injection Hri' as <-. injection Hrd' as <-.
  injection Hru' as <-. injection Hq' as <-.
  repeat split; assumption.
Qed.

End Aceito.

(** ** Claims on the aggregator *)

(** C1. For every request that the aggregator accepts (biomass id present
    and in the catalog, numeric fields holding numbers) the total emissions
    returned are the sum of the four per-phase emissions.  The use-phase term
    is the net combustion term, which is 0 when the combustion factor is 0;
    the biogenic emissions are reported in their own field and are no part
    of the sum. *)
Theorem C1_total_soma_das_fases (st : Calculo.estado) (e : entrada) (n : string)
    (info : Calculo.perfil) :
  biomassa e = Some n -> n <> "" -> Calculo.biomassas st !! n = Some info ->
  entrada_numerica (Calculo.objetos st) e ->
  let q := campo (ler_fase (Calculo.objetos st) (fase_agricola e))
             "quantidade_biomassa_kg" 0 in
  exists st' r,
    Calculo.calcular_intensidade_carbono st e = (st', Ok r)
    /\ let fases := Calculo.resultados_por_fase r in
       let tres := Calculo.emissoes_kg_co2 (Calculo.agricola fases)
                   + Calculo.emissoes_kg_co2 (Calculo.industrial fases)
                   + Calculo.emissoes_kg_co2 (Calculo.distribuicao fases) in
       Calculo.emissoes_totais_kg_co2 r
       = tres + Calculo.uso_emissoes_kg_co2 (Calculo.uso fases)
       /\ Calculo.uso_emissoes_kg_co2 (Calculo.uso fases)
          = q * Calculo.pci info * fator_valor (Calculo.fatores st) "fator_combustao" 0 / 1000
       /\ Calculo.emissoes_biogenicas_kg_co2 (Calculo.uso fases) = q * 1.84
       /\ (fator_valor (Calculo.fatores st) "fator_combustao" 0 == 0 ->
           Calculo.uso_emissoes_kg_co2 (Calculo.uso fases) == 0
           /\ Calculo.emissoes_totais_kg_co2 r == tres)
       /\ (~ q == 0 ->
           ~ Calculo.emissoes_totais_kg_co2 r
             == tres + Calculo.uso_emissoes_kg_co2 (Calculo.uso fases)
                + Calculo.emissoes_biogenicas_kg_co2 (Calculo.uso fases)).
Proof.
  intros Hb Hn Hi Hnum q.
  destruct (calcular_resultado st e n info Hb Hn Hi Hnum)
    as (r & ra & ri & rd & ru & Hc & Hr & Ha & Hin & Hd & Hu & Hbio & _ & _ & _ & _
        & Heu & Hbu).
  destruct (calcular_fases_ok _ _ _ _ _ _ Hr)
    as (ra' & ri' & rd' & ru' & q' & _ & _ & _ & _ & _ & _ & _
        & Ha' & Hin' & Hd' & Hu' & _ & Ht & _).
  eexists _, r. split; [exact Hc|]. cbv zeta.
  assert (Calculo.emissoes_totais_kg_co2 r
          = Calculo.emissoes_kg_co2 (Calculo.agricola (Calculo.resultados_por_fase r))
            + Calculo.emissoes_kg_co2 (Calculo.industrial (Calculo.resultados_por_fase r))
            + Calculo.emissoes_kg_co2 (Calculo.distribuicao (Calculo.resultados_por_fase r))
            + Calculo.uso_emissoes_kg_co2 (Calculo.uso (Calculo.resultados_por_fase r)))
    as Htot by (rewrite Ht, Ha', Hin', Hd', Hu'; reflexivity).
  assert (Calculo.uso_emissoes_kg_co2 (Calculo.uso (Calculo.resultados_por_fase r))
          = q * Calculo.pci info * fator_valor (Calculo.fatores st) "fator_combustao" 0 / 1000)
    as Huso by (rewrite Hu, Heu; reflexivity).
  assert (Calculo.emissoes_biogenicas_kg_co2 (Calculo.uso (Calculo.resultados_por_fase r))
          = q * 1.84) as Hbg by (rewrite Hbio, Hbu; reflexivity).
  split; [exact Htot|]. split; [exact Huso|]. split; [exact Hbg|]. split.
  - intros Hf. assert (Calculo.uso_emissoes_kg_co2
                         (Calculo.uso (Calculo.resultados_por_fase r)) == 0) as H0
      by (rewrite Huso, Hf; field).
    split; [exact H0|]. rewrite Htot, H0. ring.
  - intros Hq Heq. rewrite Htot, Hbg in Heq. apply Hq.
    assert (q * 1.84 == 0) as Hz by lra. lra.
Qed.

Lemma C1_total_soma_das_fases_witness :
  exists st' r,
    Calculo.calcular_intensidade_carbono Exemplos.estado_energia Exemplos.pedido_pinus
    = (st', Ok r)
    /\ Calculo.emissoes_totais_kg_co2 r
       == Calculo.emissoes_kg_co2 (Calculo.agricola (Calculo.resultados_por_fase r))
          + Calculo.emissoes_kg_co2 (Calculo.industrial (Calculo.resultados_por_fase r))
          + Calculo.emissoes_kg_co2 (Calculo.distribuicao (Calculo.resultados_por_fase r))
    /\ Calculo.emissoes_biogenicas_kg_co2 (Calculo.uso (Calculo.resultados_por_fase r))
       == 1840.
Proof.
  destruct (C1_total_soma_das_fases Exemplos.estado_energia Exemplos.pedido_pinus
              "pinus" Exemplos.pinus)
    as (st' & r & Hc & _ & _ & Hbg & Hz & _).
  - reflexivity.
  - discriminate.
  - reflexivity.
  - repeat split; repeat constructor.
  - exists st', r. split; [exact Hc|]. split.
    + apply Hz. reflexivity.
    + rewrite Hbg. reflexivity.
Defined.

(** C2. For every accepted request: the carbon intensity is the total
    emissions times 1000 over the total energy when the energy is positive,
    and 0 otherwise; NEEA is the reference intensity minus the carbon
    intensity; the percent reduction is NEEA over the reference intensity
    times 100 when the reference is positive, and 0 when it is not. *)
Theorem C2_intensidade_e_neea (st : Calculo.estado) (e : entrada) (n : string)
    (info : Calculo.perfil) :
  biomassa e = Some n -> n <> "" -> Calculo.biomassas st !! n = Some info ->
  entrada_numerica (Calculo.objetos st) e ->
  exists st' r,
    Calculo.calcular_intensidade_carbono st e = (st', Ok r)
    /\ let total := Calculo.emissoes_totais_kg_co2 r in
       let energia := Calculo.energia_total_mj r in
       let ci := Calculo.intensidade_carbono_g_co2_mj r in
       let ref := Calculo.ci_fossil_referencia_g_co2_mj (Calculo.comparacao_fossil r) in
       energia
       = campo (ler_fase (Calculo.objetos st) (fase_agricola e)) "quantidade_biomassa_kg" 0
         * Calculo.pci info
       /\ ref = fator_valor (Calculo.fatores st) "ci_fossil_referencia" 85
       /\ (0 < energia -> ci = (total * 1000) / energia)
       /\ (energia <= 0 -> ci = 0)
       /\ Calculo.neea r = ref - ci
       /\ Calculo.ci_biocombustivel_g_co2_mj (Calculo.comparacao_fossil r) = ci
       /\ Calculo.reducao_g_co2_mj (Calculo.comparacao_fossil r) = Calculo.neea r
       /\ (0 < ref ->
           Calculo.reducao_percentual (Calculo.comparacao_fossil r)
           = (Calculo.neea r / ref) * 100)
       /\ (ref <= 0 -> Calculo.reducao_percentual (Calculo.comparacao_fossil r) = 0).
Proof.
  intros Hb Hn Hi Hnum.
  destruct (calcular_resultado st e n info Hb Hn Hi Hnum)
    as (r & ra & ri & rd & ru & Hc & Hr & _ & _ & _ & _ & _ & Hen & _).
  destruct (calcular_fases_ok _ _ _ _ _ _ Hr)
    as (_ & _ & _ & _ & _ & _ & _ & _ & _ & _ & _ & _
        & _ & _ & _ & _ & _ & _ & _ & Hci & Hneea & Href & Hbio & Hred & Hperc & _).
  eexists _, r. split; [exact Hc|]. cbv zeta.
  split; [exact Hen|]. split; [exact Href|]. split; [|split].
  - intros Hpos. rewrite Hci. rewrite decide_True by assumption. reflexivity.
  - intros Hneg. rewrite Hci. rewrite decide_False; [reflexivity|].
    apply Qle_not_lt. assumption.
  - split; [rewrite Href; exact Hneea|]. split; [exact Hbio|]. split; [exact Hred|].
    rewrite Hperc, Href. split.
    + intros Hpos. rewrite decide_True by assumption. reflexivity.
    + intros Hneg. rewrite decide_False; [reflexivity|]. apply Qle_not_lt. assumption.
Qed.

Lemma C2_intensidade_e_neea_witness :
  exists st' r,
    Calculo.calcular_intensidade_carbono Exemplos.estado_energia Exemplos.pedido_pinus
    = (st', Ok r)
    /\ Calculo.energia_total_mj r == 18500
    /\ Calculo.intensidade_carbono_g_co2_mj r
       = (Calculo.emissoes_totais_kg_co2 r * 1000) / Calculo.energia_total_mj r
    /\ Calculo.neea r = 85 - Calculo.intensidade_carbono_g_co2_mj r
    /\ Calculo.reducao_percentual (Calculo.comparacao_fossil r)
       = (Calculo.neea r / 85) * 100.
Proof.
  destruct (C2_intensidade_e_neea Exemplos.estado_energia Exemplos.pedido_pinus
              "pinus" Exemplos.pinus)
    as (st' & r & Hc & Hen & Href & Hci & _ & Hneea & _ & _ & Hred & _).
  - reflexivity.
  - discriminate.
  - reflexivity.
  - repeat split; repeat constructor.
  - exists st', r. split; [exact Hc|].
    assert (Calculo.ci_fossil_referencia_g_co2_mj (Calculo.comparacao_fossil r) = 85)
      as H85 by (rewrite Href; reflexivity).
    split; [rewrite Hen; reflexivity|].
    split; [apply Hci; rewrite Hen; reflexivity|].
    split; [rewrite Hneea, H85; reflexivity|].
    rewrite Hred, H85; [reflexivity|]. rewrite H85. reflexivity.
Defined.

(** C5. For every accepted request: when the total emissions are positive
    the four percentages of the total sum to 100 (hence within 0.1 of 100);
    when the total is 0 (or is not positive) every percentage is 0, and no
    division by the total takes place. *)
Theorem C5_percentuais (st : Calculo.estado) (e : entrada) (n : string)
    (info : Calculo.perfil) :
  biomassa e = Some n -> n <> "" -> Calculo.biomassas st !! n = Some info ->
  entrada_numerica (Calculo.objetos st) e ->
  exists st' r,
    Calculo.calcular_intensidade_carbono st e = (st', Ok r)
    /\ let fases := Calculo.resultados_por_fase r in
       let soma := Calculo.percentual (Calculo.agricola fases)
                   + Calculo.percentual (Calculo.industrial fases)
                   + Calculo.percentual (Calculo.distribuicao fases)
                   + Calculo.uso_percentual (Calculo.uso fases) in
       (0 < Calculo.emissoes_totais_kg_co2 r ->
        soma == 100 /\ 100 - 0.1 <= soma /\ soma <= 100 + 0.1)
       /\ (Calculo.emissoes_totais_kg_co2 r <= 0 ->
           Calculo.percentual (Calculo.agricola fases) = 0
           /\ Calculo.percentual (Calculo.industrial fases) = 0
           /\ Calculo.percentual (Calculo.distribuicao fases) = 0
           /\ Calculo.uso_percentual (Calculo.uso fases) = 0)
       /\ (Calculo.emissoes_totais_kg_co2 r == 0 ->
           Calculo.percentual (Calculo.agricola fases) = 0
           /\ Calculo.percentual (Calculo.industrial fases) = 0
           /\ Calculo.percentual (Calculo.distribuicao fases) = 0
           /\ Calculo.uso_percentual (Calculo.uso fases) = 0).
Proof.
  intros Hb Hn Hi Hnum.
  destruct (calcular_resultado st e n info Hb Hn Hi Hnum)
    as (r & ra & ri & rd & ru & Hc & Hr & _).
  destruct (calcular_fases_ok _ _ _ _ _ _ Hr)
    as (ra' & ri' & rd' & ru' & q' & _ & _ & _ & _ & _ & _ & _
        & _ & _ & _ & _ & _ & Ht & _ & _ & _ & _ & _ & _ & _ & Hpos & Hzero).
  eexists _, r. split; [exact Hc|]. cbv zeta. split; [|split].
  - intros Htot. destruct (Hpos Htot) as (-> & -> & -> & ->).
    assert ((FaseAgricola.emissoes_kg_co2 ra' / Calculo.emissoes_totais_kg_co2 r) * 100
            + (FaseIndustrial.emissoes_kg_co2 ri' / Calculo.emissoes_totais_kg_co2 r) * 100
            + (FaseDistribuicao.emissoes_kg_co2 rd' / Calculo.emissoes_totais_kg_co2 r) * 100
            + (FaseUso.emissoes_kg_co2 ru' / Calculo.emissoes_totais_kg_co2 r) * 100
            == 100) as Hs.
    { rewrite Ht in Htot |- *. field. lra. }
    split; [exact Hs|]. rewrite Hs. split; [lra|lra].
  - intros Hle. apply Hzero. apply Qle_not_lt. assumption.
  - intros Heq. apply Hzero. rewrite Heq. apply Qlt_irrefl.
Qed.

Lemma C5_percentuais_witness :
  exists st' r,
    Calculo.calcular_intensidade_carbono Exemplos.estado_energia Exemplos.pedido_pinus
    = (st', Ok r)
    /\ 0 < Calculo.emissoes_totais_kg_co2 r
    /\ Calculo.percentual (Calculo.agricola (Calculo.resultados_por_fase r))
       + Calculo.percentual (Calculo.industrial (Calculo.resultados_por_fase r))
       + Calculo.percentual (Calculo.distribuicao (Calculo.resultados_por_fase r))
       + Calculo.uso_percentual (Calculo.uso (Calculo.resultados_por_fase r)) == 100.
Proof.
  destruct (C5_percentuais Exemplos.estado_energia Exemplos.pedido_pinus
              "pinus" Exemplos.pinus)
    as (st' & r & Hc & Hpos & _).
  - reflexivity.
  - discriminate.
  - reflexivity.
  - repeat split; repeat constructor.
  - exists st', r. split; [exact Hc|].
    assert (0 < Calculo.emissoes_totais_kg_co2 r) as Ht.
    { destruct (calcular_resultado Exemplos.estado_energia Exemplos.pedido_pinus
                  "pinus" Exemplos.pinus)
        as (r' & ra & ri & rd & ru & Hc' & Hr & Ha & Hin & Hd & Hu & _ & _
            & Hea & Hei & Hed & Heu & _);
        [reflexivity|discriminate|reflexivity|repeat split; repeat constructor|].
      rewrite Hc' in Hc. injection Hc as _ <-.
      destruct (calcular_fases_ok _ _ _ _ _ _ Hr)
        as (ra' & ri' & rd' & ru' & q' & _ & _ & _ & _ & _ & _ & _
            & Ha' & Hin' & Hd' & Hu' & _ & Htot & _).
      rewrite Htot, <- Ha', <- Hin', <- Hd', <- Hu'.
      rewrite Ha, Hin, Hd, Hu, Hea, Hei, Hed, Heu. reflexivity. }
    split; [exact Ht|]. apply (Hpos Ht).
Defined.

(** C7. The aggregator fails with the missing-id error when the biomass id
    is absent (or empty, which the code reads as absent) and with the
    unknown-biomass error when the id is not in the catalog; in both cases
    nothing is written.  A missing emission factor is no failure: a lookup
    of a factor that the table lacks yields its default, and an accepted
    request with numeric fields returns a result with every factor table,
    the empty one included.  A call returns a whole result or an exception,
    never part of a result. *)
Theorem C7_falhas_do_agregador (st : Calculo.estado) (e : entrada) :
  ((biomassa e = None \/ biomassa e = Some "") ->
   Calculo.calcular_intensidade_carbono st e = (st, Raise BiomassaNaoFornecida))
  /\ (forall n, biomassa e = Some n -> n <> "" -> Calculo.biomassas st !! n = None ->
      Calculo.calcular_intensidade_carbono st e
      = (st, Raise (BiomassaNaoEncontrada n (elements (dom (Calculo.biomassas st))))))
  /\ (forall nome padrao, Calculo.fatores st !! nome = None ->
      fator_valor (Calculo.fatores st) nome padrao = padrao)
  /\ (forall n info, biomassa e = Some n -> n <> "" ->
      Calculo.biomassas st !! n = Some info ->
      entrada_numerica (Calculo.objetos st) e ->
      forall fs, exists st' r,
        Calculo.calcular_intensidade_carbono (Calculo.com_fatores st fs) e = (st', Ok r))
  /\ (exists st',
        (exists r, Calculo.calcular_intensidade_carbono st e = (st', Ok r))
        \/ (exists x, Calculo.calcular_intensidade_carbono st e = (st', Raise x))).
Proof.
  split; [|split; [|split; [|split]]].
  - unfold Calculo.calcular_intensidade_carbono. intros [-> | ->]; reflexivity.
  - intros n Hb Hn Hi. unfold Calculo.calcular_intensidade_carbono, Calculo.get_biomassa_info.
    rewrite Hb. destruct n as [|a s]; [contradiction|]. rewrite Hi. reflexivity.
  - intros nome padrao Hf. unfold fator_valor. rewrite Hf. reflexivity.
  - intros n info Hb Hn Hi Hnum fs.
    destruct (calcular_resultado (Calculo.com_fatores st fs) e n info Hb Hn Hi Hnum)
      as (r & _ & _ & _ & _ & Hc & _).
    eexists _, r. exact Hc.
  - destruct (Calculo.calcular_intensidade_carbono st e) as [st' [r|x]];
      exists st'; [left|right]; eexists; reflexivity.
Qed.

Lemma C7_falhas_do_agregador_witness :
  Calculo.calcular_intensidade_carbono Exemplos.estado_energia Exemplos.pedido_sem_biomassa
  = (Exemplos.estado_energia, Raise BiomassaNaoFornecida)
  /\ Calculo.calcular_intensidade_carbono Exemplos.estado_energia
       Exemplos.pedido_biomassa_vazia
     = (Exemplos.estado_energia, Raise BiomassaNaoFornecida)
  /\ Calculo.calcular_intensidade_carbono Exemplos.estado_energia Exemplos.pedido_carvao
     = (Exemplos.estado_energia,
        Raise (BiomassaNaoEncontrada "carvao"
                 (elements (dom (Calculo.biomassas Exemplos.estado_energia)))))
  /\ (exists st' r,
        Calculo.calcular_intensidade_carbono
          (Calculo.com_fatores Exemplos.estado_energia ∅) Exemplos.pedido_pinus
        = (st', Ok r)).
Proof.
  split; [|split; [|split]].
  - apply (C7_falhas_do_agregador Exemplos.estado_energia Exemplos.pedido_sem_biomassa).
    left. reflexivity.
  - apply (C7_falhas_do_agregador Exemplos.estado_energia Exemplos.pedido_biomassa_vazia).
    right. reflexivity.
  - apply (C7_falhas_do_agregador Exemplos.estado_energia Exemplos.pedido_carvao);
      [reflexivity|discriminate|reflexivity].
  - apply (proj1 (proj2 (proj2 (proj2
             (C7_falhas_do_agregador Exemplos.estado_energia Exemplos.pedido_pinus))))
             "pinus" Exemplos.pinus);
      [reflexivity|discriminate|reflexivity|repeat split; repeat constructor].
Defined.

(** ** A second call with the same request *)

Section Repetir.
Import Calculo.

Variables (h : heap) (e : entrada) (info : perfil).

Let h4 : heap := (preparar h e info).1.

(** After the preparation a phase entry of the request denotes a dict that
    differs from the one it denoted before at most in the keys written. *)
Lemma ler_fase_preparada_outro (r : option loc) (k : string) :
  k <> "pci" -> k <> "quantidade_biomassa_kg" -> k <> "fator_biomassa_agricola" ->
  ler_fase h4 r !! k = ler_fase h r !! k.
Proof.
  intros H1 H2 H3. destruct r as [l|]; [|reflexivity].
  apply preparar_ler_outro; assumption.
Qed.

Lemma quantidade_agricola_preparada :
  quantidade_de (ler_fase h4 (fase_agricola e))
  = quantidade_de (ler_fase h (fase_agricola e)).
Proof.
  destruct (fase_agricola e) as [l|] eqn:Hl; [|reflexivity].
  cbn [ler_fase]. unfold h4.
  rewrite (preparar_quantidade h e info l); [rewrite Hl; reflexivity|].
  left. symmetry. apply (proj1 (preparar_some h e info)). exact Hl.
Qed.

Lemma campo_fase_preparada (r : option loc) (k : string) (p : Q) :
  k <> "pci" -> k <> "quantidade_biomassa_kg" -> k <> "fator_biomassa_agricola" ->
  campo (ler_fase h4 r) k p = campo (ler_fase h r) k p.
Proof.
  intros H1 H2 H3. unfold campo. rewrite ler_fase_preparada_outro by assumption.
  reflexivity.
Qed.

Lemma campo_quantidade_agricola_preparada :
  campo (ler_fase h4 (fase_agricola e)) "quantidade_biomassa_kg" 0
  = campo (ler_fase h (fase_agricola e)) "quantidade_biomassa_kg" 0.
Proof. rewrite !campo_quantidade, quantidade_agricola_preparada. reflexivity. Qed.

Lemma entrada_numerica_preparada : entrada_numerica h e -> entrada_numerica h4 e.
Proof.
  intros (Ha & Hi & Hd).
  assert (forall r k, k <> "pci" -> k <> "quantidade_biomassa_kg" ->
                      k <> "fator_biomassa_agricola" ->
                      numerico (ler_fase h r) k -> numerico (ler_fase h4 r) k) as Hout.
  { intros r k H1 H2 H3. unfold numerico.
    rewrite ler_fase_preparada_outro by assumption. trivial. }
  pose proof (proj1 (Forall_forall _ _) Ha) as Ka.
  pose proof (proj1 (Forall_forall _ _) Hi) as Ki.
  pose proof (proj1 (Forall_forall _ _) Hd) as Kd.
  split; [|split].
  - unfold Regras.campos_agricola.
    repeat apply Forall_cons_2; [..|apply Forall_nil_2].
    + apply numerico_quantidade. rewrite quantidade_agricola_preparada.
      apply numerico_quantidade. apply Ka. repeat constructor.
    + apply Hout; [discriminate..|]. apply Ka. repeat constructor.
    + apply Hout; [discriminate..|]. apply Ka. repeat constructor.
    + apply Hout; [discriminate..|]. apply Ka. repeat constructor.
    + apply Hout; [discriminate..|]. apply Ka. repeat constructor.
  - unfold Regras.campos_industrial.
    repeat apply Forall_cons_2; [..|apply Forall_nil_2];
      (apply Hout; [discriminate..|]; apply Ki; repeat constructor).
  - unfold Regras.campos_distribuicao.
    repeat apply Forall_cons_2; [..|apply Forall_nil_2];
      (apply Hout; [discriminate..|]; apply Kd; repeat constructor).
Qed.

End Repetir.

(** A second call with the same request, on the state that the first call
    left, returns the same numbers: the keys that the first call wrote are
    written again before they are read. *)
Lemma calcular_repetido (st : Calculo.estado) (e : entrada) (n : string)
    (info : Calculo.perfil) :
  biomassa e = Some n -> n <> "" -> Calculo.biomassas st !! n = Some info ->
  entrada_numerica (Calculo.objetos st) e ->
  exists st1 r1 st2 r2,
    Calculo.calcular_intensidade_carbono st e = (st1, Ok r1)
    /\ Calculo.calcular_intensidade_carbono st1 e = (st2, Ok r2)
    /\ Calculo.emissoes_kg_co2 (Calculo.agricola (Calculo.resultados_por_fase r2))
       = Calculo.emissoes_kg_co2 (Calculo.agricola (Calculo.resultados_por_fase r1))
    /\ Calculo.emissoes_kg_co2 (Calculo.industrial (Calculo.resultados_por_fase r2))
       = Calculo.emissoes_kg_co2 (Calculo.industrial (Calculo.resultados_por_fase r1))
    /\ Calculo.emissoes_kg_co2 (Calculo.distribuicao (Calculo.resultados_por_fase r2))
       = Calculo.emissoes_kg_co2 (Calculo.distribuicao (Calculo.resultados_por_fase r1))
    /\ Calculo.uso_emissoes_kg_co2 (Calculo.uso (Calculo.resultados_por_fase r2))
       = Calculo.uso_emissoes_kg_co2 (Calculo.uso (Calculo.resultados_por_fase r1))
    /\ Calculo.emissoes_totais_kg_co2 r2 = Calculo.emissoes_totais_kg_co2 r1
    /\ Calculo.energia_total_mj r2 = Calculo.energia_total_mj r1
    /\ Calculo.intensidade_carbono_g_co2_mj r2 = Calculo.intensidade_carbono_g_co2_mj r1
    /\ Calculo.neea r2 = Calculo.neea r1.
Proof.
  intros Hb Hn Hi Hnum.
  destruct (calcular_resultado st e n info Hb Hn Hi Hnum)
    as (r1 & ra1 & ri1 & rd1 & ru1 & Hc1 & Hr1 & Ha1 & Hin1 & Hd1 & Hu1 & _ & Hen1
        & Hea1 & Hei1 & Hed1 & Heu1 & _).
  set (h4 := (Calculo.preparar (Calculo.objetos st) e info).1) in *.
  pose proof (entrada_numerica_preparada (Calculo.objetos st) e info Hnum) as Hnum'.
  destruct (calcular_resultado (Calculo.com_objetos st h4) e n info Hb Hn Hi Hnum')
    as (r2 & ra2 & ri2 & rd2 & ru2 & Hc2 & Hr2 & Ha2 & Hin2 & Hd2 & Hu2 & _ & Hen2
        & Hea2 & Hei2 & Hed2 & Heu2 & _).
  cbn [Calculo.objetos Calculo.fatores Calculo.com_objetos] in Hea2, Hei2, Hed2, Heu2, Hen2.
  unfold h4 in Hea2, Hei2, Hed2, Heu2, Hen2.
  rewrite ?campo_quantidade_agricola_preparada in Hea2, Hed2, Heu2, Hen2.
  repeat rewrite campo_fase_preparada in Hea2 by discriminate.
  repeat rewrite campo_fase_preparada in Hei2 by discriminate.
  repeat rewrite campo_fase_preparada in Hed2 by discriminate.
  rewrite ler_fase_preparada_outro in Hed2 by discriminate.
  destruct (calcular_fases_ok _ _ _ _ _ _ Hr1)
    as (ra1' & ri1' & rd1' & ru1' & q1 & _ & _ & _ & _ & _ & _ & _
        & Ha1' & Hin1' & Hd1' & Hu1' & _ & Ht1 & _ & Hci1 & Hne1 & _).
  destruct (calcular_fases_ok _ _ _ _ _ _ Hr2)
    as (ra2' & ri2' & rd2' & ru2' & q2 & _ & _ & _ & _ & _ & _ & _
        & Ha2' & Hin2' & Hd2' & Hu2' & _ & Ht2 & _ & Hci2 & Hne2 & _).
  cbn [Calculo.fatores Calculo.com_objetos] in Hne2.
  assert (Calculo.emissoes_kg_co2 (Calculo.agricola (Calculo.resultados_por_fase r2))
          = Calculo.emissoes_kg_co2 (Calculo.agricola (Calculo.resultados_por_fase r1)))
    as Ea by (rewrite Ha2, Ha1, Hea2, Hea1; reflexivity).
  assert (Calculo.emissoes_kg_co2 (Calculo.industrial (Calculo.resultados_por_fase r2))
          = Calculo.emissoes_kg_co2 (Calculo.industrial (Calculo.resultados_por_fase r1)))
    as Ei by (rewrite Hin2, Hin1, Hei2, Hei1; reflexivity).
  assert (Calculo.emissoes_kg_co2 (Calculo.distribuicao (Calculo.resultados_por_fase r2))
          = Calculo.emissoes_kg_co2 (Calculo.distribuicao (Calculo.resultados_por_fase r1)))
    as Ed by (rewrite Hd2, Hd1, Hed2, Hed1; reflexivity).
  assert (Calculo.uso_emissoes_kg_co2 (Calculo.uso (Calculo.resultados_por_fase r2))
          = Calculo.uso_emissoes_kg_co2 (Calculo.uso (Calculo.resultados_por_fase r1)))
    as Eu by (rewrite Hu2, Hu1, Heu2, Heu1; reflexivity).
  assert (Calculo.emissoes_totais_kg_co2 r2 = Calculo.emissoes_totais_kg_co2 r1) as Et.
  { rewrite Ht2, Ht1, <- Ha2', <- Hin2', <- Hd2', <- Hu2', <- Ha1', <- Hin1', <- Hd1', <- Hu1'.
    rewrite Ea, Ei, Ed, Eu. reflexivity. }
  assert (Calculo.energia_total_mj r2 = Calculo.energia_total_mj r1) as Ee
    by (rewrite Hen2, Hen1; reflexivity).
  assert (Calculo.intensidade_carbono_g_co2_mj r2
          = Calculo.intensidade_carbono_g_co2_mj r1) as Ec
    by (rewrite Hci2, Hci1, Et, Ee; reflexivity).
  eexists _, r1, _, r2.
  split; [exact Hc1|]. split; [exact Hc2|].
  repeat split; try assumption.
  rewrite Hne2, Hne1, Ec. reflexivity.
Qed.

(** The agricultural dict of an accepted request is written to. *)
Lemma agricola_recebe_fator (st : Calculo.estado) (e : entrada) (n : string)
    (info : Calculo.perfil) (l : loc) :
  biomassa e = Some n -> n <> "" -> Calculo.biomassas st !! n = Some info ->
  fase_agricola e = Some l ->
  ler (Calculo.objetos (Calculo.calcular_intensidade_carbono st e).1) l
    !! "fator_biomassa_agricola"
  = Some (VNum (Calculo.fator_biomassa_agricola info)).
Proof.
  intros Hb Hn Hi Hl. rewrite (calcular_aceito st e n info Hb Hn Hi).
  cbn [fst Calculo.objetos Calculo.com_objetos].
  rewrite <- (proj1 (preparar_some (Calculo.objetos st) e info) l Hl).
  apply preparar_fator.
Qed.

Lemma agricola_alterado (st : Calculo.estado) (e : entrada) (n : string)
    (info : Calculo.perfil) (l : loc) :
  biomassa e = Some n -> n <> "" -> Calculo.biomassas st !! n = Some info ->
  fase_agricola e = Some l ->
  ler (Calculo.objetos st) l !! "fator_biomassa_agricola" = None ->
  Calculo.objetos (Calculo.calcular_intensidade_carbono st e).1 !! l
  <> Calculo.objetos st !! l.
Proof.
  intros Hb Hn Hi Hl Hnone Heq.
  pose proof (agricola_recebe_fator st e n info l Hb Hn Hi Hl) as Hf.
  unfold ler in Hf, Hnone. rewrite Heq, Hnone in Hf. discriminate Hf.
Qed.

(** C9, as stated, fails: the call writes into the per-phase dicts of the
    caller.  After the request of [test_energia_total_correta] the
    agricultural dict is no longer the one that was passed: it has gained the
    key [fator_biomassa_agricola]. *)
Lemma C9_subdicionario_alterado_counterexample :
  exists st' r,
    Calculo.calcular_intensidade_carbono Exemplos.estado_energia Exemplos.pedido_pinus
    = (st', Ok r)
    /\ ler (Calculo.objetos Exemplos.estado_energia) 1%positive
         !! "fator_biomassa_agricola" = None
    /\ ler (Calculo.objetos st') 1%positive !! "fator_biomassa_agricola"
       = Some (VNum 45)
    /\ Calculo.objetos st' !! 1%positive
       <> Calculo.objetos Exemplos.estado_energia !! 1%positive.
Proof.
  destruct (calcular_resultado Exemplos.estado_energia Exemplos.pedido_pinus
              "pinus" Exemplos.pinus)
    as (r & _ & _ & _ & _ & Hc & _);
    [reflexivity|discriminate|reflexivity|repeat split; repeat constructor|].
  exists (Calculo.calcular_intensidade_carbono Exemplos.estado_energia
            Exemplos.pedido_pinus).1, r.
  split; [rewrite Hc; reflexivity|].
  split; [reflexivity|]. split.
  - apply (agricola_recebe_fator Exemplos.estado_energia Exemplos.pedido_pinus
             "pinus" Exemplos.pinus); [reflexivity|discriminate|reflexivity..].
  - apply (agricola_alterado Exemplos.estado_energia Exemplos.pedido_pinus
             "pinus" Exemplos.pinus); [reflexivity|discriminate|reflexivity..].
Qed.

(** C9, amended.  A call leaves the factor table and the biomass catalog as
    they were, and it only reads the request.  It does write into the
    per-phase dicts of the request: [fator_biomassa_agricola] into the
    agricultural dict, [quantidade_biomassa_kg] into the distribution dict,
    [quantidade_biomassa_kg] and [pci] into the use dict.  Every other key of
    every object, and every object that is not the agricultural, distribution
    or use dict of the request, is unchanged; no object is removed; a call
    that fails on the biomass id writes nothing.  Calls can be repeated: a
    second call with the same request on the state the first one left
    returns the same emissions, energy, carbon intensity and NEEA. *)
Theorem C9_efeitos_do_calculo (st : Calculo.estado) (e : entrada) :
  let st' := (Calculo.calcular_intensidade_carbono st e).1 in
  (Calculo.fatores st' = Calculo.fatores st
  /\ Calculo.biomassas st' = Calculo.biomassas st
  /\ (forall l, is_Some (Calculo.objetos st !! l) -> is_Some (Calculo.objetos st' !! l))
  /\ (forall l, is_Some (Calculo.objetos st !! l) ->
      fase_agricola e <> Some l -> fase_distribuicao e <> Some l ->
      fase_uso e <> Some l ->
      Calculo.objetos st' !! l = Calculo.objetos st !! l)
  /\ (forall l k, k <> "pci" -> k <> "quantidade_biomassa_kg" ->
      k <> "fator_biomassa_agricola" ->
      ler (Calculo.objetos st') l !! k = ler (Calculo.objetos st) l !! k)
  /\ (forall n info, biomassa e = Some n -> n <> "" ->
      Calculo.biomassas st !! n = Some info ->
      let q := Calculo.quantidade_de (ler_fase (Calculo.objetos st) (fase_agricola e)) in
      (forall l, fase_agricola e = Some l ->
         ler (Calculo.objetos st') l !! "fator_biomassa_agricola"
         = Some (VNum (Calculo.fator_biomassa_agricola info)))
      /\ (forall l, fase_distribuicao e = Some l ->
          ler (Calculo.objetos st') l !! "quantidade_biomassa_kg" = Some q)
      /\ (forall l, fase_uso e = Some l ->
          ler (Calculo.objetos st') l !! "quantidade_biomassa_kg" = Some q
          /\ ler (Calculo.objetos st') l !! "pci" = Some (VNum (Calculo.pci info))))
  /\ ((biomassa e = None \/ biomassa e = Some ""
       \/ exists n, biomassa e = Some n /\ Calculo.biomassas st !! n = None) ->
      st' = st))
  /\ (forall n info, biomassa e = Some n -> n <> "" ->
      Calculo.biomassas st !! n = Some info ->
      entrada_numerica (Calculo.objetos st) e ->
      exists r1 st2 r2,
        Calculo.calcular_intensidade_carbono st e = (st', Ok r1)
        /\ Calculo.calcular_intensidade_carbono st' e = (st2, Ok r2)
        /\ Calculo.emissoes_totais_kg_co2 r2 = Calculo.emissoes_totais_kg_co2 r1
        /\ Calculo.energia_total_mj r2 = Calculo.energia_total_mj r1
        /\ Calculo.intensidade_carbono_g_co2_mj r2
           = Calculo.intensidade_carbono_g_co2_mj r1
        /\ Calculo.neea r2 = Calculo.neea r1).
Proof.
  cbv zeta. split.
  2:{ intros n info Hb Hn Hi Hnum.
      destruct (calcular_repetido st e n info Hb Hn Hi Hnum)
        as (st1 & r1 & st2 & r2 & Hc1 & Hc2 & _ & _ & _ & _ & Et & Ee & Ec & En).
      rewrite Hc1. cbn [fst]. exists r1, st2, r2. repeat split; assumption. }
  unfold Calculo.calcular_intensidade_carbono, Calculo.get_biomassa_info.
  destruct (biomassa e) as [[|a s]|] eqn:Hb.
  1,3: (cbn [fst]; repeat split; intros; first [reflexivity | assumption | congruence]).
  destruct (Calculo.biomassas st !! String a s) as [info|] eqn:Hi.
  2:{ cbn [fst]. repeat split; intros; first [reflexivity | assumption | congruence]. }
  cbn [fst Calculo.objetos Calculo.com_objetos Calculo.fatores Calculo.biomassas].
  set (h := Calculo.objetos st).
  pose proof (preparar_some h e info) as (Sa & _ & Sd & Su).
  split; [reflexivity|]. split; [reflexivity|]. split; [|split; [|split; [|split]]].
  - intros l Hl. apply elem_of_dom. apply (preparar_dom h e info).
    apply elem_of_dom. exact Hl.
  - intros l Hl Ha Hd Hu.
    pose proof (preparar_none h e info l Hl) as (Na & Nd & Nu).
    apply preparar_lookup; [exact Hl|..].
    + destruct (fase_agricola e) as [l0|] eqn:E; [|auto].
      rewrite (Sa l0 eq_refl). congruence.
    + destruct (fase_distribuicao e) as [l0|] eqn:E; [|auto].
      rewrite (Sd l0 eq_refl). congruence.
    + destruct (fase_uso e) as [l0|] eqn:E; [|auto].
      rewrite (Su l0 eq_refl). congruence.
  - intros l k H1 H2 H3. apply preparar_ler_outro; assumption.
  - intros n info' [= <-] _ Hi'. rewrite Hi in Hi'. injection Hi' as <-.
    split; [|split].
    + intros l Hl. rewrite <- (Sa l Hl). apply preparar_fator.
    + intros l Hl. rewrite <- (Sd l Hl). rewrite preparar_ler.
      rewrite (decide_False (P := _ /\ "pci" = _)) by (intros [_ ?]; discriminate).
      destruct (decide (_ /\ _)); [reflexivity|].
      rewrite decide_True by tauto. reflexivity.
    + intros l Hl. rewrite <- (Su l Hl). split.
      * rewrite preparar_ler.
        rewrite (decide_False (P := _ /\ "pci" = _)) by (intros [_ ?]; discriminate).
        rewrite decide_True by tauto. reflexivity.
      * apply preparar_pci.
  - intros [H|[H|(n & H & Hn)]]; try discriminate.
    injection H as <-. rewrite Hi in Hn. discriminate.
Qed.

Lemma C9_efeitos_do_calculo_witness :
  let st' := (Calculo.calcular_intensidade_carbono Exemplos.estado_energia
                Exemplos.pedido_pinus).1 in
  Calculo.fatores st' = Calculo.fatores Exemplos.estado_energia
  /\ Calculo.biomassas st' = Calculo.biomassas Exemplos.estado_energia
  /\ Calculo.objetos st' !! 2%positive
     = Calculo.objetos Exemplos.estado_energia !! 2%positive
  /\ ler (Calculo.objetos st') 1%positive !! "fator_biomassa_agricola"
     = Some (VNum 45)
  /\ ler (Calculo.objetos st') 4%positive !! "pci" = Some (VNum 18.5).
Proof.
  destruct (C9_efeitos_do_calculo Exemplos.estado_energia Exemplos.pedido_pinus)
    as ((Hf & Hb & _ & Hframe & _ & Hw & _) & _).
  destruct (Hw "pinus" Exemplos.pinus) as (Ha & _ & Hu);
    [reflexivity|discriminate|reflexivity|].
  cbv zeta. split; [exact Hf|]. split; [exact Hb|]. split; [|split].
  - apply Hframe; [eexists; reflexivity|discriminate..].
  - apply Ha. reflexivity.
  - apply (Hu 4%positive). reflexivity.
Defined.


(** ** Further properties of the phase calculators *)

Lemma Qdiv_nao_negativo (x y : Q) : 0 <= x -> 0 < y -> 0 <= x / y.
Proof.
  intros Hx Hy. unfold Qdiv. apply Qmult_le_0_compat; [assumption|].
  apply Qlt_le_weak, Qinv_lt_0_compat. assumption.
Qed.

Lemma Qplus_nao_negativo (x y : Q) : 0 <= x -> 0 <= y -> 0 <= x + y.
Proof. intros. lra. Qed.

(** X1. The emissions that the agricultural and the industrial calculators
    return are the sum of the components of their breakdown. *)
Theorem X1_detalhamento_soma (fs : tabela) (da di : dict) :
  Forall (numerico da) FaseAgricola.campos ->
  Forall (numerico di) FaseIndustrial.campos ->
  exists ra ri,
    FaseAgricola.calcular_emissoes fs da = Ok ra
    /\ FaseIndustrial.calcular_emissoes fs di = Ok ri
    /\ FaseAgricola.emissoes_kg_co2 ra
       = FaseAgricola.biomassa (FaseAgricola.detalhe ra)
         + FaseAgricola.fertilizantes (FaseAgricola.detalhe ra)
         + FaseAgricola.pesticidas (FaseAgricola.detalhe ra)
         + FaseAgricola.transporte (FaseAgricola.detalhe ra)
         + FaseAgricola.luc_dluc (FaseAgricola.detalhe ra)
    /\ FaseAgricola.luc_dluc (FaseAgricola.detalhe ra)
       = campo da "luc_dluc_opcional_kg_co2" 0
    /\ FaseIndustrial.emissoes_kg_co2 ri
       = FaseIndustrial.energia_eletrica (FaseIndustrial.detalhe ri)
         + FaseIndustrial.energia_termica (FaseIndustrial.detalhe ri)
         + FaseIndustrial.agua (FaseIndustrial.detalhe ri).
Proof.
  intros Ha Hi.
  unfold FaseAgricola.calcular_emissoes, FaseIndustrial.calcular_emissoes.
  ler_campos Ha. ler_campos Hi.
  eexists _, _. repeat split; reflexivity.
Qed.

Lemma X1_detalhamento_soma_witness :
  exists ra ri,
    FaseAgricola.calcular_emissoes ∅ Exemplos.agricola_com_luc = Ok ra
    /\ FaseIndustrial.calcular_emissoes ∅ ∅ = Ok ri
    /\ FaseAgricola.luc_dluc (FaseAgricola.detalhe ra) == 500
    /\ FaseIndustrial.emissoes_kg_co2 ri
       = FaseIndustrial.energia_eletrica (FaseIndustrial.detalhe ri)
         + FaseIndustrial.energia_termica (FaseIndustrial.detalhe ri)
         + FaseIndustrial.agua (FaseIndustrial.detalhe ri).
Proof.
  destruct (X1_detalhamento_soma ∅ Exemplos.agricola_com_luc ∅)
    as (ra & ri & Ha & Hi & _ & Hl & Hs).
  - repeat constructor.
  - repeat constructor.
  - exists ra, ri. split; [exact Ha|]. split; [exact Hi|].
    split; [rewrite Hl; reflexivity|exact Hs].
Defined.

(** X2. With non-negative consumptions and non-negative electricity, diesel
    and water factors the industrial emissions are not negative, and they are
    0 when the three consumptions are 0, whatever the factors. *)
Theorem X2_industrial_nao_negativa (fs : tabela) (d : dict) :
  Forall (numerico d) FaseIndustrial.campos ->
  exists r,
    FaseIndustrial.calcular_emissoes fs d = Ok r
    /\ (0 <= campo d "energia_eletrica_kwh" 0 -> 0 <= campo d "energia_termica_mj" 0 ->
        0 <= campo d "agua_m3" 0 ->
        0 <= fator_valor fs "fator_eletricidade_br" 95 ->
        0 <= fator_valor fs "fator_diesel" 2680 ->
        0 <= fator_valor fs "fator_agua" 0.36 ->
        0 <= FaseIndustrial.emissoes_kg_co2 r)
    /\ (campo d "energia_eletrica_kwh" 0 == 0 -> campo d "energia_termica_mj" 0 == 0 ->
        campo d "agua_m3" 0 == 0 ->
        FaseIndustrial.emissoes_kg_co2 r == 0).
Proof.
  intros H. destruct (industrial_ok fs d H) as (r & Hr & He).
  exists r. split; [exact Hr|]. rewrite He. split.
  - intros H1 H2 H3 F1 F2 F3.
    repeat apply Qplus_nao_negativo;
      (apply Qdiv_nao_negativo; [apply Qmult_le_0_compat; try assumption|reflexivity]).
    apply Qdiv_nao_negativo; [assumption|reflexivity].
  - intros -> -> ->. field.
Qed.

Lemma X2_industrial_nao_negativa_witness :
  exists r, FaseIndustrial.calcular_emissoes ExcelReader.fatores_literatura ∅ = Ok r
            /\ FaseIndustrial.emissoes_kg_co2 r == 0.
Proof.
  destruct (X2_industrial_nao_negativa ExcelReader.fatores_literatura ∅)
    as (r & Hr & _ & Hz).
  - repeat constructor.
  - exists r. split; [exact Hr|]. apply Hz; reflexivity.
Defined.

(** X3. The transport component of the agricultural phase is the emission
    that the distribution calculator returns for the road mode (or for an
    absent mode) with the same distance and mass: both use the road factor of
    the table over tonne-kilometres. *)
Theorem X3_transporte_agricola_rodoviario (fs : tabela) (da dd : dict) :
  Forall (numerico da) FaseAgricola.campos ->
  Forall (numerico dd) FaseDistribuicao.campos ->
  dd !! "modal_transporte" = None \/ dd !! "modal_transporte" = Some (VStr "rodoviario") ->
  campo dd "distancia_km" 0 = campo da "distancia_transporte_km" 0 ->
  campo dd "quantidade_biomassa_kg" 0 = campo da "quantidade_biomassa_kg" 0 ->
  exists ra rd,
    FaseAgricola.calcular_emissoes fs da = Ok ra
    /\ FaseDistribuicao.calcular_emissoes fs dd = Ok rd
    /\ FaseAgricola.transporte (FaseAgricola.detalhe ra)
       = FaseDistribuicao.emissoes_kg_co2 rd.
Proof.
  intros Ha Hd Hm Hdist Hq.
  destruct (distribuicao_ok fs dd Hd) as (rd & Hrd & Hed & _).
  unfold FaseAgricola.calcular_emissoes. ler_campos Ha.
  eexists _, rd. split; [reflexivity|]. split; [exact Hrd|].
  cbn [FaseAgricola.transporte FaseAgricola.detalhe].
  rewrite Hed, Hdist, Hq.
  destruct Hm as [-> | ->]; reflexivity.
Qed.

Lemma X3_transporte_agricola_rodoviario_witness :
  exists ra rd,
    FaseAgricola.calcular_emissoes ∅
      (<["distancia_transporte_km" := Exemplos.n 1000]> Exemplos.agricola_sem_insumos)
    = Ok ra
    /\ FaseDistribuicao.calcular_emissoes ∅ Exemplos.distribuicao_1000 = Ok rd
    /\ FaseAgricola.transporte (FaseAgricola.detalhe ra)
       = FaseDistribuicao.emissoes_kg_co2 rd.
Proof.
  apply (X3_transporte_agricola_rodoviario ∅
           (<["distancia_transporte_km" := Exemplos.n 1000]> Exemplos.agricola_sem_insumos)
           Exemplos.distribuicao_1000).
  - repeat constructor.
  - repeat constructor.
  - left. reflexivity.
  - reflexivity.
  - reflexivity.
Defined.

(** X4. For one distance greater than 0 and one mass greater than 0, and a
    table whose maritime, rail and road factors are in that order (as the
    defaults 8.5, 22 and 62 are), the distribution emissions of the three
    modes are in the same order: maritime below rail below road. *)
Theorem X4_ordem_dos_modais (fs : tabela) (d : dict) :
  Forall (numerico d) FaseDistribuicao.campos ->
  fator_valor fs "fator_transporte_maritimo" 8.5
    < fator_valor fs "fator_transporte_ferroviario" 22 ->
  fator_valor fs "fator_transporte_ferroviario" 22
    < fator_valor fs "fator_transporte_rodoviario" 62 ->
  0 < campo d "distancia_km" 0 ->
  0 < campo d "quantidade_biomassa_kg" 0 ->
  exists r_mar r_fer r_rod,
    FaseDistribuicao.calcular_emissoes fs (<["modal_transporte" := VStr "maritimo"]> d)
      = Ok r_mar
    /\ FaseDistribuicao.calcular_emissoes fs (<["modal_transporte" := VStr "ferroviario"]> d)
       = Ok r_fer
    /\ FaseDistribuicao.calcular_emissoes fs (<["modal_transporte" := VStr "rodoviario"]> d)
       = Ok r_rod
    /\ FaseDistribuicao.emissoes_kg_co2 r_mar < FaseDistribuicao.emissoes_kg_co2 r_fer
    /\ FaseDistribuicao.emissoes_kg_co2 r_fer < FaseDistribuicao.emissoes_kg_co2 r_rod.
Proof.
  intros H Hmf Hfr Hd Hb.
  destruct (distribuicao_ok fs _ (distribuicao_campos_insert_modal d (VStr "maritimo") H))
    as (r_mar & Hmar & Hem & _).
  destruct (distribuicao_ok fs _ (distribuicao_campos_insert_modal d (VStr "ferroviario") H))
    as (r_fer & Hfer & Hef & _).
  destruct (distribuicao_ok fs _ (distribuicao_campos_insert_modal d (VStr "rodoviario") H))
    as (r_rod & Hrod & Her & _).
  exists r_mar, r_fer, r_rod.
  split; [assumption|]. split; [assumption|]. split; [assumption|].
  rewrite Hem, Hef, Her. rewrite !lookup_insert_eq. simpl default.
  rewrite fator_do_modal_maritimo, fator_do_modal_ferroviario, fator_do_modal_rodoviario.
  rewrite !campo_insert_ne by discriminate.
  split; apply escala_transporte; assumption.
Qed.

Lemma X4_ordem_dos_modais_witness :
  exists r_mar r_fer r_rod,
    FaseDistribuicao.calcular_emissoes ∅
      (<["modal_transporte" := VStr "maritimo"]> Exemplos.distribuicao_1000) = Ok r_mar
    /\ FaseDistribuicao.calcular_emissoes ∅
         (<["modal_transporte" := VStr "ferroviario"]> Exemplos.distribuicao_1000)
       = Ok r_fer
    /\ FaseDistribuicao.calcular_emissoes ∅
         (<["modal_transporte" := VStr "rodoviario"]> Exemplos.distribuicao_1000)
       = Ok r_rod
    /\ FaseDistribuicao.emissoes_kg_co2 r_mar < FaseDistribuicao.emissoes_kg_co2 r_fer
    /\ FaseDistribuicao.emissoes_kg_co2 r_fer < FaseDistribuicao.emissoes_kg_co2 r_rod.
Proof.
  apply (X4_ordem_dos_modais ∅ Exemplos.distribuicao_1000).
  - repeat constructor.
  - reflexivity.
  - reflexivity.
  - reflexivity.
  - reflexivity.
Defined.


(** ** Further properties of the validator *)

Section Faixas.
Import Validador Regras.

Lemma sem_erros_nil (l : list mensagem) : sem_erros l = true <-> l = [].
Proof. destruct l; simpl; split; intros H; try reflexivity; discriminate. Qed.

Lemma erros_positivo_nil (x : Q) (nome : string) :
  erros_positivo x nome = [] <-> 0 <= x.
Proof.
  unfold erros_positivo. destruct (decide (x < 0)) as [Hn|Hn].
  - split; [discriminate|]. intros H. exfalso. lra.
  - split; [|reflexivity]. intros _. lra.
Qed.

Lemma erros_limite_nil (x : Q) (nome : string) (maximo : Q) (alto : string) :
  erros_limite x nome maximo alto = [] <-> 0 <= x /\ x <= maximo.
Proof.
  unfold erros_limite. destruct (decide (x < 0)) as [Hn|Hn].
  - split; [discriminate|]. intros [H _]. exfalso. lra.
  - destruct (decide (maximo < x)) as [Hm|Hm].
    + split; [discriminate|]. intros [_ H]. exfalso. lra.
    + split; [|reflexivity]. intros _. split; lra.
Qed.

Lemma erros_biomassa_nil (x : Q) :
  erros_biomassa x = [] <-> 0 < x /\ x <= 1000000.
Proof.
  unfold erros_biomassa. destruct (decide (x <= 0)) as [Hn|Hn].
  - split; [discriminate|]. intros [H _]. exfalso. lra.
  - destruct (decide (1000000 < x)) as [Hm|Hm].
    + split; [discriminate|]. intros [_ H]. exfalso. lra.
    + split; [|reflexivity]. intros _. split; lra.
Qed.

Lemma erros_opcao_nil (v : valor) (validos : list string) (msg : string) :
  erros_opcao v validos msg = [] <-> em_lista v validos = true.
Proof.
  unfold erros_opcao. destruct (em_lista v validos); split; intros H;
    try reflexivity; discriminate.
Qed.

Lemma erros_positivo_length (x : Q) (nome : string) :
  (length (erros_positivo x nome) <= 1)%nat.
Proof. unfold erros_positivo. destruct (decide _); simpl; lia. Qed.

Lemma erros_limite_length (x : Q) (nome : string) (maximo : Q) (alto : string) :
  (length (erros_limite x nome maximo alto) <= 1)%nat.
Proof. unfold erros_limite. repeat destruct (decide _); simpl; lia. Qed.

Lemma erros_biomassa_length (x : Q) : (length (erros_biomassa x) <= 1)%nat.
Proof. unfold erros_biomassa. repeat destruct (decide _); simpl; lia. Qed.

Lemma erros_opcao_length (v : valor) (validos : list string) (msg : string) :
  (length (erros_opcao v validos msg) <= 1)%nat.
Proof. unfold erros_opcao. destruct (em_lista _ _); simpl; lia. Qed.

Lemma erros_agricola_nil (d : dict) :
  erros_agricola d = [] <-> Faixas.agricola_na_faixa d.
Proof.
  unfold erros_agricola, Faixas.agricola_na_faixa.
  rewrite !app_nil, erros_biomassa_nil, !erros_limite_nil, erros_positivo_nil.
  tauto.
Qed.

Lemma erros_industrial_nil (d : dict) :
  erros_industrial d = [] <-> Faixas.industrial_na_faixa d.
Proof.
  unfold erros_industrial, Faixas.industrial_na_faixa.
  rewrite !app_nil, !erros_limite_nil. tauto.
Qed.

Lemma em_lista_modal (d : dict) (padrao : string) (validos : list string) :
  padrao ∉ validos ->
  em_lista (default (VStr padrao) (d !! "modal_transporte")) validos = true
  <-> exists s, d !! "modal_transporte" = Some (VStr s) /\ s ∈ validos.
Proof.
  intros Hp. destruct (d !! "modal_transporte") as [[q|s]|]; simpl.
  - split; [discriminate|]. intros (s & H & _). discriminate.
  - rewrite bool_decide_eq_true. split.
    + intros H. exists s. split; [reflexivity|assumption].
    + intros (s' & [= <-] & H). assumption.
  - rewrite bool_decide_eq_true. split; [contradiction|].
    intros (s & H & _). discriminate.
Qed.

Lemma erros_distribuicao_nil (d : dict) :
  erros_distribuicao d = [] <-> Faixas.distribuicao_na_faixa d.
Proof.
  unfold erros_distribuicao, Faixas.distribuicao_na_faixa.
  rewrite app_nil, erros_opcao_nil, erros_limite_nil, em_lista_modal; [tauto|].
  unfold modais_validos. intros H.
  repeat (apply elem_of_cons in H as [H|H]; [discriminate|]). inversion H.
Qed.

Lemma erros_uso_nil (d : dict) : erros_uso d = [] <-> Faixas.uso_na_faixa d.
Proof.
  unfold erros_uso, Faixas.uso_na_faixa. rewrite erros_opcao_nil.
  destruct (d !! "tipo_combustao") as [[q|s]|]; simpl.
  - split; [discriminate|]. intros [H|(s & H & _)]; discriminate.
  - rewrite bool_decide_eq_true. split.
    + intros H. right. exists s. split; [reflexivity|assumption].
    + intros [H|(s' & [= <-] & H)]; [discriminate|assumption].
  - split; [intros _; left; reflexivity|]. intros _. vm_compute. reflexivity.
Qed.

End Faixas.

(** X5. [validar_positivo] accepts exactly the values that are not negative,
    0 included, and then its message is empty; [validar_range] accepts
    exactly the values of the closed interval from [min_val] to [max_val],
    so it accepts none when the bounds are swapped.  A refusal names the
    field first and carries the value. *)
Theorem X5_validar_positivo_e_range (v : Q) (nome_campo : string) (min_val max_val : Q) :
  ((Validador.validar_positivo v nome_campo).1 = true <-> 0 <= v)
  /\ ((Validador.validar_range v nome_campo min_val max_val).1 = true
      <-> min_val <= v /\ v <= max_val)
  /\ (max_val < min_val ->
      (Validador.validar_range v nome_campo min_val max_val).1 = false)
  /\ ((Validador.validar_positivo v nome_campo).1 = true ->
      (Validador.validar_positivo v nome_campo).2 = [])
  /\ ((Validador.validar_range v nome_campo min_val max_val).1 = true ->
      (Validador.validar_range v nome_campo min_val max_val).2 = [])
  /\ ((Validador.validar_positivo v nome_campo).1 = false ->
      exists resto,
        (Validador.validar_positivo v nome_campo).2
        = Validador.Txt nome_campo :: resto /\ Validador.Num v ∈ resto)
  /\ ((Validador.validar_range v nome_campo min_val max_val).1 = false ->
      exists resto,
        (Validador.validar_range v nome_campo min_val max_val).2
        = Validador.Txt nome_campo :: resto /\ Validador.Num v ∈ resto).
Proof.
  unfold Validador.validar_positivo, Validador.validar_range.
  destruct (decide (v < 0)) as [Hn|Hn];
    destruct (decide (v < min_val \/ max_val < v)) as [Hr|Hr]; cbn [fst snd];
    repeat split; intros; try discriminate; try reflexivity; try lra;
    try (exfalso; destruct Hr; lra);
    try (exfalso; apply Hr; destruct (Qlt_le_dec v min_val); [left; assumption|];
         right; lra);
    try (eexists; split; [reflexivity|]; repeat constructor).
Qed.

Lemma X5_validar_positivo_e_range_witness :
  (Validador.validar_positivo 0 "Quantidade").1 = true
  /\ (Validador.validar_range 100 "Temperatura" 0 100).1 = true
  /\ (Validador.validar_range 50 "Temperatura" 100 0).1 = false.
Proof.
  destruct (X5_validar_positivo_e_range 0 "Quantidade" 0 0) as (Hp & _).
  destruct (X5_validar_positivo_e_range 100 "Temperatura" 0 100) as (_ & Hr & _).
  destruct (X5_validar_positivo_e_range 50 "Temperatura" 100 0) as (_ & _ & Hs & _).
  split; [apply Hp; discriminate|].
  split; [apply Hr; split; discriminate|].
  apply Hs. reflexivity.
Defined.

(** X6. The agricultural validator, on numeric fields, declares the input
    valid exactly when the biomass quantity is greater than 0 and at most
    1,000,000, the distance is between 0 and 1000, the fertilizer between 0
    and 100,000, the pesticide between 0 and 10,000 and the LUC/dLUC term
    not negative (bounds included; the distance "AVISO" counts as an error).
    It reports at most one error per field, five at most, and none exactly
    when the input is valid. *)
Theorem X6_validar_fase_agricola_faixa (d : dict) :
  Forall (numerico d) Regras.campos_agricola ->
  exists valido erros,
    Validador.validar_fase_agricola d = Ok (valido, erros)
    /\ (valido = true <-> Faixas.agricola_na_faixa d)
    /\ (valido = true <-> erros = [])
    /\ (length erros <= 5)%nat.
Proof.
  intros H. rewrite (validar_fase_agricola_forma d H).
  eexists _, _. split; [reflexivity|].
  rewrite <- erros_agricola_nil. rewrite bool_decide_eq_true.
  split; [apply length_zero_iff_nil|]. split; [apply length_zero_iff_nil|].
  unfold Regras.erros_agricola. rewrite !length_app.
  pose proof (erros_biomassa_length (campo d "quantidade_biomassa_kg" 0)).
  pose proof (erros_limite_length (campo d "distancia_transporte_km" 0)
                "Distância de transporte" 1000 Validador.msg_distancia_agricola_alta).
  pose proof (erros_limite_length (campo d "uso_fertilizantes_kg" 0)
                "Uso de fertilizantes" 100000 Validador.msg_fertilizantes_alto).
  pose proof (erros_limite_length (campo d "uso_pesticidas_kg" 0)
                "Uso de pesticidas" 10000 Validador.msg_pesticidas_alto).
  pose proof (erros_positivo_length (campo d "luc_dluc_opcional_kg_co2" 0) "LUC/dLUC").
  lia.
Qed.

Lemma X6_validar_fase_agricola_faixa_witness :
  exists erros,
    Validador.validar_fase_agricola
      (<["quantidade_biomassa_kg" := Exemplos.n 1000000]>
       (<["distancia_transporte_km" := Exemplos.n 1000]> ∅))
    = Ok (true, erros) /\ erros = [].
Proof.
  destruct (X6_validar_fase_agricola_faixa
              (<["quantidade_biomassa_kg" := Exemplos.n 1000000]>
               (<["distancia_transporte_km" := Exemplos.n 1000]> ∅)))
    as (valido & erros & Hv & Hf & He & _).
  - repeat constructor.
  - assert (valido = true) as ->.
    { apply Hf. unfold Faixas.agricola_na_faixa. repeat split; discriminate. }
    exists erros. split; [exact Hv|]. apply He. reflexivity.
Defined.

(** X7. The industrial validator, on numeric fields, declares the input
    valid exactly when electricity is between 0 and 1,000,000 kWh, thermal
    energy between 0 and 10,000,000 MJ and water between 0 and 100,000 m3
    (bounds included); it reports at most three errors. *)
Theorem X7_validar_fase_industrial_faixa (d : dict) :
  Forall (numerico d) Regras.campos_industrial ->
  exists valido erros,
    Validador.validar_fase_industrial d = Ok (valido, erros)
    /\ (valido = true <-> Faixas.industrial_na_faixa d)
    /\ (valido = true <-> erros = [])
    /\ (length erros <= 3)%nat.
Proof.
  intros H. rewrite (validar_fase_industrial_forma d H).
  eexists _, _. split; [reflexivity|].
  rewrite <- erros_industrial_nil. rewrite bool_decide_eq_true.
  split; [apply length_zero_iff_nil|]. split; [apply length_zero_iff_nil|].
  unfold Regras.erros_industrial. rewrite !length_app.
  pose proof (erros_limite_length (campo d "energia_eletrica_kwh" 0)
                "Energia elétrica" 1000000 Validador.msg_eletrica_alta).
  pose proof (erros_limite_length (campo d "energia_termica_mj" 0)
                "Energia térmica" 10000000 Validador.msg_termica_alta).
  pose proof (erros_limite_length (campo d "agua_m3" 0)
                "Consumo de água" 100000 Validador.msg_agua_alta).
  lia.
Qed.

Lemma X7_validar_fase_industrial_faixa_witness :
  exists erros, Validador.validar_fase_industrial ∅ = Ok (true, erros) /\ erros = [].
Proof.
  destruct (X7_validar_fase_industrial_faixa ∅) as (valido & erros & Hv & Hf & He & _).
  - repeat constructor.
  - assert (valido = true) as ->.
    { apply Hf. unfold Faixas.industrial_na_faixa. repeat split; discriminate. }
    exists erros. split; [exact Hv|]. apply He. reflexivity.
Defined.

(** X8. The distribution validator, on a numeric distance, declares the
    input valid exactly when the mode is present and is one of rodoviario,
    maritimo, ferroviario and the distance is between 0 and 50,000 km.  An
    absent mode is invalid, although the distribution calculator would take
    it as rodoviario. *)
Theorem X8_validar_fase_distribuicao_faixa (d : dict) :
  Forall (numerico d) Regras.campos_distribuicao ->
  exists valido erros,
    Validador.validar_fase_distribuicao d = Ok (valido, erros)
    /\ (valido = true <-> Faixas.distribuicao_na_faixa d)
    /\ (valido = true <-> erros = [])
    /\ (d !! "modal_transporte" = None -> valido = false)
    /\ (length erros <= 2)%nat.
Proof.
  intros H. rewrite (validar_fase_distribuicao_forma d H).
  eexists _, _. split; [reflexivity|].
  rewrite <- erros_distribuicao_nil. rewrite bool_decide_eq_true.
  split; [apply length_zero_iff_nil|]. split; [apply length_zero_iff_nil|]. split.
  - intros Hm. apply bool_decide_eq_false. rewrite length_zero_iff_nil.
    rewrite erros_distribuicao_nil. intros ((s & Hs & _) & _).
    rewrite Hm in Hs. discriminate.
  - unfold Regras.erros_distribuicao. rewrite !length_app.
    pose proof (erros_opcao_length (default (VStr "") (d !! "modal_transporte"))
                  Validador.modais_validos Validador.msg_modal_invalido).
    pose proof (erros_limite_length (campo d "distancia_km" 0)
                  "Distância de distribuição" 50000 Validador.msg_distancia_alta).
    lia.
Qed.

Lemma X8_validar_fase_distribuicao_faixa_witness :
  exists erros,
    Validador.validar_fase_distribuicao Exemplos.distribuicao_1000 = Ok (false, erros).
Proof.
  destruct (X8_validar_fase_distribuicao_faixa Exemplos.distribuicao_1000)
    as (valido & erros & Hv & _ & _ & Hm & _).
  - repeat constructor.
  - rewrite Hm in Hv by reflexivity. exists erros. exact Hv.
Defined.

(** X9. The use validator never raises: it declares the input valid exactly
    when the combustion type is absent or is one of caldeira, fornalha,
    outro, and otherwise reports one error. *)
Theorem X9_validar_fase_uso_faixa (d : dict) :
  exists valido erros,
    Validador.validar_fase_uso d = Ok (valido, erros)
    /\ (valido = true <-> Faixas.uso_na_faixa d)
    /\ (valido = true <-> erros = [])
    /\ (valido = false -> erros = [Validador.texto Validador.msg_tipo_invalido]).
Proof.
  rewrite (validar_fase_uso_forma d).
  eexists _, _. split; [reflexivity|].
  rewrite <- erros_uso_nil. rewrite bool_decide_eq_true.
  split; [apply length_zero_iff_nil|]. split; [apply length_zero_iff_nil|].
  unfold Regras.erros_uso, Regras.erros_opcao.
  destruct (Validador.em_lista _ _); [discriminate|reflexivity].
Qed.




Section ValidadorExcecoes.
Import Validador Regras.

Lemma get_num_ou (d : dict) (k : string) (p : Q) :
  numerico d k \/ get_num d k p = Raise TypeError.
Proof.
  unfold numerico, get_num. destruct (d !! k) as [[q|s]|]; simpl; auto.
Qed.

(** The reads of a validator in order: either the field at hand holds a
    number, or the validator raises, the earlier fields being numbers. *)
Ltac leitura_do_validador f d k :=
  let H := fresh "H" in
  destruct (get_num_ou d k 0) as [H|H];
  [|right; unfold f;
    repeat match goal with
           | Hn : numerico d ?k' |- _ => rewrite (get_num_campo d k' 0 Hn); clear Hn
           end;
    rewrite H; reflexivity].

Lemma validar_fase_agricola_numerico (d : dict) :
  Forall (numerico d) campos_agricola \/ validar_fase_agricola d = Raise TypeError.
Proof.
  leitura_do_validador validar_fase_agricola d "quantidade_biomassa_kg".
  leitura_do_validador validar_fase_agricola d "distancia_transporte_km".
  leitura_do_validador validar_fase_agricola d "uso_fertilizantes_kg".
  leitura_do_validador validar_fase_agricola d "uso_pesticidas_kg".
  leitura_do_validador validar_fase_agricola d "luc_dluc_opcional_kg_co2".
  left. repeat constructor; assumption.
Qed.

Lemma validar_fase_industrial_numerico (d : dict) :
  Forall (numerico d) campos_industrial \/ validar_fase_industrial d = Raise TypeError.
Proof.
  leitura_do_validador validar_fase_industrial d "energia_eletrica_kwh".
  leitura_do_validador validar_fase_industrial d "energia_termica_mj".
  leitura_do_validador validar_fase_industrial d "agua_m3".
  left. repeat constructor; assumption.
Qed.

Lemma validar_fase_distribuicao_numerico (d : dict) :
  Forall (numerico d) campos_distribuicao
  \/ validar_fase_distribuicao d = Raise TypeError.
Proof.
  leitura_do_validador validar_fase_distribuicao d "distancia_km".
  left. repeat constructor; assumption.
Qed.

Lemma validar_fase_agricola_sucesso (d : dict) :
  sucesso (validar_fase_agricola d) <-> Forall (numerico d) campos_agricola.
Proof.
  split.
  - destruct (validar_fase_agricola_numerico d) as [H | ->]; [intros _; exact H|].
    intros [].
  - intros H. rewrite (validar_fase_agricola_forma d H). exact I.
Qed.

Lemma validar_fase_industrial_sucesso (d : dict) :
  sucesso (validar_fase_industrial d) <-> Forall (numerico d) campos_industrial.
Proof.
  split.
  - destruct (validar_fase_industrial_numerico d) as [H | ->]; [intros _; exact H|].
    intros [].
  - intros H. rewrite (validar_fase_industrial_forma d H). exact I.
Qed.

Lemma validar_fase_distribuicao_sucesso (d : dict) :
  sucesso (validar_fase_distribuicao d) <-> Forall (numerico d) campos_distribuicao.
Proof.
  split.
  - destruct (validar_fase_distribuicao_numerico d) as [H | ->]; [intros _; exact H|].
    intros [].
  - intros H. rewrite (validar_fase_distribuicao_forma d H). exact I.
Qed.

Lemma validar_completo_sucesso (h : heap) (e : entrada) :
  sucesso (validar_completo h e) <-> entrada_numerica h e.
Proof.
  split.
  - unfold validar_completo, entrada_numerica.
    rewrite <- validar_fase_agricola_sucesso, <- validar_fase_industrial_sucesso,
      <- validar_fase_distribuicao_sucesso.
    destruct (validar_fase_agricola _) as [ra|x];
      [|intros Hs; exfalso; revert Hs; lazy; trivial].
    destruct (validar_fase_industrial _) as [ri|x];
      [|intros Hs; exfalso; revert Hs; lazy; trivial].
    destruct (validar_fase_distribuicao _) as [rd|x];
      [|intros Hs; exfalso; revert Hs; lazy; trivial].
    intros _. repeat split.
  - intros (Ha & Hi & Hd). rewrite (validar_completo_forma h e Ha Hi Hd). exact I.
Qed.

Lemma validar_fase_agricola_ou (d : dict) :
  sucesso (validar_fase_agricola d) \/ validar_fase_agricola d = Raise TypeError.
Proof.
  destruct (validar_fase_agricola_numerico d) as [H|H]; [left|right; exact H].
  apply validar_fase_agricola_sucesso. exact H.
Qed.

Lemma validar_fase_industrial_ou (d : dict) :
  sucesso (validar_fase_industrial d) \/ validar_fase_industrial d = Raise TypeError.
Proof.
  destruct (validar_fase_industrial_numerico d) as [H|H]; [left|right; exact H].
  apply validar_fase_industrial_sucesso. exact H.
Qed.

Lemma validar_fase_distribuicao_ou (d : dict) :
  sucesso (validar_fase_distribuicao d)
  \/ validar_fase_distribuicao d = Raise TypeError.
Proof.
  destruct (validar_fase_distribuicao_numerico d) as [H|H]; [left|right; exact H].
  apply validar_fase_distribuicao_sucesso. exact H.
Qed.

Lemma validar_completo_ou (h : heap) (e : entrada) :
  sucesso (validar_completo h e) \/ validar_completo h e = Raise TypeError.
Proof.
  destruct (validar_completo h e) as [a|x] eqn:Hv; [left; exact I|right].
  revert Hv. unfold validar_completo.
  destruct (validar_fase_agricola_ou (ler_fase h (fase_agricola e))) as [Hs | ->];
    [|lazy; congruence].
  destruct (validar_fase_agricola _) as [ra|?]; [clear Hs|destruct Hs].
  destruct (validar_fase_industrial_ou (ler_fase h (fase_industrial e))) as [Hs | ->];
    [|lazy; congruence].
  destruct (validar_fase_industrial _) as [ri|?]; [clear Hs|destruct Hs].
  destruct (validar_fase_distribuicao_ou (ler_fase h (fase_distribuicao e))) as [Hs | ->];
    [|lazy; congruence].
  destruct (validar_fase_distribuicao _) as [rd|?]; [clear Hs|destruct Hs].
  rewrite validar_fase_uso_forma.
  cbv beta iota zeta delta [mbind res_bind]. discriminate.
Qed.

End ValidadorExcecoes.

(** X10. [validar_completo] raises exactly when a numeric field of the
    agricultural, industrial or distribution dict holds a non-number, and
    what it raises is then [TypeError]; whatever the mode, the combustion
    type and the biomass id hold, they make it raise nothing. *)
Theorem X10_validador_typeerror (h : heap) (e : entrada) :
  (entrada_numerica h e ->
   exists valido erros, Validador.validar_completo h e = Ok (valido, erros))
  /\ (~ entrada_numerica h e -> Validador.validar_completo h e = Raise TypeError).
Proof.
  split.
  - intros H. apply validar_completo_sucesso in H.
    destruct (Validador.validar_completo h e) as [[v errs]|x]; [|destruct H].
    exists v, errs. reflexivity.
  - intros H. destruct (validar_completo_ou h e) as [Hs|Hr]; [|exact Hr].
    exfalso. apply H, validar_completo_sucesso, Hs.
Qed.

Lemma X10_validador_typeerror_witness :
  Validador.validar_completo
    (<[1%positive := <["uso_pesticidas_kg" := VStr "dez"]> ∅]> ∅) Exemplos.pedido_pinus
  = Raise TypeError.
Proof.
  apply (X10_validador_typeerror
           (<[1%positive := <["uso_pesticidas_kg" := VStr "dez"]> ∅]> ∅)
           Exemplos.pedido_pinus).
  intros (Ha & _).
  apply (proj1 (Forall_forall _ _)) with (x := "uso_pesticidas_kg") in Ha.
  - exact Ha.
  - unfold Regras.campos_agricola. repeat constructor.
Defined.


Section Relatorio.
Import Validador Regras.

Lemma entrada_relatorio_vazio (k : string) (erros : list mensagem)
    (m : gmap string (list mensagem)) :
  entrada_relatorio k erros m = ∅ <-> erros = [] /\ m = ∅.
Proof.
  destruct erros as [|x l]; simpl.
  - tauto.
  - split; [|intros [H _]; discriminate].
    intros H. exfalso. exact (insert_non_empty _ _ _ H).
Qed.

Lemma entrada_relatorio_lookup (k k' : string) (erros l : list mensagem)
    (m : gmap string (list mensagem)) :
  entrada_relatorio k erros m !! k' = Some l ->
  (k' = k /\ l = erros /\ erros <> []) \/ m !! k' = Some l.
Proof.
  destruct erros as [|x t]; simpl; [tauto|].
  destruct (decide (k = k')) as [<-|Hne].
  - rewrite lookup_insert_eq. intros [= <-]. left. repeat split. discriminate.
  - rewrite lookup_insert_ne by assumption. tauto.
Qed.

Lemma relatorio_vazio_iff (h : heap) (e : entrada) :
  relatorio h e = ∅
  <-> erros_id_biomassa e = []
      /\ erros_agricola (ler_fase h (fase_agricola e)) = []
      /\ erros_industrial (ler_fase h (fase_industrial e)) = []
      /\ erros_distribuicao (ler_fase h (fase_distribuicao e)) = []
      /\ erros_uso (ler_fase h (fase_uso e)) = [].
Proof. unfold relatorio. rewrite !entrada_relatorio_vazio. tauto. Qed.

End Relatorio.

(** X11. On numeric fields the report of [validar_completo] is well formed:
    the request is valid exactly when the report is empty; every entry of
    the report is a non-empty list of errors, and its key is one of
    biomassa, fase_agricola, fase_industrial, fase_distribuicao, fase_uso. *)
Theorem X11_relatorio_bem_formado (h : heap) (e : entrada) :
  entrada_numerica h e ->
  exists valido erros,
    Validador.validar_completo h e = Ok (valido, erros)
    /\ (valido = true <-> erros = ∅)
    /\ (forall k l, erros !! k = Some l ->
          l <> []
          /\ k ∈ ["biomassa"; "fase_agricola"; "fase_industrial"; "fase_distribuicao";
                  "fase_uso"]).
Proof.
  intros (Ha & Hi & Hd). rewrite (validar_completo_forma h e Ha Hi Hd).
  eexists _, _. split; [reflexivity|]. split.
  - rewrite relatorio_vazio_iff, !andb_true_iff, !sem_erros_nil. tauto.
  - intros k l. unfold Regras.relatorio. intros Hl.
    repeat (apply entrada_relatorio_lookup in Hl as [(-> & -> & Hne)|Hl];
            [split; [exact Hne|repeat constructor]|]).
    rewrite lookup_empty in Hl. discriminate.
Qed.

Lemma X11_relatorio_bem_formado_witness :
  entrada_numerica Exemplos.objetos_multiplos_erros Exemplos.pedido_pinus
  /\ exists valido erros,
       Validador.validar_completo Exemplos.objetos_multiplos_erros Exemplos.pedido_pinus
       = Ok (valido, erros)
       /\ (valido = true <-> erros = ∅)
       /\ (forall k l, erros !! k = Some l ->
             l <> []
             /\ k ∈ ["biomassa"; "fase_agricola"; "fase_industrial"; "fase_distribuicao";
                     "fase_uso"]).
Proof.
  split.
  - repeat split; repeat constructor.
  - apply (X11_relatorio_bem_formado Exemplos.objetos_multiplos_erros
             Exemplos.pedido_pinus).
    repeat split; repeat constructor.
Defined.


(** ** The validator and the aggregator on the same request *)

Section ValidadorLeituras.
Import Validador.

(** Each phase validator depends on its dict only through the fields it
    reads. *)
Lemma validar_fase_agricola_mesmos (d1 d2 : dict) :
  (forall k, k ∈ Regras.campos_agricola -> get_num d1 k 0 = get_num d2 k 0) ->
  validar_fase_agricola d1 = validar_fase_agricola d2.
Proof.
  intros H. unfold validar_fase_agricola.
  rewrite (H "quantidade_biomassa_kg"), (H "distancia_transporte_km"),
    (H "uso_fertilizantes_kg"), (H "uso_pesticidas_kg"), (H "luc_dluc_opcional_kg_co2")
    by repeat constructor.
  reflexivity.
Qed.

Lemma validar_fase_industrial_mesmos (d1 d2 : dict) :
  (forall k, k ∈ Regras.campos_industrial -> get_num d1 k 0 = get_num d2 k 0) ->
  validar_fase_industrial d1 = validar_fase_industrial d2.
Proof.
  intros H. unfold validar_fase_industrial.
  rewrite (H "energia_eletrica_kwh"), (H "energia_termica_mj"), (H "agua_m3")
    by repeat constructor.
  reflexivity.
Qed.

Lemma validar_fase_distribuicao_mesmos (d1 d2 : dict) :
  d1 !! "modal_transporte" = d2 !! "modal_transporte" ->
  get_num d1 "distancia_km" 0 = get_num d2 "distancia_km" 0 ->
  validar_fase_distribuicao d1 = validar_fase_distribuicao d2.
Proof.
  intros Hm Hd. unfold validar_fase_distribuicao. rewrite Hm, Hd. reflexivity.
Qed.

Lemma validar_fase_uso_mesmos (d1 d2 : dict) :
  d1 !! "tipo_combustao" = d2 !! "tipo_combustao" ->
  validar_fase_uso d1 = validar_fase_uso d2.
Proof. intros Ht. unfold validar_fase_uso. rewrite Ht. reflexivity. Qed.

Lemma validar_completo_mesmos (h1 h2 : heap) (e : entrada) :
  validar_fase_agricola (ler_fase h1 (fase_agricola e))
  = validar_fase_agricola (ler_fase h2 (fase_agricola e)) ->
  validar_fase_industrial (ler_fase h1 (fase_industrial e))
  = validar_fase_industrial (ler_fase h2 (fase_industrial e)) ->
  validar_fase_distribuicao (ler_fase h1 (fase_distribuicao e))
  = validar_fase_distribuicao (ler_fase h2 (fase_distribuicao e)) ->
  validar_fase_uso (ler_fase h1 (fase_uso e))
  = validar_fase_uso (ler_fase h2 (fase_uso e)) ->
  validar_completo h1 e = validar_completo h2 e.
Proof.
  intros Ha Hi Hd Hu. unfold validar_completo. rewrite Ha, Hi, Hd, Hu. reflexivity.
Qed.

Lemma get_num_quantidade (d : dict) :
  get_num d "quantidade_biomassa_kg" 0 = num (Calculo.quantidade_de d).
Proof.
  unfold get_num, Calculo.quantidade_de.
  destruct (d !! "quantidade_biomassa_kg"); reflexivity.
Qed.

Lemma get_num_fase_preparada (h : heap) (e : entrada) (info : Calculo.perfil)
    (r : option loc) (k : string) (p : Q) :
  k <> "pci" -> k <> "quantidade_biomassa_kg" -> k <> "fator_biomassa_agricola" ->
  get_num (ler_fase (Calculo.preparar h e info).1 r) k p = get_num (ler_fase h r) k p.
Proof.
  intros H1 H2 H3. unfold get_num.
  rewrite ler_fase_preparada_outro by assumption. reflexivity.
Qed.

(** The dicts that the aggregator has prepared are validated as the dicts
    of the caller were. *)
Lemma validar_completo_preparado (h : heap) (e : entrada) (info : Calculo.perfil) :
  validar_completo (Calculo.preparar h e info).1 e = validar_completo h e.
Proof.
  apply validar_completo_mesmos.
  - apply validar_fase_agricola_mesmos. intros k Hk.
    apply elem_of_cons in Hk as [->|Hk].
    { rewrite !get_num_quantidade, quantidade_agricola_preparada. reflexivity. }
    apply get_num_fase_preparada;
      intros ->; repeat (apply elem_of_cons in Hk as [Hk|Hk]; [discriminate Hk|]);
      apply elem_of_nil in Hk; exact Hk.
  - apply validar_fase_industrial_mesmos. intros k Hk.
    apply get_num_fase_preparada;
      intros ->; repeat (apply elem_of_cons in Hk as [Hk|Hk]; [discriminate Hk|]);
      apply elem_of_nil in Hk; exact Hk.
  - apply validar_fase_distribuicao_mesmos.
    + apply ler_fase_preparada_outro; discriminate.
    + apply get_num_fase_preparada; discriminate.
  - apply validar_fase_uso_mesmos. apply ler_fase_preparada_outro; discriminate.
Qed.

End ValidadorLeituras.

(** X12. The writes of the aggregator are invisible to the validator: after
    a call of [calcular_intensidade_carbono], whatever its outcome,
    [validar_completo] on the same request gives the verdict and report (or
    raises the exception) that it gave before the call. *)
Theorem X12_validador_apos_calculo (st : Calculo.estado) (e : entrada) :
  Validador.validar_completo
    (Calculo.objetos (Calculo.calcular_intensidade_carbono st e).1) e
  = Validador.validar_completo (Calculo.objetos st) e.
Proof.
  unfold Calculo.calcular_intensidade_carbono, Calculo.get_biomassa_info.
  destruct (biomassa e) as [[|a s]|]; [reflexivity| |reflexivity].
  destruct (Calculo.biomassas st !! String a s) as [info|]; [|reflexivity].
  cbn [fst Calculo.objetos Calculo.com_objetos].
  apply validar_completo_preparado.
Qed.

Section Validado.
Import Validador Regras.

(** A request that the validator accepts names a supported biomass. *)
Lemma validado_biomassa (h : heap) (e : entrada) (erros : gmap string (list mensagem)) :
  validar_completo h e = Ok (true, erros) ->
  entrada_numerica h e
  /\ erros = ∅
  /\ exists n, biomassa e = Some n /\ n <> "" /\ n ∈ biomassas_validas.
Proof.
  intros Hv.
  assert (entrada_numerica h e) as Hnum.
  { apply validar_completo_sucesso. rewrite Hv. exact I. }
  split; [exact Hnum|].
  destruct Hnum as (Ha & Hi & Hd).
  rewrite (validar_completo_forma h e Ha Hi Hd) in Hv.
  injection Hv as Hv <-.
  rewrite !andb_true_iff, !sem_erros_nil in Hv.
  split; [apply relatorio_vazio_iff; tauto|].
  destruct Hv as ((((Hid & _) & _) & _) & _).
  unfold erros_id_biomassa in Hid.
  destruct (bool_decide _) eqn:Hin; [|discriminate].
  apply bool_decide_eq_true in Hin.
  destruct (biomassa e) as [n|]; cbn [default] in Hin.
  - exists n. split; [reflexivity|]. split; [|exact Hin].
    intros ->. revert Hin. unfold biomassas_validas.
    rewrite !elem_of_cons, elem_of_nil. intros [H|[H|[H|[]]]]; discriminate.
  - exfalso. revert Hin. unfold biomassas_validas.
    rewrite !elem_of_cons, elem_of_nil. intros [H|[H|[H|[]]]]; discriminate.
Qed.

(** The requests that the validator accepts. *)
Lemma validar_completo_aceita (h : heap) (e : entrada) :
  entrada_numerica h e ->
  default "" (biomassa e) ∈ biomassas_validas ->
  Faixas.agricola_na_faixa (ler_fase h (fase_agricola e)) ->
  Faixas.industrial_na_faixa (ler_fase h (fase_industrial e)) ->
  Faixas.distribuicao_na_faixa (ler_fase h (fase_distribuicao e)) ->
  Faixas.uso_na_faixa (ler_fase h (fase_uso e)) ->
  validar_completo h e = Ok (true, ∅).
Proof.
  intros (Ha & Hi & Hd) Hid Fa Fi Fd Fu.
  rewrite (validar_completo_forma h e Ha Hi Hd).
  apply erros_agricola_nil in Fa. apply erros_industrial_nil in Fi.
  apply erros_distribuicao_nil in Fd. apply erros_uso_nil in Fu.
  assert (erros_id_biomassa e = []) as Hid'.
  { unfold erros_id_biomassa. rewrite bool_decide_eq_true_2 by exact Hid. reflexivity. }
  unfold relatorio. rewrite Fa, Fi, Fd, Fu, Hid'. reflexivity.
Qed.

End Validado.






(** ** Signs and bounds of the results *)

Section NaoNegativo.
Import Validador Regras.

Lemma fator_lido_nao_negativo (fs : tabela) (nome : string) (padrao : Q) :
  Faixas.fatores_nao_negativos fs -> (nome, padrao) ∈ Faixas.fatores_lidos ->
  0 <= fator_valor fs nome padrao.
Proof.
  intros H Hin. exact (proj1 (Forall_forall _ _) H (nome, padrao) Hin).
Qed.

Lemma agricola_nao_negativa (b fa fe ff p pf rf d luc : Q) :
  0 <= b -> 0 <= fa -> 0 <= fe -> 0 <= ff -> 0 <= p -> 0 <= pf -> 0 <= rf -> 0 <= d ->
  0 <= luc ->
  0 <= Spec.agricultural_emissions b fa fe ff p pf rf d luc.
Proof.
  intros. unfold Spec.agricultural_emissions.
  repeat apply Qplus_nao_negativo; try assumption;
    repeat (apply Qdiv_nao_negativo; [|reflexivity]);
    repeat (apply Qmult_le_0_compat; try assumption).
Qed.

Lemma distribuicao_nao_negativa (m d b : Q) :
  0 <= m -> 0 <= d -> 0 <= b -> 0 <= Spec.distribution_emissions m d b.
Proof.
  intros. unfold Spec.distribution_emissions.
  repeat (apply Qdiv_nao_negativo; [|reflexivity]).
  repeat (apply Qmult_le_0_compat; try assumption).
Qed.

Lemma fator_do_modal_nao_negativo (fs : tabela) (m : valor) :
  Faixas.fatores_nao_negativos fs -> 0 <= FaseDistribuicao.fator_do_modal fs m.
Proof.
  intros H. destruct m as [q|s].
  { rewrite fator_do_modal_outro by discriminate. discriminate. }
  destruct (decide (s = "rodoviario")) as [->|H1].
  { rewrite fator_do_modal_rodoviario.
    apply fator_lido_nao_negativo; [exact H|repeat constructor]. }
  destruct (decide (s = "maritimo")) as [->|H2].
  { rewrite fator_do_modal_maritimo.
    apply fator_lido_nao_negativo; [exact H|repeat constructor]. }
  destruct (decide (s = "ferroviario")) as [->|H3].
  { rewrite fator_do_modal_ferroviario.
    apply fator_lido_nao_negativo; [exact H|repeat constructor]. }
  rewrite fator_do_modal_outro by congruence. discriminate.
Qed.

(** The inputs of a request that the validator accepts are in range. *)
Lemma validado_faixas (h : heap) (e : entrada) (erros : gmap string (list mensagem)) :
  validar_completo h e = Ok (true, erros) ->
  Faixas.agricola_na_faixa (ler_fase h (fase_agricola e))
  /\ Faixas.industrial_na_faixa (ler_fase h (fase_industrial e))
  /\ Faixas.distribuicao_na_faixa (ler_fase h (fase_distribuicao e))
  /\ Faixas.uso_na_faixa (ler_fase h (fase_uso e)).
Proof.
  intros Hv.
  destruct (validado_biomassa h e erros Hv) as ((Ha & Hi & Hd) & _).
  rewrite (validar_completo_forma h e Ha Hi Hd) in Hv.
  injection Hv as Hv _.
  rewrite !andb_true_iff, !sem_erros_nil in Hv.
  rewrite <- erros_agricola_nil, <- erros_industrial_nil, <- erros_distribuicao_nil,
    <- erros_uso_nil.
  tauto.
Qed.

End NaoNegativo.

(** The signs and bounds of the result of an accepted request whose inputs
    are in range. *)
Lemma sinais_na_faixa (st : Calculo.estado) (e : entrada) (n : string)
    (info : Calculo.perfil) :
  biomassa e = Some n -> n <> "" ->
  Calculo.biomassas st !! n = Some info ->
  entrada_numerica (Calculo.objetos st) e ->
  Faixas.agricola_na_faixa (ler_fase (Calculo.objetos st) (fase_agricola e)) ->
  Faixas.industrial_na_faixa (ler_fase (Calculo.objetos st) (fase_industrial e)) ->
  0 <= campo (ler_fase (Calculo.objetos st) (fase_distribuicao e)) "distancia_km" 0 ->
  0 < Calculo.pci info ->
  exists st' r,
    Calculo.calcular_intensidade_carbono st e = (st', Ok r)
    /\ 0 < Calculo.energia_total_mj r
    /\ Calculo.intensidade_carbono_g_co2_mj r
       = Calculo.emissoes_totais_kg_co2 r * 1000 / Calculo.energia_total_mj r
    /\ (Faixas.fatores_nao_negativos (Calculo.fatores st) ->
        0 <= Calculo.fator_biomassa_agricola info ->
        0 <= Calculo.emissoes_kg_co2 (Calculo.agricola (Calculo.resultados_por_fase r))
        /\ 0 <= Calculo.emissoes_kg_co2 (Calculo.industrial (Calculo.resultados_por_fase r))
        /\ 0 <= Calculo.emissoes_kg_co2
                  (Calculo.distribuicao (Calculo.resultados_por_fase r))
        /\ 0 <= Calculo.uso_emissoes_kg_co2 (Calculo.uso (Calculo.resultados_por_fase r))
        /\ 0 <= Calculo.emissoes_totais_kg_co2 r
        /\ 0 <= Calculo.intensidade_carbono_g_co2_mj r
        /\ Calculo.neea r
           <= Calculo.ci_fossil_referencia_g_co2_mj (Calculo.comparacao_fossil r)
        /\ Calculo.reducao_percentual (Calculo.comparacao_fossil r) <= 100).
Proof.
  intros Hb Hn Hi Hnum ((Hq0 & _) & (Hd0 & _) & (Hf0 & _) & (Hp0 & _) & Hl0)
    ((He0 & _) & (Ht0 & _) & (Hw0 & _)) Hdd0 Hpci.
  destruct (calcular_resultado st e n info Hb Hn Hi Hnum)
    as (r & ra & ri & rd & ru & Hc & Hr & Ha & Hin & Hd & Hu & _ & Hen
        & Hea & Hei & Hed & Heu & _).
  destruct (calcular_fases_ok _ _ _ _ _ _ Hr)
    as (ra' & ri' & rd' & ru' & q' & _ & _ & _ & _ & _ & _ & _
        & Ha' & Hin' & Hd' & Hu' & _ & Ht & _ & Hci & Hne & Href & _ & _ & Hred & _).
  assert (0 < Calculo.energia_total_mj r) as Hpos.
  { rewrite Hen. apply Qmult_lt_0_compat; assumption. }
  rewrite decide_True in Hci by exact Hpos.
  eexists _, r. split; [exact Hc|]. split; [exact Hpos|]. split; [exact Hci|].
  intros Hfs Hfa.
  assert (forall nome padrao, (nome, padrao) ∈ Faixas.fatores_lidos ->
                              0 <= fator_valor (Calculo.fatores st) nome padrao) as Hf.
  { intros nome padrao. apply fator_lido_nao_negativo. exact Hfs. }
  assert (0 <= Calculo.emissoes_kg_co2 (Calculo.agricola (Calculo.resultados_por_fase r)))
    as Pa.
  { rewrite Ha, Hea.
    apply agricola_nao_negativa; try assumption;
      first [apply Qlt_le_weak; assumption | apply Hf; repeat constructor]. }
  assert (0 <= Calculo.emissoes_kg_co2 (Calculo.industrial (Calculo.resultados_por_fase r)))
    as Pi.
  { rewrite Hin, Hei.
    repeat apply Qplus_nao_negativo;
      (apply Qdiv_nao_negativo; [apply Qmult_le_0_compat; try assumption|reflexivity]).
    - apply Hf; repeat constructor.
    - apply Qdiv_nao_negativo; [apply Hf; repeat constructor|reflexivity].
    - apply Hf; repeat constructor. }
  assert (0 <= Calculo.emissoes_kg_co2
                 (Calculo.distribuicao (Calculo.resultados_por_fase r))) as Pd.
  { rewrite Hd, Hed.
    apply distribuicao_nao_negativa;
      [apply fator_do_modal_nao_negativo; exact Hfs|assumption
      |apply Qlt_le_weak; assumption]. }
  assert (0 <= Calculo.uso_emissoes_kg_co2 (Calculo.uso (Calculo.resultados_por_fase r)))
    as Pu.
  { rewrite Hu, Heu.
    apply Qdiv_nao_negativo; [|reflexivity].
    repeat apply Qmult_le_0_compat; try (apply Qlt_le_weak; assumption).
    apply Hf; repeat constructor. }
  assert (0 <= Calculo.emissoes_totais_kg_co2 r) as Pt.
  { rewrite Ht, <- Ha', <- Hin', <- Hd', <- Hu'.
    repeat apply Qplus_nao_negativo; assumption. }
  assert (0 <= Calculo.intensidade_carbono_g_co2_mj r) as Pc.
  { rewrite Hci. apply Qdiv_nao_negativo; [|exact Hpos].
    apply Qmult_le_0_compat; [exact Pt|discriminate]. }
  assert (Calculo.neea r
          <= Calculo.ci_fossil_referencia_g_co2_mj (Calculo.comparacao_fossil r)) as Pn.
  { rewrite Hne, Href. lra. }
  repeat split; try assumption.
  rewrite Hred. rewrite Href in Pn.
  destruct (decide (0 < fator_valor (Calculo.fatores st) "ci_fossil_referencia" 85))
    as [Hp|Hp]; [|discriminate].
  assert (Calculo.neea r / fator_valor (Calculo.fatores st) "ci_fossil_referencia" 85 <= 1)
    as Hq.
  { apply Qle_shift_div_r; [exact Hp|]. lra. }
  revert Hq. generalize (Calculo.neea r
                         / fator_valor (Calculo.fatores st) "ci_fossil_referencia" 85).
  intros x Hx. lra.
Qed.

(** X14. For a request that the validator accepts, on an engine whose
    profile of that biomass has a positive PCI: the energy is positive, so
    the carbon intensity is the quotient total * 1000 / energy and never the
    fallback 0.  When moreover no factor that the engine reads is negative
    and the agricultural factor of the profile is not negative, no phase
    emission, nor the total, nor the carbon intensity is negative; NEEA is at
    most the fossil reference and the percent reduction at most 100. *)
Theorem X14_validado_sinais (st : Calculo.estado) (e : entrada)
    (erros : gmap string (list Validador.mensagem)) (n : string) (info : Calculo.perfil) :
  Validador.validar_completo (Calculo.objetos st) e = Ok (true, erros) ->
  biomassa e = Some n ->
  Calculo.biomassas st !! n = Some info ->
  0 < Calculo.pci info ->
  exists st' r,
    Calculo.calcular_intensidade_carbono st e = (st', Ok r)
    /\ 0 < Calculo.energia_total_mj r
    /\ Calculo.intensidade_carbono_g_co2_mj r
       = Calculo.emissoes_totais_kg_co2 r * 1000 / Calculo.energia_total_mj r
    /\ (Faixas.fatores_nao_negativos (Calculo.fatores st) ->
        0 <= Calculo.fator_biomassa_agricola info ->
        0 <= Calculo.emissoes_kg_co2 (Calculo.agricola (Calculo.resultados_por_fase r))
        /\ 0 <= Calculo.emissoes_kg_co2 (Calculo.industrial (Calculo.resultados_por_fase r))
        /\ 0 <= Calculo.emissoes_kg_co2
                  (Calculo.distribuicao (Calculo.resultados_por_fase r))
        /\ 0 <= Calculo.uso_emissoes_kg_co2 (Calculo.uso (Calculo.resultados_por_fase r))
        /\ 0 <= Calculo.emissoes_totais_kg_co2 r
        /\ 0 <= Calculo.intensidade_carbono_g_co2_mj r
        /\ Calculo.neea r
           <= Calculo.ci_fossil_referencia_g_co2_mj (Calculo.comparacao_fossil r)
        /\ Calculo.reducao_percentual (Calculo.comparacao_fossil r) <= 100).
Proof.
  intros Hv Hb Hi Hpci.
  destruct (validado_biomassa _ _ _ Hv) as (Hnum & _ & n' & Hb' & Hn & _).
  rewrite Hb in Hb'. injection Hb' as <-.
  destruct (validado_faixas _ _ _ Hv) as (Fa & Fi & (_ & Fd & _) & _).
  exact (sinais_na_faixa st e n info Hb Hn Hi Hnum Fa Fi Fd Hpci).
Qed.

Lemma X14_validado_sinais_witness :
  exists st' r,
    Calculo.calcular_intensidade_carbono Exemplos.estado_energia Exemplos.pedido_pinus
    = (st', Ok r)
    /\ 0 < Calculo.energia_total_mj r
    /\ Calculo.intensidade_carbono_g_co2_mj r
       = Calculo.emissoes_totais_kg_co2 r * 1000 / Calculo.energia_total_mj r.
Proof.
  destruct (X14_validado_sinais Exemplos.estado_energia Exemplos.pedido_pinus ∅
              "pinus" Exemplos.pinus)
    as (st' & r & Hc & He & Hci & _).
  - apply validar_completo_aceita.
    + repeat split; repeat constructor.
    + repeat constructor.
    + unfold Faixas.agricola_na_faixa. repeat split; discriminate.
    + unfold Faixas.industrial_na_faixa. repeat split; discriminate.
    + split; [|split; discriminate].
      exists "rodoviario". split; [reflexivity|repeat constructor].
    + right. exists "caldeira". split; [reflexivity|repeat constructor].
  - reflexivity.
  - reflexivity.
  - reflexivity.
  - exists st', r. repeat split; assumption.
Defined.


(** ** The exceptions of the calculators *)

Section Excecoes.
Import Calculo.

Variable fs : tabela.






End Excecoes.

Section ExcecoesDoAgregador.
Import Calculo.

Variables (h : heap) (e : entrada) (info : perfil).

Let h4 : heap := (preparar h e info).1.
Let ls : locais := (preparar h e info).2.





End ExcecoesDoAgregador.




(** ** What the aggregator reads of the caller's dicts *)

Section Leituras.
Import Calculo.

Variable fs : tabela.

(** Each calculator depends on its dict only through the fields it reads. *)
Lemma agricola_mesmos (d1 d2 : dict) :
  (forall k, k ∈ Regras.campos_agricola -> get_num d1 k 0 = get_num d2 k 0) ->
  get_num d1 "fator_biomassa_agricola" 100 = get_num d2 "fator_biomassa_agricola" 100 ->
  FaseAgricola.calcular_emissoes fs d1 = FaseAgricola.calcular_emissoes fs d2.
Proof.
  intros H Hf. unfold FaseAgricola.calcular_emissoes.
  rewrite (H "quantidade_biomassa_kg"), (H "distancia_transporte_km"),
    (H "uso_fertilizantes_kg"), (H "uso_pesticidas_kg"), (H "luc_dluc_opcional_kg_co2"), Hf
    by repeat constructor.
  reflexivity.
Qed.

Lemma industrial_mesmos (d1 d2 : dict) :
  (forall k, k ∈ Regras.campos_industrial -> get_num d1 k 0 = get_num d2 k 0) ->
  FaseIndustrial.calcular_emissoes fs d1 = FaseIndustrial.calcular_emissoes fs d2.
Proof.
  intros H. unfold FaseIndustrial.calcular_emissoes.
  rewrite (H "energia_eletrica_kwh"), (H "energia_termica_mj"), (H "agua_m3")
    by repeat constructor.
  reflexivity.
Qed.

Lemma distribuicao_mesmos (d1 d2 : dict) :
  d1 !! "modal_transporte" = d2 !! "modal_transporte" ->
  get_num d1 "distancia_km" 0 = get_num d2 "distancia_km" 0 ->
  get_num d1 "quantidade_biomassa_kg" 0 = get_num d2 "quantidade_biomassa_kg" 0 ->
  FaseDistribuicao.calcular_emissoes fs d1 = FaseDistribuicao.calcular_emissoes fs d2.
Proof.
  intros Hm Hd Hq. unfold FaseDistribuicao.calcular_emissoes.
  rewrite Hm, Hd, Hq. reflexivity.
Qed.

Lemma uso_mesmos (d1 d2 : dict) :
  d1 !! "tipo_combustao" = d2 !! "tipo_combustao" ->
  get_num d1 "quantidade_biomassa_kg" 0 = get_num d2 "quantidade_biomassa_kg" 0 ->
  get_num d1 "pci" 18 = get_num d2 "pci" 18 ->
  FaseUso.calcular_emissoes fs d1 = FaseUso.calcular_emissoes fs d2.
Proof.
  intros Ht Hq Hp. unfold FaseUso.calcular_emissoes. rewrite Ht, Hq, Hp. reflexivity.
Qed.

Lemma calcular_fases_mesmos (h1 h2 : heap) (n : string) (info : perfil)
    (ls1 ls2 : locais) :
  FaseAgricola.calcular_emissoes fs (ler h1 (dados_agricola ls1))
  = FaseAgricola.calcular_emissoes fs (ler h2 (dados_agricola ls2)) ->
  FaseIndustrial.calcular_emissoes fs (ler h1 (dados_industrial ls1))
  = FaseIndustrial.calcular_emissoes fs (ler h2 (dados_industrial ls2)) ->
  FaseDistribuicao.calcular_emissoes fs (ler h1 (dados_distribuicao ls1))
  = FaseDistribuicao.calcular_emissoes fs (ler h2 (dados_distribuicao ls2)) ->
  FaseUso.calcular_emissoes fs (ler h1 (dados_uso ls1))
  = FaseUso.calcular_emissoes fs (ler h2 (dados_uso ls2)) ->
  get_num (ler h1 (dados_uso ls1)) "quantidade_biomassa_kg" 0
  = get_num (ler h2 (dados_uso ls2)) "quantidade_biomassa_kg" 0 ->
  calcular_fases fs h1 n info ls1 = calcular_fases fs h2 n info ls2.
Proof.
  intros Ha Hi Hd Hu Hq. unfold calcular_fases. rewrite Ha, Hi, Hd, Hu, Hq. reflexivity.
Qed.

End Leituras.

Section LeiturasPreparadas.
Import Calculo.

Variables (h : heap) (e : entrada) (info : perfil).

Let h4 : heap := (preparar h e info).1.
Let ls : locais := (preparar h e info).2.
Let da : dict := ler_fase h (fase_agricola e).

(** What the calculators find in the prepared dicts, in terms of the dicts
    of the caller. *)
Lemma leitura_quantidade (l : loc) :
  l = dados_agricola ls \/ l = dados_distribuicao ls \/ l = dados_uso ls ->
  get_num (ler h4 l) "quantidade_biomassa_kg" 0 = get_num da "quantidade_biomassa_kg" 0.
Proof.
  intros Hl. rewrite !get_num_quantidade.
  unfold h4. rewrite (preparar_quantidade h e info l Hl). reflexivity.
Qed.

Lemma leitura_agricola (k : string) :
  k ∈ Regras.campos_agricola ->
  get_num (ler h4 (dados_agricola ls)) k 0 = get_num da k 0.
Proof.
  intros Hk. apply elem_of_cons in Hk as [ -> |Hk].
  { apply leitura_quantidade. left. reflexivity. }
  unfold get_num, h4, ls, da.
  rewrite preparar_ler_outro, preparar_agricola; [reflexivity|..];
    intros ->; repeat (apply elem_of_cons in Hk as [Hk|Hk]; [discriminate Hk|]);
    inversion Hk.
Qed.

Lemma leitura_fator :
  get_num (ler h4 (dados_agricola ls)) "fator_biomassa_agricola" 100
  = Ok (fator_biomassa_agricola info).
Proof. unfold get_num, h4, ls. rewrite preparar_fator. reflexivity. Qed.

Lemma leitura_industrial (k : string) (p : Q) :
  k ∈ Regras.campos_industrial ->
  get_num (ler h4 (dados_industrial ls)) k p
  = get_num (ler_fase h (fase_industrial e)) k p.
Proof.
  intros Hk. unfold get_num, h4, ls.
  rewrite preparar_ler_outro, preparar_industrial; [reflexivity|..];
    intros ->; repeat (apply elem_of_cons in Hk as [Hk|Hk]; [discriminate Hk|]);
    inversion Hk.
Qed.

Lemma leitura_distribuicao (k : string) :
  k = "modal_transporte" \/ k = "distancia_km" ->
  ler h4 (dados_distribuicao ls) !! k = ler_fase h (fase_distribuicao e) !! k.
Proof.
  intros Hk. unfold h4, ls.
  rewrite preparar_ler_outro, preparar_distribuicao; [reflexivity|..];
    destruct Hk as [ -> | -> ]; discriminate.
Qed.

Lemma leitura_tipo :
  ler h4 (dados_uso ls) !! "tipo_combustao" = ler_fase h (fase_uso e) !! "tipo_combustao".
Proof.
  unfold h4, ls. rewrite preparar_ler_outro, preparar_uso; [reflexivity|discriminate..].
Qed.

Lemma leitura_pci : get_num (ler h4 (dados_uso ls)) "pci" 18 = Ok (pci info).
Proof. unfold get_num, h4, ls. rewrite preparar_pci. reflexivity. Qed.

End LeiturasPreparadas.

(** X16. The result of [calcular_intensidade_carbono] (or the exception it
    raises) depends on the caller's dicts only through the fields that the
    validator reads: the five agricultural inputs, the three industrial
    inputs, the mode and distance of the distribution dict and the combustion
    type of the use dict, an absent numeric field counting as 0.  Whatever
    the caller has stored under [fator_biomassa_agricola] or [pci], or under
    [quantidade_biomassa_kg] in the distribution and use dicts, is
    overwritten before it is read. *)
Theorem X16_leituras_do_agregador (st : Calculo.estado) (h' : heap) (e : entrada) :
  (forall k, k ∈ Regras.campos_agricola ->
     get_num (ler_fase h' (fase_agricola e)) k 0
     = get_num (ler_fase (Calculo.objetos st) (fase_agricola e)) k 0) ->
  (forall k, k ∈ Regras.campos_industrial ->
     get_num (ler_fase h' (fase_industrial e)) k 0
     = get_num (ler_fase (Calculo.objetos st) (fase_industrial e)) k 0) ->
  (forall k, k = "modal_transporte" \/ k = "distancia_km" ->
     ler_fase h' (fase_distribuicao e) !! k
     = ler_fase (Calculo.objetos st) (fase_distribuicao e) !! k) ->
  ler_fase h' (fase_uso e) !! "tipo_combustao"
  = ler_fase (Calculo.objetos st) (fase_uso e) !! "tipo_combustao" ->
  (Calculo.calcular_intensidade_carbono (Calculo.com_objetos st h') e).2
  = (Calculo.calcular_intensidade_carbono st e).2.
Proof.
  intros Ha Hi Hd Hu.
  unfold Calculo.calcular_intensidade_carbono, Calculo.get_biomassa_info.
  cbn [Calculo.biomassas Calculo.com_objetos Calculo.fatores Calculo.objetos].
  destruct (biomassa e) as [[|a s]|]; [reflexivity| |reflexivity].
  destruct (Calculo.biomassas st !! String a s) as [info|]; [|reflexivity].
  cbn [snd]. set (h := Calculo.objetos st) in *.
  assert (forall l l',
            l = Calculo.dados_agricola (Calculo.preparar h' e info).2
            \/ l = Calculo.dados_distribuicao (Calculo.preparar h' e info).2
            \/ l = Calculo.dados_uso (Calculo.preparar h' e info).2 ->
            l' = Calculo.dados_agricola (Calculo.preparar h e info).2
            \/ l' = Calculo.dados_distribuicao (Calculo.preparar h e info).2
            \/ l' = Calculo.dados_uso (Calculo.preparar h e info).2 ->
            get_num (ler (Calculo.preparar h' e info).1 l) "quantidade_biomassa_kg" 0
            = get_num (ler (Calculo.preparar h e info).1 l') "quantidade_biomassa_kg" 0)
    as Hq.
  { intros l l' Hl Hl'. rewrite !leitura_quantidade by assumption.
    apply Ha. repeat constructor. }
  apply calcular_fases_mesmos.
  - apply agricola_mesmos.
    + intros k Hk. rewrite !leitura_agricola by exact Hk. apply Ha. exact Hk.
    + rewrite !leitura_fator. reflexivity.
  - apply industrial_mesmos. intros k Hk.
    rewrite !leitura_industrial by exact Hk. apply Hi. exact Hk.
  - apply distribuicao_mesmos.
    + rewrite !leitura_distribuicao by (left; reflexivity). apply Hd. left. reflexivity.
    + unfold get_num. rewrite !leitura_distribuicao by (right; reflexivity).
      rewrite Hd by (right; reflexivity). reflexivity.
    + apply Hq; right; left; reflexivity.
  - apply uso_mesmos.
    + rewrite !leitura_tipo. exact Hu.
    + apply Hq; right; right; reflexivity.
    + rewrite !leitura_pci. reflexivity.
  - apply Hq; right; right; reflexivity.
Qed.

Lemma X16_leituras_do_agregador_witness :
  let h' := escrever (escrever Exemplos.objetos_energia 4%positive "pci" (VStr "alto"))
              1%positive "fator_biomassa_agricola" (VNum 999) in
  (Calculo.calcular_intensidade_carbono
     (Calculo.com_objetos Exemplos.estado_energia h') Exemplos.pedido_pinus).2
  = (Calculo.calcular_intensidade_carbono Exemplos.estado_energia Exemplos.pedido_pinus).2.
Proof.
  intros h'.
  apply (X16_leituras_do_agregador Exemplos.estado_energia h' Exemplos.pedido_pinus).
  - intros k Hk. unfold Regras.campos_agricola in Hk.
    repeat (apply elem_of_cons in Hk as [ -> |Hk]; [reflexivity|]). inversion Hk.
  - intros k Hk. unfold Regras.campos_industrial in Hk.
    repeat (apply elem_of_cons in Hk as [ -> |Hk]; [reflexivity|]). inversion Hk.
  - intros k [ -> | -> ]; reflexivity.
  - reflexivity.
Defined.


(** ** The factor table *)

Section Fatores.
Import Calculo.

Lemma mesmos_fatores_valor (fs1 fs2 : tabela) (nome : string) (padrao : Q) :
  Faixas.mesmos_fatores fs1 fs2 -> (nome, padrao) ∈ Faixas.fatores_lidos ->
  fator_valor fs1 nome padrao = fator_valor fs2 nome padrao.
Proof.
  intros H Hin. exact (proj1 (Forall_forall _ _) H (nome, padrao) Hin).
Qed.

Variables fs1 fs2 : tabela.
Hypothesis Hfs : Faixas.mesmos_fatores fs1 fs2.

Ltac mesmo_fator nome padrao :=
  rewrite (mesmos_fatores_valor fs1 fs2 nome padrao Hfs) by repeat constructor.

Lemma agricola_fatores (d : dict) :
  FaseAgricola.calcular_emissoes fs1 d = FaseAgricola.calcular_emissoes fs2 d.
Proof.
  unfold FaseAgricola.calcular_emissoes.
  mesmo_fator "fator_fertilizante_n" 6540. mesmo_fator "fator_pesticida" 10000.
  mesmo_fator "fator_transporte_rodoviario" 62. reflexivity.
Qed.

Lemma industrial_fatores (d : dict) :
  FaseIndustrial.calcular_emissoes fs1 d = FaseIndustrial.calcular_emissoes fs2 d.
Proof.
  unfold FaseIndustrial.calcular_emissoes.
  mesmo_fator "fator_eletricidade_br" 95. mesmo_fator "fator_diesel" 2680.
  mesmo_fator "fator_agua" 0.36. reflexivity.
Qed.

Lemma distribuicao_fatores (d : dict) :
  FaseDistribuicao.calcular_emissoes fs1 d = FaseDistribuicao.calcular_emissoes fs2 d.
Proof.
  unfold FaseDistribuicao.calcular_emissoes, FaseDistribuicao.fator_do_modal,
    FaseDistribuicao.fatores_modal.
  mesmo_fator "fator_transporte_rodoviario" 62.
  mesmo_fator "fator_transporte_maritimo" 8.5.
  mesmo_fator "fator_transporte_ferroviario" 22. reflexivity.
Qed.

Lemma uso_fatores (d : dict) :
  FaseUso.calcular_emissoes fs1 d = FaseUso.calcular_emissoes fs2 d.
Proof.
  unfold FaseUso.calcular_emissoes. mesmo_fator "fator_combustao" 0. reflexivity.
Qed.

(** The factors enter a call through the ten lookups only. *)
Lemma calcular_fatores (st : estado) (e : entrada) :
  (calcular_intensidade_carbono (com_fatores st fs1) e).2
  = (calcular_intensidade_carbono (com_fatores st fs2) e).2
  /\ objetos (calcular_intensidade_carbono (com_fatores st fs1) e).1
     = objetos (calcular_intensidade_carbono (com_fatores st fs2) e).1.
Proof.
  unfold calcular_intensidade_carbono, get_biomassa_info.
  cbn [biomassas com_fatores fatores objetos].
  destruct (biomassa e) as [[|a s]|]; [split; reflexivity| |split; reflexivity].
  destruct (biomassas st !! String a s) as [info|]; [|split; reflexivity].
  cbn [fst snd objetos com_objetos]. split; [|reflexivity].
  unfold calcular_fases.
  rewrite !agricola_fatores, !industrial_fatores, !distribuicao_fatores, !uso_fatores.
  mesmo_fator "ci_fossil_referencia" 85. reflexivity.
Qed.

End Fatores.

Lemma fatores_literatura_padrao :
  Faixas.mesmos_fatores ExcelReader.fatores_literatura ∅.
Proof. repeat constructor. Qed.

Lemma com_fatores_proprios (st : Calculo.estado) :
  Calculo.com_fatores st (Calculo.fatores st) = st.
Proof. destruct st. reflexivity. Qed.

(** X17. The engine reads ten factors from its table, each with a default:
    nitrogen fertiliser, pesticide, the three transport modes, electricity,
    diesel, water, combustion and the fossil reference.  Two tables that give
    the same value to these ten lookups give the same result (or exception)
    and leave the same objects, whatever else they hold. *)
Theorem X17_fatores_lidos (st : Calculo.estado) (fs' : tabela) (e : entrada) :
  Faixas.mesmos_fatores (Calculo.fatores st) fs' ->
  (Calculo.calcular_intensidade_carbono (Calculo.com_fatores st fs') e).2
  = (Calculo.calcular_intensidade_carbono st e).2
  /\ Calculo.objetos (Calculo.calcular_intensidade_carbono (Calculo.com_fatores st fs') e).1
     = Calculo.objetos (Calculo.calcular_intensidade_carbono st e).1.
Proof.
  intros H.
  destruct (calcular_fatores (Calculo.fatores st) fs' H st e) as (Hr & Ho).
  rewrite com_fatores_proprios in Hr, Ho. split; symmetry; assumption.
Qed.

Lemma X17_fatores_lidos_witness :
  (Calculo.calcular_intensidade_carbono
     (Calculo.com_fatores Exemplos.estado_energia
        (<["fator_gasolina" := ExcelReader.f 2300 "gCO2/L" "IPCC"]> ∅))
     Exemplos.pedido_pinus).2
  = (Calculo.calcular_intensidade_carbono Exemplos.estado_energia Exemplos.pedido_pinus).2.
Proof.
  apply (X17_fatores_lidos Exemplos.estado_energia
           (<["fator_gasolina" := ExcelReader.f 2300 "gCO2/L" "IPCC"]> ∅)
           Exemplos.pedido_pinus).
  repeat constructor.
Defined.

(** X18. The literature values of [extrair_fatores_emissao] are the
    defaults written in the calculators: an engine whose table is the
    extracted one returns what an engine with an empty table returns,
    whether the extraction has read the workbook or has fallen back to the
    empty dict. *)
Theorem X18_literatura_e_padroes (st : Calculo.estado) (e : entrada) (abas_lidas : bool) :
  (Calculo.calcular_intensidade_carbono
     (Calculo.com_fatores st (ExcelReader.extrair_fatores_emissao abas_lidas)) e).2
  = (Calculo.calcular_intensidade_carbono (Calculo.com_fatores st ∅) e).2.
Proof.
  destruct abas_lidas; [|reflexivity].
  apply calcular_fatores. exact fatores_literatura_padrao.
Qed.

(** ** Loading and saving the table *)

Section CargaFatos.
Import Carga.

Lemma _carregar_fatores_snoc (linhas : list linha) (row : linha) :
  _carregar_fatores (linhas ++ [row])
  = <[parametro row := fator_da_linha row]> (_carregar_fatores linhas).
Proof. unfold _carregar_fatores. rewrite foldl_app. reflexivity. Qed.

Lemma _carregar_fatores_lookup (linhas : list linha) (k : string) :
  _carregar_fatores linhas !! k
  = fator_da_linha <$> last (filter (fun row => parametro row = k) linhas).
Proof.
  induction linhas as [|row linhas IH] using rev_ind; [reflexivity|].
  rewrite _carregar_fatores_snoc, filter_app, last_app.
  destruct (decide (parametro row = k)) as [Hk|Hk].
  - rewrite filter_cons_True by exact Hk. rewrite filter_nil. cbn [last].
    rewrite Hk, lookup_insert_eq. reflexivity.
  - rewrite filter_cons_False by exact Hk. rewrite filter_nil. cbn [last].
    rewrite lookup_insert_ne by exact Hk. exact IH.
Qed.

Lemma _carregar_fatores_lista (linhas : list linha) :
  _carregar_fatores linhas = list_to_map (reverse (par_da_linha <$> linhas)).
Proof.
  induction linhas as [|row linhas IH] using rev_ind; [reflexivity|].
  rewrite _carregar_fatores_snoc, fmap_app, reverse_app. cbn. rewrite IH. reflexivity.
Qed.

Lemma salvar_fatores_csv_pares (fatores : tabela) (rows : list linha) :
  salvar_fatores_csv fatores = Some rows ->
  par_da_linha <$> rows = map_to_list fatores.
Proof.
  unfold salvar_fatores_csv. intros H.
  apply (mapM_fmap_Some_inv _ par_da_linha _ _ H).
  intros [k [[v|] u s]] row; cbn; [|discriminate].
  intros [= <-]. reflexivity.
Qed.

End CargaFatos.

(** X19. [_carregar_fatores] keeps, for each factor name, the last row of
    the file with that name: the table holds an entry for a name exactly when
    some row has it, and a lookup with a default gives the value of the last
    such row, or the default when there is none. *)
Theorem X19_carregar_ultima_linha (linhas : list Carga.linha) (k : string) (padrao : Q) :
  Carga._carregar_fatores linhas !! k
  = Carga.fator_da_linha <$> last (filter (fun row => Carga.parametro row = k) linhas)
  /\ fator_valor (Carga._carregar_fatores linhas) k padrao
     = default padrao
         (Carga.valor <$> last (filter (fun row => Carga.parametro row = k) linhas)).
Proof.
  split; [apply _carregar_fatores_lookup|].
  unfold fator_valor. rewrite _carregar_fatores_lookup.
  destruct (last _) as [row|]; reflexivity.
Qed.

(** X20. Saving and loading: when every entry of the table has a value,
    [salvar_fatores_csv] builds its rows, and [_carregar_fatores] on these
    rows, in whatever order they come, gives back the table. *)
Theorem X20_salvar_e_carregar (fatores : tabela) :
  (forall k f, fatores !! k = Some f -> is_Some (valor_de f)) ->
  exists rows,
    Carga.salvar_fatores_csv fatores = Some rows
    /\ forall rows', rows' ≡ₚ rows -> Carga._carregar_fatores rows' = fatores.
Proof.
  intros Hall.
  assert (is_Some (Carga.salvar_fatores_csv fatores)) as [rows Hr].
  { unfold Carga.salvar_fatores_csv. apply mapM_is_Some. apply Forall_forall.
    intros [k f] Hin. apply elem_of_map_to_list in Hin.
    destruct (Hall k f Hin) as [v Hv]. cbn. rewrite Hv. eexists. reflexivity. }
  exists rows. split; [exact Hr|].
  intros rows' Hp. rewrite _carregar_fatores_lista.
  symmetry. apply list_to_map_flip.
  rewrite reverse_Permutation, Hp, (salvar_fatores_csv_pares _ _ Hr). reflexivity.
Qed.

Lemma X20_salvar_e_carregar_witness :
  exists rows,
    Carga.salvar_fatores_csv ExcelReader.fatores_literatura = Some rows
    /\ Carga._carregar_fatores rows = ExcelReader.fatores_literatura.
Proof.
  destruct (X20_salvar_e_carregar ExcelReader.fatores_literatura) as (rows & Hr & Hc).
  - intros k f Hk. apply elem_of_list_to_map_2 in Hk.
    repeat (apply elem_of_cons in Hk as [Hk|Hk];
            [injection Hk as -> ->; eexists; reflexivity|]).
    inversion Hk.
  - exists rows. split; [exact Hr|]. apply Hc. reflexivity.
Defined.



(** ** The breakdown of a result *)

Lemma leitura_distancia (h : heap) (e : entrada) (info : Calculo.perfil) (p : Q) :
  get_num (ler (Calculo.preparar h e info).1
             (Calculo.dados_distribuicao (Calculo.preparar h e info).2)) "distancia_km" p
  = get_num (ler_fase h (fase_distribuicao e)) "distancia_km" p.
Proof.
  unfold get_num. rewrite (leitura_distribuicao h e info "distancia_km") by tauto.
  reflexivity.
Qed.

Section Detalhes.
Import Calculo.

Variables (fs : tabela) (h : heap) (e : entrada) (n : string) (info : perfil).

Let h4 : heap := (preparar h e info).1.
Let ls : locais := (preparar h e info).2.
Let da : dict := ler_fase h (fase_agricola e).
Let di : dict := ler_fase h (fase_industrial e).
Let dd : dict := ler_fase h (fase_distribuicao e).
Let du : dict := ler_fase h (fase_uso e).

Hypothesis Hnum : entrada_numerica h e.

(** The breakdown that each phase returns on the prepared dicts. *)
Lemma detalhes_preparados :
  exists r,
    calcular_fases fs h4 n info ls = Ok r
    /\ energia_total_mj r = campo da "quantidade_biomassa_kg" 0 * pci info
    /\ FaseUso.energia_gerada_mj (uso_detalhamento (uso (resultados_por_fase r)))
       = campo da "quantidade_biomassa_kg" 0 * pci info
    /\ FaseUso.tipo_combustao (uso_detalhamento (uso (resultados_por_fase r)))
       = default (VStr "caldeira") (du !! "tipo_combustao")
    /\ FaseUso.combustao (uso_detalhamento (uso (resultados_por_fase r)))
       = uso_emissoes_kg_co2 (uso (resultados_por_fase r))
    /\ FaseDistribuicao.modal (detalhamento (distribuicao (resultados_por_fase r)))
       = default (VStr "rodoviario") (dd !! "modal_transporte")
    /\ FaseDistribuicao.distancia_km (detalhamento (distribuicao (resultados_por_fase r)))
       = campo dd "distancia_km" 0
    /\ FaseDistribuicao.transporte (detalhamento (distribuicao (resultados_por_fase r)))
       = emissoes_kg_co2 (distribuicao (resultados_por_fase r))
    /\ emissoes_kg_co2 (agricola (resultados_por_fase r))
       = FaseAgricola.biomassa (detalhamento (agricola (resultados_por_fase r)))
         + FaseAgricola.fertilizantes (detalhamento (agricola (resultados_por_fase r)))
         + FaseAgricola.pesticidas (detalhamento (agricola (resultados_por_fase r)))
         + FaseAgricola.transporte (detalhamento (agricola (resultados_por_fase r)))
         + FaseAgricola.luc_dluc (detalhamento (agricola (resultados_por_fase r)))
    /\ FaseAgricola.biomassa (detalhamento (agricola (resultados_por_fase r)))
       = campo da "quantidade_biomassa_kg" 0 * fator_biomassa_agricola info / 1000
    /\ emissoes_kg_co2 (industrial (resultados_por_fase r))
       = FaseIndustrial.energia_eletrica (detalhamento (industrial (resultados_por_fase r)))
         + FaseIndustrial.energia_termica (detalhamento (industrial (resultados_por_fase r)))
         + FaseIndustrial.agua (detalhamento (industrial (resultados_por_fase r))).
Proof.
  destruct Hnum as (Ha & Hi & Hd).
  pose proof (proj1 (Forall_forall _ _) Ha) as Ka.
  pose proof (proj1 (Forall_forall _ _) Hi) as Ki.
  pose proof (proj1 (Forall_forall _ _) Hd) as Kd.
  unfold calcular_fases, FaseAgricola.calcular_emissoes, FaseIndustrial.calcular_emissoes,
    FaseDistribuicao.calcular_emissoes, FaseUso.calcular_emissoes.
  unfold h4, ls.
  rewrite !(leitura_agricola h e info) by repeat constructor.
  rewrite (leitura_fator h e info).
  rewrite !(leitura_industrial h e info) by repeat constructor.
  rewrite !(leitura_quantidade h e info) by tauto.
  rewrite (leitura_pci h e info), (leitura_tipo h e info).
  rewrite (leitura_distribuicao h e info "modal_transporte") by tauto.
  rewrite (leitura_distancia h e info).
  fold da di dd du.
  rewrite !(get_num_campo da) by (apply Ka; repeat constructor).
  rewrite !(get_num_campo di) by (apply Ki; repeat constructor).
  rewrite !(get_num_campo dd) by (apply Kd; repeat constructor).
  cbv beta iota zeta delta [mbind res_bind].
  eexists. split; [reflexivity|].
  cbn [resultados_por_fase energia_total_mj agricola industrial distribuicao uso
       emissoes_kg_co2 detalhamento uso_emissoes_kg_co2 uso_detalhamento
       FaseAgricola.detalhe FaseAgricola.emissoes_kg_co2 FaseAgricola.biomassa
       FaseAgricola.fertilizantes FaseAgricola.pesticidas FaseAgricola.transporte
       FaseAgricola.luc_dluc FaseIndustrial.detalhe FaseIndustrial.emissoes_kg_co2
       FaseIndustrial.energia_eletrica FaseIndustrial.energia_termica FaseIndustrial.agua
       FaseDistribuicao.detalhe FaseDistribuicao.emissoes_kg_co2 FaseDistribuicao.modal
       FaseDistribuicao.distancia_km FaseDistribuicao.transporte FaseUso.detalhe
       FaseUso.emissoes_kg_co2 FaseUso.energia_gerada_mj FaseUso.tipo_combustao
       FaseUso.combustao].
  repeat split; reflexivity.
Qed.

End Detalhes.

(** X22. The breakdown carried by a result agrees with its totals.  The
    energy that the use phase reports in its detail is the total energy of
    the result (the two are computed apart, from the injected PCI and from
    the profile); the detail names the combustion type and the mode that the
    caller gave, caldeira and rodoviario when absent, the mode also when it
    is not a recognised one; and the agricultural and industrial emissions
    are the sums of their itemised components. *)
Theorem X22_detalhamento_do_resultado (st : Calculo.estado) (e : entrada) (n : string)
    (info : Calculo.perfil) :
  biomassa e = Some n -> n <> "" -> Calculo.biomassas st !! n = Some info ->
  entrada_numerica (Calculo.objetos st) e ->
  exists st' r,
    Calculo.calcular_intensidade_carbono st e = (st', Ok r)
    /\ FaseUso.energia_gerada_mj
         (Calculo.uso_detalhamento (Calculo.uso (Calculo.resultados_por_fase r)))
       = Calculo.energia_total_mj r
    /\ FaseUso.tipo_combustao
         (Calculo.uso_detalhamento (Calculo.uso (Calculo.resultados_por_fase r)))
       = default (VStr "caldeira")
           (ler_fase (Calculo.objetos st) (fase_uso e) !! "tipo_combustao")
    /\ FaseUso.combustao
         (Calculo.uso_detalhamento (Calculo.uso (Calculo.resultados_por_fase r)))
       = Calculo.uso_emissoes_kg_co2 (Calculo.uso (Calculo.resultados_por_fase r))
    /\ FaseDistribuicao.modal
         (Calculo.detalhamento (Calculo.distribuicao (Calculo.resultados_por_fase r)))
       = default (VStr "rodoviario")
           (ler_fase (Calculo.objetos st) (fase_distribuicao e) !! "modal_transporte")
    /\ FaseDistribuicao.transporte
         (Calculo.detalhamento (Calculo.distribuicao (Calculo.resultados_por_fase r)))
       = Calculo.emissoes_kg_co2 (Calculo.distribuicao (Calculo.resultados_por_fase r))
    /\ Calculo.emissoes_kg_co2 (Calculo.agricola (Calculo.resultados_por_fase r))
       = FaseAgricola.biomassa
           (Calculo.detalhamento (Calculo.agricola (Calculo.resultados_por_fase r)))
         + FaseAgricola.fertilizantes
             (Calculo.detalhamento (Calculo.agricola (Calculo.resultados_por_fase r)))
         + FaseAgricola.pesticidas
             (Calculo.detalhamento (Calculo.agricola (Calculo.resultados_por_fase r)))
         + FaseAgricola.transporte
             (Calculo.detalhamento (Calculo.agricola (Calculo.resultados_por_fase r)))
         + FaseAgricola.luc_dluc
             (Calculo.detalhamento (Calculo.agricola (Calculo.resultados_por_fase r)))
    /\ Calculo.emissoes_kg_co2 (Calculo.industrial (Calculo.resultados_por_fase r))
       = FaseIndustrial.energia_eletrica
           (Calculo.detalhamento (Calculo.industrial (Calculo.resultados_por_fase r)))
         + FaseIndustrial.energia_termica
             (Calculo.detalhamento (Calculo.industrial (Calculo.resultados_por_fase r)))
         + FaseIndustrial.agua
             (Calculo.detalhamento (Calculo.industrial (Calculo.resultados_por_fase r))).
Proof.
  intros Hb Hn Hi Hnum.
  destruct (detalhes_preparados (Calculo.fatores st) (Calculo.objetos st) e n info Hnum)
    as (r & Hr & Hen & Heg & Htipo & Hcomb & Hmodal & _ & Htr & Hag & _ & Hin).
  eexists _, r. split; [rewrite (calcular_aceito st e n info Hb Hn Hi), Hr; reflexivity|].
  rewrite Heg, Hen. repeat split; assumption.
Qed.

Lemma X22_detalhamento_do_resultado_witness :
  exists st' r,
    Calculo.calcular_intensidade_carbono Exemplos.estado_energia Exemplos.pedido_pinus
    = (st', Ok r)
    /\ FaseUso.energia_gerada_mj
         (Calculo.uso_detalhamento (Calculo.uso (Calculo.resultados_por_fase r)))
       = Calculo.energia_total_mj r
    /\ FaseDistribuicao.modal
         (Calculo.detalhamento (Calculo.distribuicao (Calculo.resultados_por_fase r)))
       = VStr "rodoviario".
Proof.
  destruct (X22_detalhamento_do_resultado Exemplos.estado_energia Exemplos.pedido_pinus
              "pinus" Exemplos.pinus)
    as (st' & r & Hc & He & _ & _ & Hm & _).
  - reflexivity.
  - discriminate.
  - reflexivity.
  - repeat split; repeat constructor.
  - exists st', r. split; [exact Hc|]. split; [exact He|]. rewrite Hm. reflexivity.
Defined.


(** X23. The carbon intensity is an intensive quantity.  For an accepted
    request with a positive quantity and a positive PCI whose fertiliser,
    pesticide, land-use and industrial inputs are 0, the carbon intensity is
    (agricultural factor + (road factor * farm distance + mode factor *
    distribution distance) / 1000) / PCI + combustion factor: the quantity of
    biomass cancels out. *)
Theorem X23_intensidade_sem_quantidade (st : Calculo.estado) (e : entrada) (n : string)
    (info : Calculo.perfil) :
  let da := ler_fase (Calculo.objetos st) (fase_agricola e) in
  let di := ler_fase (Calculo.objetos st) (fase_industrial e) in
  let dd := ler_fase (Calculo.objetos st) (fase_distribuicao e) in
  biomassa e = Some n -> n <> "" -> Calculo.biomassas st !! n = Some info ->
  entrada_numerica (Calculo.objetos st) e ->
  0 < campo da "quantidade_biomassa_kg" 0 -> 0 < Calculo.pci info ->
  campo da "uso_fertilizantes_kg" 0 == 0 -> campo da "uso_pesticidas_kg" 0 == 0 ->
  campo da "luc_dluc_opcional_kg_co2" 0 == 0 ->
  campo di "energia_eletrica_kwh" 0 == 0 -> campo di "energia_termica_mj" 0 == 0 ->
  campo di "agua_m3" 0 == 0 ->
  exists st' r,
    Calculo.calcular_intensidade_carbono st e = (st', Ok r)
    /\ Calculo.intensidade_carbono_g_co2_mj r
       == (Calculo.fator_biomassa_agricola info
           + (fator_valor (Calculo.fatores st) "fator_transporte_rodoviario" 62
                * campo da "distancia_transporte_km" 0
              + FaseDistribuicao.fator_do_modal (Calculo.fatores st)
                  (default (VStr "rodoviario") (dd !! "modal_transporte"))
                * campo dd "distancia_km" 0) / 1000)
          / Calculo.pci info
          + fator_valor (Calculo.fatores st) "fator_combustao" 0.
Proof.
  intros da di dd Hb Hn Hi Hnum Hq Hpci Hfe Hpe Hluc Hel Hte Hag.
  destruct (calcular_resultado st e n info Hb Hn Hi Hnum)
    as (r & ra & ri & rd & ru & Hc & Hr & Ha & Hin & Hd & Hu & _ & Hen
        & Hea & Hei & Hed & Heu & _).
  destruct (calcular_fases_ok _ _ _ _ _ _ Hr)
    as (ra' & ri' & rd' & ru' & q' & _ & _ & _ & _ & _ & _ & _
        & Ha' & Hin' & Hd' & Hu' & _ & Ht & _ & Hci & _).
  fold da in Hen, Hea, Hed, Heu. fold di in Hei. fold dd in Hed.
  assert (0 < Calculo.energia_total_mj r) as Hpos.
  { rewrite Hen. apply Qmult_lt_0_compat; assumption. }
  rewrite decide_True in Hci by exact Hpos.
  eexists _, r. split; [exact Hc|].
  rewrite Hci, Ht, <- Ha', <- Hin', <- Hd', <- Hu', Ha, Hin, Hd, Hu, Hen.
  rewrite Hea, Hei, Hed, Heu.
  unfold Spec.agricultural_emissions, Spec.distribution_emissions.
  rewrite Hfe, Hpe, Hluc, Hel, Hte, Hag.
  field. split; intros H0.
  - apply (Qlt_not_eq _ _ Hpci). symmetry. exact H0.
  - apply (Qlt_not_eq _ _ Hq). symmetry. exact H0.
Qed.

Lemma X23_intensidade_sem_quantidade_witness :
  exists st' r,
    Calculo.calcular_intensidade_carbono Exemplos.estado_energia Exemplos.pedido_pinus
    = (st', Ok r)
    /\ Calculo.intensidade_carbono_g_co2_mj r == 45 / 18.5.
Proof.
  destruct (X23_intensidade_sem_quantidade Exemplos.estado_energia Exemplos.pedido_pinus
              "pinus" Exemplos.pinus)
    as (st' & r & Hc & Hci).
  - reflexivity.
  - discriminate.
  - reflexivity.
  - repeat split; repeat constructor.
  - reflexivity.
  - reflexivity.
  - reflexivity.
  - reflexivity.
  - reflexivity.
  - reflexivity.
  - reflexivity.
  - reflexivity.
  - exists st', r. split; [exact Hc|]. rewrite Hci. reflexivity.
Defined.


(** ** The engine as the application sets it up *)

Section Aplicacao.
Import Calculo.






End Aplicacao.


